(** * Conviva analytics integration for the Bitmovin player

    A shallow embedding of the session lifecycle tracker
    ([ConvivaAnalyticsTracker]), of the server-side ad entry points
    ([ConvivaAnalyticsSsai]), of the helpers ([PlayerStateHelper],
    [PlayerConfigHelper], [AdHelper], [PlayerEventWrapper]) and of the
    event wiring of the public facade ([ConvivaAnalytics]), followed
    by the properties of the session state machine and of the
    helpers.

    Every method is a computation in a small monad that threads the
    receiver's fields, records the calls made to the outside world in
    a history, and either returns or raises.  The vendor SDK is an
    oracle of the host: each call on one of its objects may raise. *)

From Stdlib Require Import Bool List String Ascii Arith PeanoNat NArith ZArith Lia.
From Stdlib Require Import DecimalString.
Import ListNotations.

Set Implicit Arguments.
Open Scope string_scope.

(** ** Constants of the vendor SDK *)

(** [Conviva.Constants.PlayerState], the values the integration reports. *)
Inductive PlayerState := BUFFERING | PLAYING | PAUSED | STOPPED.

(** [Conviva.Constants.Playback], the metric keys. *)
Inductive Playback :=
| BITRATE | PLAYER_STATE | PLAY_HEAD_TIME | SEEK_STARTED | SEEK_ENDED
| AUDIO_LANGUAGE | SUBTITLES_LANGUAGE | CLOSED_CAPTIONS_LANGUAGE
| RESOLUTION | RENDERED_FRAMERATE.

Inductive AdType := CLIENT_SIDE | SERVER_SIDE.
Inductive AdPlayer := CONTENT | SEPARATE.
Inductive ErrorSeverity := FATAL | WARNING.

(** [Conviva.SystemSettings.LogLevel]. *)
Inductive LogLevel := LOG_DEBUG | LOG_INFO | LOG_WARNING | LOG_ERROR.

(** [Conviva.ContentMetadata.StreamType]. *)
Inductive StreamType := UNKNOWN | LIVE | VOD.

(** A metric value: a player state, a number, a string, or an omitted
    argument. *)
Inductive MetricValue :=
| VState (s : PlayerState)
| VNum (z : Z)
| VStr (s : string)
| VUndefined.

Definition PlayerState_eqb (a b : PlayerState) : bool :=
  match a, b with
  | BUFFERING, BUFFERING | PLAYING, PLAYING
  | PAUSED, PAUSED | STOPPED, STOPPED => true
  | _, _ => false
  end.

Definition AdType_eqb (a b : AdType) : bool :=
  match a, b with
  | CLIENT_SIDE, CLIENT_SIDE | SERVER_SIDE, SERVER_SIDE => true
  | _, _ => false
  end.

(** ** The player, as the integration observes it *)

(** [PlayerEvent], restricted to the events whose handlers are
    embedded below. *)
Inductive PlayerEvent :=
| Play | Playing | Paused | Seek | Seeked | TimeShift | TimeShifted
| StallStarted | StallEnded | PlaybackFinished
| SourceLoaded | SourceUnloaded
| AdBreakStarted | AdBreakFinished | AdFinished
| Error | Destroy.

Definition PlayerEvent_eqb (a b : PlayerEvent) : bool :=
  match a, b with
  | Play, Play | Playing, Playing | Paused, Paused | Seek, Seek
  | Seeked, Seeked | TimeShift, TimeShift | TimeShifted, TimeShifted
  | StallStarted, StallStarted | StallEnded, StallEnded
  | PlaybackFinished, PlaybackFinished
  | SourceLoaded, SourceLoaded | SourceUnloaded, SourceUnloaded
  | AdBreakStarted, AdBreakStarted | AdBreakFinished, AdBreakFinished
  | AdFinished, AdFinished
  | Error, Error | Destroy, Destroy => true
  | _, _ => false
  end.

(** [Array.prototype.indexOf(x) !== -1] on an array of event types. *)
Definition includes (l : list PlayerEvent) (e : PlayerEvent) : bool :=
  existsb (PlayerEvent_eqb e) l.

(** [PlayerEventBase]; [code] and [name] are the fields of an
    [ErrorEvent] and [seekTarget] that of a [SeekEvent], unused by the
    other events. *)
Record PlayerEventBase := {
  type : PlayerEvent;
  code : N;
  name : string;
  seekTarget : Z
}.

Definition event (ty : PlayerEvent) : PlayerEventBase :=
  {| type := ty; code := 0%N; name := ""; seekTarget := 0%Z |}.

Record SourceConfig := {
  title : option string;
  dash : option string;
  hls : option string;
  progressive : option string;
  vrContentType : option string
}.

Record AudioTrack := { lang : string; label : string }.

Record SubtitleTrack := {
  sub_lang : string;
  sub_label : string;
  kind : string;
  enabled : bool
}.

(** The part of [PlayerConfig] read by [PlayerConfigHelper]. *)
Record PlayerConfig := {
  playback_autoplay : option bool;
  adaptation_mobile_preload : option bool;
  adaptation_desktop_preload : option bool;
  adaptation_preload : option bool
}.

(** What the attached [PlayerAPI] object answers at one moment.  The
    tracker keeps a reference to the player; the player changes on its
    own, which replaces the answers (see [playerChanged] below). *)
Record PlayerAPI := {
  isPlaying : bool;
  isPaused : bool;
  isStalled : bool;
  isLive : bool;
  getDuration : Z;
  getSource : option SourceConfig;
  getStreamType : string;
  getPlayerType : string;
  version : string;
  getAudio : option AudioTrack;
  subtitles : option (list SubtitleTrack);
  getConfig : PlayerConfig;
  (** [BrowserUtils.isMobile()], a property of the host browser *)
  isMobile : bool
}.

(** ** Content metadata *)

Record Metadata := {
  assetName : option string;
  viewerId : option string;
  streamType : option StreamType;
  applicationName : option string;
  duration : option Z;
  streamUrl : option string;
  encodedFrameRate : option Z;
  custom : list (string * string)
}.

Definition emptyMetadata : Metadata :=
  {| assetName := None; viewerId := None; streamType := None;
     applicationName := None; duration := None; streamUrl := None;
     encodedFrameRate := None; custom := [] |}.

(** JavaScript truthiness of an optional string: [undefined] and the
    empty string are falsy. *)
Definition truthy (s : option string) : bool :=
  match s with
  | Some (String _ _) => true
  | _ => false
  end.

(** [a || b] on optional strings. *)
Definition orElse (a b : option string) : option string :=
  if truthy a then a else b.

(** [a ?? b]-like choice for fields without a falsy defined value. *)
Definition firstSome {A} (a b : option A) : option A :=
  match a with
  | Some _ => a
  | None => b
  end.

(** [{ ...old, ...new }] on string-keyed tags: the keys of [new] win. *)
Fixpoint assign (old new : list (string * string)) : list (string * string) :=
  match new with
  | [] => old
  | (k, v) :: rest =>
      assign ((k, v) :: filter (fun kv => negb (String.eqb (fst kv) k)) old) rest
  end.

(** Modelled from the spec: the class [ContentMetadataBuilder]
    ([ContentMetadataBuilder.ts]) is not among the sources.  It keeps
    the caller's overrides apart from the values derived from the
    player, merges them with the overrides winning, remembers the last
    snapshot so that the asset name is set once and the fields of the
    start-up window stop changing after the first frame, and [reset]
    clears everything.  Its data-quality warnings go to the logger
    only and are left out. *)
Record ContentMetadataBuilder := {
  metadataOverrides : Metadata;
  derived : Metadata;
  playbackStarted : bool;
  contentMetadata : Metadata
}.

Module Builder.

Definition empty : ContentMetadataBuilder :=
  {| metadataOverrides := emptyMetadata; derived := emptyMetadata;
     playbackStarted := false; contentMetadata := emptyMetadata |}.

(** Modelled from the spec: [setOverrides(partial)] replaces only
    the provided keys; unspecified keys retain prior values. *)
Definition setOverrides (o : Metadata) (b : ContentMetadataBuilder)
  : ContentMetadataBuilder :=
  let old := metadataOverrides b in
  {| metadataOverrides :=
       {| assetName := firstSome (assetName o) (assetName old);
          viewerId := firstSome (viewerId o) (viewerId old);
          streamType := firstSome (streamType o) (streamType old);
          applicationName := firstSome (applicationName o) (applicationName old);
          duration := firstSome (duration o) (duration old);
          streamUrl := firstSome (streamUrl o) (streamUrl old);
          encodedFrameRate := firstSome (encodedFrameRate o) (encodedFrameRate old);
          custom := assign (custom old) (custom o) |};
     derived := derived b;
     playbackStarted := playbackStarted b;
     contentMetadata := contentMetadata b |}.

Definition withDerived (f : Metadata -> Metadata) (b : ContentMetadataBuilder)
  : ContentMetadataBuilder :=
  {| metadataOverrides := metadataOverrides b;
     derived := f (derived b);
     playbackStarted := playbackStarted b;
     contentMetadata := contentMetadata b |}.

(** Modelled from the spec: the getter [assetName], overrides first. *)
Definition get_assetName (b : ContentMetadataBuilder) : option string :=
  orElse (assetName (metadataOverrides b)) (assetName (derived b)).

Definition get_viewerId (b : ContentMetadataBuilder) : option string :=
  orElse (viewerId (metadataOverrides b)) (viewerId (derived b)).

Definition set_assetName (v : option string) :=
  withDerived (fun m =>
    {| assetName := v; viewerId := viewerId m; streamType := streamType m;
       applicationName := applicationName m; duration := duration m;
       streamUrl := streamUrl m; encodedFrameRate := encodedFrameRate m;
       custom := custom m |}).

Definition set_viewerId (v : option string) :=
  withDerived (fun m =>
    {| assetName := assetName m; viewerId := v; streamType := streamType m;
       applicationName := applicationName m; duration := duration m;
       streamUrl := streamUrl m; encodedFrameRate := encodedFrameRate m;
       custom := custom m |}).

Definition set_streamType (v : StreamType) :=
  withDerived (fun m =>
    {| assetName := assetName m; viewerId := viewerId m; streamType := Some v;
       applicationName := applicationName m; duration := duration m;
       streamUrl := streamUrl m; encodedFrameRate := encodedFrameRate m;
       custom := custom m |}).

Definition set_duration (v : Z) :=
  withDerived (fun m =>
    {| assetName := assetName m; viewerId := viewerId m; streamType := streamType m;
       applicationName := applicationName m; duration := Some v;
       streamUrl := streamUrl m; encodedFrameRate := encodedFrameRate m;
       custom := custom m |}).

Definition set_streamUrl (v : option string) :=
  withDerived (fun m =>
    {| assetName := assetName m; viewerId := viewerId m; streamType := streamType m;
       applicationName := applicationName m; duration := duration m;
       streamUrl := v; encodedFrameRate := encodedFrameRate m;
       custom := custom m |}).

(** Modelled from the spec: derived custom tags never replace a tag
    the caller supplied (overrides win when the snapshot is built),
    so they are merged into the derived layer. *)
Definition addToCustom (tags : list (string * string)) :=
  withDerived (fun m =>
    {| assetName := assetName m; viewerId := viewerId m; streamType := streamType m;
       applicationName := applicationName m; duration := duration m;
       streamUrl := streamUrl m; encodedFrameRate := encodedFrameRate m;
       custom := assign (custom m) tags |}).

Definition setPlaybackStarted (v : bool) (b : ContentMetadataBuilder)
  : ContentMetadataBuilder :=
  {| metadataOverrides := metadataOverrides b;
     derived := derived b;
     playbackStarted := v;
     contentMetadata := contentMetadata b |}.

(** Modelled from the spec: [build()] merges overrides over derived
    values over previously set custom tags.  The asset name is set
    once; viewer id, stream type, application name, duration and
    custom tags follow the merge only before the first frame;
    stream URL and encoded frame rate follow it throughout.  The
    snapshot is remembered in the builder. *)
Definition build (b : ContentMetadataBuilder) : Metadata * ContentMetadataBuilder :=
  let o := metadataOverrides b in
  let d := derived b in
  let last := contentMetadata b in
  let started := playbackStarted b in
  let snapshot :=
    {| assetName :=
         if started then assetName last
         else if truthy (assetName last) then assetName last
              else get_assetName b;
       viewerId := if started then viewerId last else get_viewerId b;
       streamType :=
         if started then streamType last
         else firstSome (streamType o) (streamType d);
       applicationName :=
         if started then applicationName last
         else orElse (applicationName o) (applicationName d);
       duration :=
         if started then duration last
         else firstSome (duration o) (duration d);
       streamUrl := orElse (streamUrl o) (streamUrl d);
       encodedFrameRate := firstSome (encodedFrameRate o) (encodedFrameRate d);
       custom :=
         if started then custom last
         else assign (assign (custom last) (custom d)) (custom o) |} in
  (snapshot,
   {| metadataOverrides := o; derived := d;
      playbackStarted := started; contentMetadata := snapshot |}).

(** Modelled from the spec: [reset()] clears all accumulated state. *)
Definition reset (_ : ContentMetadataBuilder) : ContentMetadataBuilder := empty.

End Builder.

(** ** Calls on the vendor SDK *)

(** A [Conviva.VideoAnalytics] or [Conviva.AdAnalytics] object, named
    by the number of the monitoring session it was built for. *)
Definition Handle := nat.

Module VideoAnalytics.
(** Methods of [Conviva.VideoAnalytics] the integration calls. *)
Inductive call :=
| reportPlaybackRequested (info : Metadata)
| reportPlaybackMetric (key : Playback) (v v2 : MetricValue)
| reportPlaybackEnded
| reportPlaybackFailed (message : string)
| reportPlaybackEvent (eventName : string) (attrs : list (string * string))
| reportAppEvent (eventName : string) (attrs : list (string * string))
| reportAdBreakStarted (ty : AdType) (player : AdPlayer)
| reportAdBreakEnded
| setPlayerInfo (frameworkVersion : string)
| setContentInfo (info : Metadata)
| setCallback
| getSessionId
| release.
End VideoAnalytics.

Module AdAnalytics.
(** Methods of [Conviva.AdAnalytics] the integration calls. *)
Inductive call :=
| reportAdMetric (key : Playback) (v v2 : MetricValue)
| reportAdSkipped
| reportAdStarted (adInfo : list (string * string))
| reportAdEnded
| reportAdError (error : string) (severity : ErrorSeverity)
| setAdPlayerInfo (frameworkVersion : string)
| release.
End AdAnalytics.

Inductive SdkCall :=
| BuildVideoAnalytics                       (* Conviva.Analytics.buildVideoAnalytics() *)
| BuildAdAnalytics (video : Handle)         (* Conviva.Analytics.buildAdAnalytics(video) *)
| Video (h : Handle) (c : VideoAnalytics.call)
| Ad (h : Handle) (c : AdAnalytics.call)
| AnalyticsRelease.                         (* Conviva.Analytics.release() *)

(** What the integration does to the outside world. *)
Inductive Effect :=
| Sdk (c : SdkCall)                           (* a call on the vendor SDK *)
| LoggerLog (msg : string) (level : LogLevel) (* this.logger.consoleLog *)
| ConsoleLog (msg : string).                  (* console.log, from debugLog *)

(** The history of effects, latest first. *)
Definition History := list Effect.

(** ** Exceptions and the method monad *)

Inductive Exn :=
| JsError (msg : string)   (* throw new Error(msg) *)
| JsString (msg : string)  (* throw 'msg' *)
| TypeError                (* member access on null or undefined *)
| RangeError               (* the call stack is exhausted *)
| SdkException.            (* raised by a method of the vendor SDK *)

Inductive Outcome (A : Type) :=
| Returned (a : A)
| Raised (e : Exn).
Arguments Raised {A} e.

(** The host of a run: which SDK calls raise (it may depend on all
    that happened before), and how many nested calls the stack still
    takes. *)
Record Host := {
  sdkThrows : History -> SdkCall -> bool;
  callStack : nat
}.

(** A method with receiver state [S] and result [A]. *)
Definition M (S A : Type) : Type :=
  Host -> S -> History -> Outcome A * S * History.

Definition ret {S A} (a : A) : M S A :=
  fun _ s h => (Returned a, s, h).

Definition bind {S A B} (m : M S A) (k : A -> M S B) : M S B :=
  fun host s h =>
    match m host s h with
    | (Returned a, s', h') => k a host s' h'
    | (Raised e, s', h') => (Raised e, s', h')
    end.

Declare Scope method_scope.
Delimit Scope method_scope with method.
Notation "x <- m ;; k" := (bind m (fun x => k))
  (at level 61, m at next level, right associativity) : method_scope.
Notation "m ;; k" := (bind m (fun _ => k))
  (at level 61, right associativity) : method_scope.
Open Scope method_scope.

Definition throw {S A} (e : Exn) : M S A :=
  fun _ s h => (Raised e, s, h).

(** [try { body } catch (error) { handler }]. *)
Definition tryCatch {S A} (body : M S A) (handler : Exn -> M S A) : M S A :=
  fun host s h =>
    match body host s h with
    | (Returned a, s', h') => (Returned a, s', h')
    | (Raised e, s', h') => handler e host s' h'
    end.

Definition get {S} : M S S :=
  fun _ s h => (Returned s, s, h).

Definition gets {S A} (f : S -> A) : M S A :=
  fun _ s h => (Returned (f s), s, h).

Definition modify {S} (f : S -> S) : M S unit :=
  fun _ s h => (Returned tt, f s, h).

Definition emit {S} (e : Effect) : M S unit :=
  fun _ s h => (Returned tt, s, e :: h).

(** A call on the SDK: recorded, then it returns or raises as the
    host decides. *)
Definition sdk {S} (c : SdkCall) : M S unit :=
  fun host s h =>
    if sdkThrows host h c
    then (Raised SdkException, s, Sdk c :: h)
    else (Returned tt, s, Sdk c :: h).

Definition when {S} (b : bool) (m : M S unit) : M S unit :=
  if b then m else ret tt.

(** Run a method of a component on the field of an enclosing object. *)
Definition zoom {S T A} (proj : S -> T) (upd : T -> S -> S) (m : M T A) : M S A :=
  fun host s h =>
    match m host (proj s) h with
    | (o, t', h') => (o, upd t' s, h')
    end.

Definition outcome {A S} (r : Outcome A * S * History) : Outcome A := fst (fst r).
Definition final {A S} (r : Outcome A * S * History) : S := snd (fst r).
Definition effects {A S} (r : Outcome A * S * History) : History := snd r.

(** ** PlayerStateHelper *)

Module PlayerStateHelper.

Definition getPlayerStateFromEvent (ev : PlayerEventBase) (player : PlayerAPI)
  : option PlayerState :=
  match type ev with
  | StallStarted => Some BUFFERING
  | Playing => Some PLAYING
  | Paused => Some PAUSED
  | Seeked | TimeShifted | StallEnded =>
      if isPlaying player then Some PLAYING else Some PAUSED
  | _ => None
  end.

Definition getPlayerState (player : PlayerAPI) : PlayerState :=
  if isStalled player then BUFFERING
  else if isPlaying player then PLAYING
  else PAUSED.

End PlayerStateHelper.

(** The string behind a [Conviva.Constants.PlayerState] value, as it
    shows when interpolated in a log message. *)
Definition PlayerState_name (s : PlayerState) : string :=
  match s with
  | BUFFERING => "BUFFERING"
  | PLAYING => "PLAYING"
  | PAUSED => "PAUSED"
  | STOPPED => "STOPPED"
  end.

(** ** PlayerConfigHelper *)

Module PlayerConfigHelper.

Definition AUTOPLAY_DEFAULT_CONFIG : bool := false.

Definition getAutoplayConfig (player : PlayerAPI) : bool :=
  match playback_autoplay (getConfig player) with
  | Some b => b
  | None => AUTOPLAY_DEFAULT_CONFIG
  end.

Definition getPreloadConfig (player : PlayerAPI) : bool :=
  let playerConfig := getConfig player in
  let platform :=
    if isMobile player
    then adaptation_mobile_preload playerConfig
    else adaptation_desktop_preload playerConfig in
  match platform with
  | Some b => b
  | None =>
      match adaptation_preload playerConfig with
      | Some b => b
      | None => negb (isLive player)
      end
  end.

End PlayerConfigHelper.

(** [b + ''] on a boolean. *)
Definition string_of_bool (b : bool) : string :=
  if b then "true" else "false".

(** [String(n)] on a non-negative integer. *)
Definition string_of_N (n : N) : string :=
  NilZero.string_of_uint (N.to_uint n).

(** ** The stall timer *)

(** [Timeout] of the player UI framework (a dependency of the
    integration), by its contract: armed with a fixed delay and a
    callback, it is either idle, or pending with the milliseconds left
    until the callback runs.  [start] arms it anew whatever its state,
    [clear] makes it idle.  Time is counted in whole milliseconds. *)
Module Timeout.

Definition t := option nat.

Definition idle : t := None.

Definition start (delay : nat) (_ : t) : t := Some delay.

Definition clear (_ : t) : t := None.

Definition isActive (x : t) : bool :=
  match x with
  | Some _ => true
  | None => false
  end.

End Timeout.

(** ** ConvivaAnalyticsTracker *)

Definition AUTOPLAY_CONTENT_METADATA_CUSTOM_TAG := "autoplay".
Definition PRELOAD_CONTENT_METADATA_CUSTOM_TAG := "preload".
Definition INTEGRATION_VERSION_CONTENT_METADATA_CUSTOM_TAG := "integrationVersion".
Definition PLAYER_TYPE_CONTENT_METADATA_CUSTOM_TAG := "playerType".
Definition STREAM_TYPE_CONTENT_METADATA_CUSTOM_TAG := "streamType".
Definition VR_CONTENT_TYPE_CONTENT_METADATA_CUSTOM_TAG := "vrContentType".

(** ** Metadata objects of the vendor SDK *)

(** [Conviva.Constants]: the keys of a metadata object, and the
    strings behind the ad constants. *)
Module Constants.

Definition ASSET_NAME := "Conviva.assetName".
Definition PLAYER_NAME := "Conviva.applicationName".
Definition IS_LIVE := "Conviva.streamType".
Definition ENCODED_FRAMERATE := "Conviva.encodedFrameRate".
Definition DEFAULT_RESOURCE := "Conviva.defaultResource".
Definition STREAM_URL := "Conviva.streamUrl".
Definition VIEWER_ID := "Conviva.viewerId".
Definition DURATION := "Conviva.duration".

End Constants.

(** [Conviva.Constants.AdPosition]. *)
Inductive AdPosition := PREROLL | MIDROLL | POSTROLL.

Definition AdPosition_name (p : AdPosition) : string :=
  match p with
  | PREROLL => "Pre-roll"
  | MIDROLL => "Mid-roll"
  | POSTROLL => "Post-roll"
  end.

Definition AdType_name (ty : AdType) : string :=
  match ty with
  | CLIENT_SIDE => "Client Side"
  | SERVER_SIDE => "Server Side"
  end.

(** A property value of a [Conviva.ConvivaMetadata] object. *)
Inductive MetaValue :=
| MStr (s : string)
| MNum (z : Z)
| MNull
| MUndefined.

(** JavaScript truthiness of such a value. *)
Definition truthyValue (v : MetaValue) : bool :=
  match v with
  | MStr (String _ _) => true
  | MNum z => negb (Z.eqb z 0)
  | _ => false
  end.

(** A [Conviva.ConvivaMetadata] object: its own properties with their
    values, in the order of their creation; a key occurs once. *)
Definition ConvivaMetadata := list (string * MetaValue).

(** [o[key]]: [undefined] when [o] has no such property. *)
Fixpoint getProp (key : string) (o : ConvivaMetadata) : MetaValue :=
  match o with
  | [] => MUndefined
  | (k, v) :: rest => if String.eqb k key then v else getProp key rest
  end.

(** [o[key] = value]: an existing property keeps its place and takes
    the value, a new one comes last. *)
Fixpoint setProp (key : string) (value : MetaValue) (o : ConvivaMetadata) : ConvivaMetadata :=
  match o with
  | [] => [(key, value)]
  | (k, v) :: rest =>
      if String.eqb k key then (k, value) :: rest
      else (k, v) :: setProp key value rest
  end.

(** [{ ...o, ...source }], and the properties of an object literal
    written after a spread: each is defined on what came before. *)
Definition spread (source : ConvivaMetadata) (o : ConvivaMetadata) : ConvivaMetadata :=
  fold_left (fun acc kv => setProp (fst kv) (snd kv) acc) source o.

(** ** AdHelper *)

(** [SsaiAdInfo], what the application tells about a server-side ad. *)
Module SsaiAdInfo.
Record t := {
  id : string;
  title : option string;
  duration : option Z;
  adSystem : option string;
  position : option AdPosition;
  isSlate : option bool;
  adStitcher : option string;
  additionalMetadata : option (list (string * string))
}.
End SsaiAdInfo.

(** The fields of an [ErrorEvent] of an ad that
    [AdHelper.formatCsaiAdError] reads. *)
Module AdErrorEvent.
Record t := {
  message : option string;
  name : option string;
  code : N;
  data_code : option N;             (* event.data?.code *)
  troubleShootLink : option string
}.
End AdErrorEvent.

Module AdHelper.

(** [text || fallback] on an optional string. *)
Definition orDefault (text : option string) (fallback : string) : string :=
  match text with
  | Some (String c s) => String c s
  | _ => fallback
  end.

(** [mapCsaiAdPosition(adBreak, player)] on [adBreak.scheduleTime],
    in the unit of [player.getDuration()]. *)
Definition mapCsaiAdPosition (scheduleTime : Z) (player : PlayerAPI) : AdPosition :=
  if (scheduleTime <=? 0)%Z then PREROLL
  else if (getDuration player <=? scheduleTime)%Z then POSTROLL
  else MIDROLL.

(** [parts.filter(Boolean)]: the parts that are there. *)
Fixpoint filterBoolean (parts : list (option string)) : list string :=
  match parts with
  | [] => []
  | Some (String c s) :: rest => String c s :: filterBoolean rest
  | _ :: rest => filterBoolean rest
  end.

Definition formatCsaiAdError (event : AdErrorEvent.t) : string :=
  let message := orDefault (AdErrorEvent.message event) "Unknown message" in
  let name := orDefault (AdErrorEvent.name event) "Unknown name" in
  let formattedErrorParts :=
    filterBoolean
      [ Some "Ad error:";
        Some (name ++ ";");
        match AdErrorEvent.data_code event with
        | Some c => if N.eqb c 0 then None
                    else Some ("Ad error code: " ++ string_of_N c ++ ";")
        | None => None
        end;
        Some "Message:";
        Some (message ++ ";");
        Some ("Error code: " ++ string_of_N (AdErrorEvent.code event) ++ ";");
        match AdErrorEvent.troubleShootLink event with
        | Some (String c l) => Some ("Troubleshoot link: " ++ String c l)
        | _ => None
        end ] in
  String.concat " " formattedErrorParts.

Definition keysToPick : list string :=
  [ INTEGRATION_VERSION_CONTENT_METADATA_CUSTOM_TAG;
    STREAM_TYPE_CONTENT_METADATA_CUSTOM_TAG;
    Constants.ASSET_NAME;
    Constants.IS_LIVE;
    Constants.DEFAULT_RESOURCE;
    Constants.ENCODED_FRAMERATE;
    Constants.VIEWER_ID;
    Constants.PLAYER_NAME ].

Definition convertSsaiAdInfoToConvivaAdInfo (ssaiAdInfo : SsaiAdInfo.t)
  (allCurrentContentMetadata : ConvivaMetadata) : ConvivaMetadata :=
  let selectedCurrentContentMetadata :=
    fold_left
      (fun selected key => setProp key (getProp key allCurrentContentMetadata) selected)
      keysToPick [] in
  let additional :=
    match SsaiAdInfo.additionalMetadata ssaiAdInfo with
    | Some tags => map (fun kv => (fst kv, MStr (snd kv))) tags
    | None => []
    end in
  let adInfo :=
    spread
      [ ("c3.ad.id", MStr (SsaiAdInfo.id ssaiAdInfo));
        ("c3.ad.technology", MStr (AdType_name SERVER_SIDE));
        ("c3.ad.position",
         match SsaiAdInfo.position ssaiAdInfo with
         | Some p => MStr (AdPosition_name p)
         | None => MStr "NA"
         end);
        ("c3.ad.system", MStr (orDefault (SsaiAdInfo.adSystem ssaiAdInfo) "NA"));
        (Constants.ASSET_NAME,
         if truthy (SsaiAdInfo.title ssaiAdInfo)
         then MStr (orDefault (SsaiAdInfo.title ssaiAdInfo) "NA")
         else if truthyValue (getProp Constants.ASSET_NAME selectedCurrentContentMetadata)
              then getProp Constants.ASSET_NAME selectedCurrentContentMetadata
              else MStr "NA");
        ("c3.ad.adStitcher", MStr (orDefault (SsaiAdInfo.adStitcher ssaiAdInfo) "NA"));
        ("c3.ad.isSlate",
         match SsaiAdInfo.isSlate ssaiAdInfo with
         | None => MStr "NA"
         | Some b => MStr (string_of_bool b)
         end) ]
      (spread additional (spread selectedCurrentContentMetadata [])) in
  match SsaiAdInfo.duration ssaiAdInfo with
  | Some d => if Z.eqb d 0 then adInfo else setProp Constants.DURATION (MNum d) adInfo
  | None => adInfo
  end.

End AdHelper.

(** ** PlayerEventWrapper *)

(** A callback, by its identity. *)
Definition Callback := nat.

(** The calls a wrapper makes on its player. *)
Inductive PlayerCall :=
| On (eventType : PlayerEvent) (callback : Callback)    (* player.on(eventType, callback) *)
| Off (eventType : PlayerEvent) (callback : Callback).  (* player.off(eventType, callback) *)

Module PlayerEventWrapper.

(** [eventHandlers]: the event types in the order they were first
    added, each with its array of callbacks. *)
Definition Self := list (PlayerEvent * list Callback).

Definition new : Self := [].

(** [this.eventHandlers[eventType]]. *)
Fixpoint handlersOf (eventType : PlayerEvent) (w : Self) : option (list Callback) :=
  match w with
  | [] => None
  | (e, callbacks) :: rest =>
      if PlayerEvent_eqb e eventType then Some callbacks else handlersOf eventType rest
  end.

(** Replace the array of [eventType] by [f] of it. *)
Fixpoint onHandlers (eventType : PlayerEvent) (f : list Callback -> list Callback) (w : Self)
  : Self :=
  match w with
  | [] => []
  | (e, callbacks) :: rest =>
      if PlayerEvent_eqb e eventType then (e, f callbacks) :: rest
      else (e, callbacks) :: onHandlers eventType f rest
  end.

(** [add(eventType, callback)]: the calls made on the player, and
    the wrapper afterwards. *)
Definition add (eventType : PlayerEvent) (callback : Callback) (w : Self)
  : list PlayerCall * Self :=
  ([On eventType callback],
   match handlersOf eventType w with
   | None => (w ++ [(eventType, [callback])])%list
   | Some _ => onHandlers eventType (fun callbacks => (callbacks ++ [callback])%list) w
   end).

(** [ArrayUtils.remove(array, item)] of the player UI framework (a
    dependency of the integration), by its contract: the first
    occurrence of [item] is spliced out of [array], if there is one. *)
Fixpoint arrayRemove (item : Callback) (array : list Callback) : list Callback :=
  match array with
  | [] => []
  | x :: rest => if Nat.eqb x item then rest else x :: arrayRemove item rest
  end.

Definition remove (eventType : PlayerEvent) (callback : Callback) (w : Self)
  : list PlayerCall * Self :=
  ([Off eventType callback], onHandlers eventType (arrayRemove callback) w).

(** [for (const callback of this.eventHandlers[eventType]) {
    this.remove(eventType, callback) }], from the index [index] on:
    the iterator reads the array as it is at each step, and stops when
    its index is past the end.  An array never grows here, so its
    length bounds the number of steps: [steps] counts them down. *)
Fixpoint removeEach (steps index : nat) (eventType : PlayerEvent) (w : Self)
  : list PlayerCall * Self :=
  match steps with
  | O => ([], w)
  | S steps' =>
      match handlersOf eventType w with
      | None => ([], w)
      | Some callbacks =>
          match nth_error callbacks index with
          | None => ([], w)
          | Some callback =>
              let removed := remove eventType callback w in
              let later := removeEach steps' (S index) eventType (snd removed) in
              ((fst removed ++ fst later)%list, snd later)
          end
      end
  end.

(** The inner loop of [clear] for one event type. *)
Definition clearType (eventType : PlayerEvent) (w : Self) : list PlayerCall * Self :=
  match handlersOf eventType w with
  | None => ([], w)
  | Some callbacks => removeEach (List.length callbacks) 0 eventType w
  end.

(** [clear()]: the event types are enumerated as they are when the
    loop starts. *)
Definition clear (w : Self) : list PlayerCall * Self :=
  fold_left
    (fun acc eventType =>
       let cleared := clearType eventType (snd acc) in
       ((fst acc ++ fst cleared)%list, snd cleared))
    (map fst w) ([], w).

End PlayerEventWrapper.

(** What [player.getPlaybackVideoData()] answers. *)
Record PlaybackVideoData := {
  width : N;
  height : N;
  frameRate : option Z
}.

(** The fields of a tracker.  [handlers] is left out: it is set with
    [_player] and dropped with it. *)
Record ConvivaAnalyticsTracker := {
  _player : option PlayerAPI;
  debugLoggingEnabled : bool;              (* config.debugLoggingEnabled *)
  contentMetadataBuilder : ContentMetadataBuilder;
  sessionKey : option nat;                 (* None is NO_SESSION_KEY *)
  convivaVideoAnalytics : option Handle;
  convivaAdAnalytics : option Handle;
  _isAdBreakActive : bool;
  hasPlayed : bool;
  stallTrackingTimeout : Timeout.t;
  sessionEndedExternally : bool
}.

Module Tracker.

Definition Self := ConvivaAnalyticsTracker.

Definition VERSION := "{{VERSION}}".
Definition STALL_TRACKING_DELAY_MS : nat := 100.

(** *** Field updates *)

Definition set_player (v : option PlayerAPI) (t : Self) : Self :=
  {| _player := v;
     debugLoggingEnabled := debugLoggingEnabled t;
     contentMetadataBuilder := contentMetadataBuilder t;
     sessionKey := sessionKey t;
     convivaVideoAnalytics := convivaVideoAnalytics t;
     convivaAdAnalytics := convivaAdAnalytics t;
     _isAdBreakActive := _isAdBreakActive t;
     hasPlayed := hasPlayed t;
     stallTrackingTimeout := stallTrackingTimeout t;
     sessionEndedExternally := sessionEndedExternally t |}.

Definition set_contentMetadataBuilder (v : ContentMetadataBuilder) (t : Self) : Self :=
  {| _player := _player t;
     debugLoggingEnabled := debugLoggingEnabled t;
     contentMetadataBuilder := v;
     sessionKey := sessionKey t;
     convivaVideoAnalytics := convivaVideoAnalytics t;
     convivaAdAnalytics := convivaAdAnalytics t;
     _isAdBreakActive := _isAdBreakActive t;
     hasPlayed := hasPlayed t;
     stallTrackingTimeout := stallTrackingTimeout t;
     sessionEndedExternally := sessionEndedExternally t |}.

Definition set_sessionKey (v : option nat) (t : Self) : Self :=
  {| _player := _player t;
     debugLoggingEnabled := debugLoggingEnabled t;
     contentMetadataBuilder := contentMetadataBuilder t;
     sessionKey := v;
     convivaVideoAnalytics := convivaVideoAnalytics t;
     convivaAdAnalytics := convivaAdAnalytics t;
     _isAdBreakActive := _isAdBreakActive t;
     hasPlayed := hasPlayed t;
     stallTrackingTimeout := stallTrackingTimeout t;
     sessionEndedExternally := sessionEndedExternally t |}.

Definition set_convivaVideoAnalytics (v : option Handle) (t : Self) : Self :=
  {| _player := _player t;
     debugLoggingEnabled := debugLoggingEnabled t;
     contentMetadataBuilder := contentMetadataBuilder t;
     sessionKey := sessionKey t;
     convivaVideoAnalytics := v;
     convivaAdAnalytics := convivaAdAnalytics t;
     _isAdBreakActive := _isAdBreakActive t;
     hasPlayed := hasPlayed t;
     stallTrackingTimeout := stallTrackingTimeout t;
     sessionEndedExternally := sessionEndedExternally t |}.

Definition set_convivaAdAnalytics (v : option Handle) (t : Self) : Self :=
  {| _player := _player t;
     debugLoggingEnabled := debugLoggingEnabled t;
     contentMetadataBuilder := contentMetadataBuilder t;
     sessionKey := sessionKey t;
     convivaVideoAnalytics := convivaVideoAnalytics t;
     convivaAdAnalytics := v;
     _isAdBreakActive := _isAdBreakActive t;
     hasPlayed := hasPlayed t;
     stallTrackingTimeout := stallTrackingTimeout t;
     sessionEndedExternally := sessionEndedExternally t |}.

Definition set_isAdBreakActive (v : bool) (t : Self) : Self :=
  {| _player := _player t;
     debugLoggingEnabled := debugLoggingEnabled t;
     contentMetadataBuilder := contentMetadataBuilder t;
     sessionKey := sessionKey t;
     convivaVideoAnalytics := convivaVideoAnalytics t;
     convivaAdAnalytics := convivaAdAnalytics t;
     _isAdBreakActive := v;
     hasPlayed := hasPlayed t;
     stallTrackingTimeout := stallTrackingTimeout t;
     sessionEndedExternally := sessionEndedExternally t |}.

Definition set_hasPlayed (v : bool) (t : Self) : Self :=
  {| _player := _player t;
     debugLoggingEnabled := debugLoggingEnabled t;
     contentMetadataBuilder := contentMetadataBuilder t;
     sessionKey := sessionKey t;
     convivaVideoAnalytics := convivaVideoAnalytics t;
     convivaAdAnalytics := convivaAdAnalytics t;
     _isAdBreakActive := _isAdBreakActive t;
     hasPlayed := v;
     stallTrackingTimeout := stallTrackingTimeout t;
     sessionEndedExternally := sessionEndedExternally t |}.

Definition set_stallTrackingTimeout (v : Timeout.t) (t : Self) : Self :=
  {| _player := _player t;
     debugLoggingEnabled := debugLoggingEnabled t;
     contentMetadataBuilder := contentMetadataBuilder t;
     sessionKey := sessionKey t;
     convivaVideoAnalytics := convivaVideoAnalytics t;
     convivaAdAnalytics := convivaAdAnalytics t;
     _isAdBreakActive := _isAdBreakActive t;
     hasPlayed := hasPlayed t;
     stallTrackingTimeout := v;
     sessionEndedExternally := sessionEndedExternally t |}.

Definition set_sessionEndedExternally (v : bool) (t : Self) : Self :=
  {| _player := _player t;
     debugLoggingEnabled := debugLoggingEnabled t;
     contentMetadataBuilder := contentMetadataBuilder t;
     sessionKey := sessionKey t;
     convivaVideoAnalytics := convivaVideoAnalytics t;
     convivaAdAnalytics := convivaAdAnalytics t;
     _isAdBreakActive := _isAdBreakActive t;
     hasPlayed := hasPlayed t;
     stallTrackingTimeout := stallTrackingTimeout t;
     sessionEndedExternally := v |}.

(** The tracker as its constructor leaves it.  The constructor's own
    calls ([Conviva.Analytics.setDeviceMetadata] and [init]) come
    before any run and are not part of a history. *)
Definition new (debug : bool) : Self :=
  {| _player := None;
     debugLoggingEnabled := debug;
     contentMetadataBuilder := Builder.empty;
     sessionKey := None;
     convivaVideoAnalytics := None;
     convivaAdAnalytics := None;
     _isAdBreakActive := false;
     hasPlayed := false;
     stallTrackingTimeout := Timeout.idle;
     sessionEndedExternally := false |}.

(** *** Getters *)

Definition player : M Self PlayerAPI :=
  t <- get;;
  match _player t with
  | Some p => ret p
  | None =>
      throw (JsError "Player is not initialized, either pass it to the constructor or attach it via `attachPlayer` before using the integration.")
  end.

Definition isPlayerAttached (t : Self) : bool :=
  match _player t with
  | Some _ => true
  | None => false
  end.

Definition isAdBreakActive (t : Self) : bool := _isAdBreakActive t.

Definition canTrackPlayEvent (t : Self) : bool := negb (_isAdBreakActive t).

Definition isSessionActive (t : Self) : bool :=
  match convivaVideoAnalytics t with
  | Some _ => true
  | None => false
  end.

(** [debugLog]: to the console when debug logging is enabled.  Only
    the message is kept, not the objects printed after it. *)
Definition debugLog (message : string) : M Self unit :=
  t <- get;;
  when (debugLoggingEnabled t) (emit (ConsoleLog message)).

Definition consoleLog (message : string) (level : LogLevel) : M Self unit :=
  emit (LoggerLog message level).

(** *** Calls on the two analytics objects *)

(** [this.convivaVideoAnalytics.method(...)]: a [TypeError] when the
    field is null, else the call. *)
Definition video (c : VideoAnalytics.call) : M Self unit :=
  t <- get;;
  match convivaVideoAnalytics t with
  | Some h => sdk (Video h c)
  | None => throw TypeError
  end.

Definition ad (c : AdAnalytics.call) : M Self unit :=
  t <- get;;
  match convivaAdAnalytics t with
  | Some h => sdk (Ad h c)
  | None => throw TypeError
  end.

(** [this.contentMetadataBuilder.build()]. *)
Definition build : M Self Metadata :=
  t <- get;;
  let built := Builder.build (contentMetadataBuilder t) in
  modify (set_contentMetadataBuilder (snd built));;
  ret (fst built).

Definition getContentMetadata : M Self Metadata := build.

(** *** The report wrappers *)

Definition reportPlaybackMetric (metricKey : Playback) (metricValue metricValue2 : MetricValue)
  : M Self unit :=
  tryCatch
    (video (VideoAnalytics.reportPlaybackMetric metricKey metricValue metricValue2))
    (fun _ => debugLog "[ ConvivaAnalyticsTracker ] error @ reportPlaybackMetric").

Definition reportAppEvent (eventName : string) (eventAttributes : list (string * string))
  : M Self unit :=
  tryCatch
    (video (VideoAnalytics.reportAppEvent eventName eventAttributes))
    (fun _ => debugLog "[ ConvivaAnalyticsTracker ] error @ reportAppEvent").

Definition reportPlaybackEnded : M Self unit :=
  tryCatch
    (video VideoAnalytics.reportPlaybackEnded)
    (fun _ => debugLog "[ ConvivaAnalyticsTracker ] error @ reportPlaybackEnded").

Definition reportPlaybackFailed (message : string) : M Self unit :=
  tryCatch
    (video (VideoAnalytics.reportPlaybackFailed message))
    (fun _ => debugLog "[ ConvivaAnalyticsTracker ] error @ reportPlaybackFailed").

Definition reportPlaybackEvent (eventName : string) (eventAttributes : list (string * string))
  : M Self unit :=
  tryCatch
    (video (VideoAnalytics.reportPlaybackEvent eventName eventAttributes))
    (fun _ => debugLog "[ ConvivaAnalyticsTracker ] error @ reportPlaybackEvent").

Definition reportAdBreakStarted (ty : AdType) (value : AdPlayer) : M Self unit :=
  tryCatch
    (video (VideoAnalytics.reportAdBreakStarted ty value))
    (fun _ => debugLog "[ ConvivaAnalyticsTracker ] error @ reportAdBreakStarted").

Definition reportAdBreakEnded : M Self unit :=
  tryCatch
    (video VideoAnalytics.reportAdBreakEnded)
    (fun _ => debugLog "[ ConvivaAnalyticsTracker ] error @ reportAdBreakEnded").

(** The member [this.convivaVideoAnalytics.reportPlaybackRequested]
    is looked up before its argument is built. *)
Definition reportPlaybackRequested : M Self unit :=
  tryCatch
    (t <- get;;
     match convivaVideoAnalytics t with
     | Some h =>
         info <- build;;
         sdk (Video h (VideoAnalytics.reportPlaybackRequested info))
     | None => throw TypeError
     end)
    (fun _ => debugLog "[ ConvivaAnalyticsTracker ] error @ reportPlaybackRequested").

Definition reportAdMetric (metricKey : Playback) (metricValue metricValue2 : MetricValue)
  : M Self unit :=
  tryCatch
    (ad (AdAnalytics.reportAdMetric metricKey metricValue metricValue2))
    (fun _ => debugLog "[ ConvivaAnalyticsTracker ] error @ reportPlaybackMetric").

Definition reportAdSkipped : M Self unit :=
  tryCatch
    (ad AdAnalytics.reportAdSkipped)
    (fun _ => debugLog "[ ConvivaAnalyticsTracker ] error @ reportAdSkipped").

Definition reportAdStarted (adInfo : list (string * string)) : M Self unit :=
  tryCatch
    (ad (AdAnalytics.reportAdStarted adInfo))
    (fun _ => debugLog "[ ConvivaAnalyticsTracker ] error @ reportAdStarted").

(** [reportAdEnded] calls itself inside its [try]: the calls nest
    until the stack is exhausted, the innermost call raises a
    [RangeError], and the frame that made it catches it.  [stack] is
    the number of nested calls the host still takes below the running
    frame. *)
Fixpoint reportAdEnded_at (stack : nat) : M Self unit :=
  tryCatch
    (match stack with
     | O => throw RangeError
     | S below => reportAdEnded_at below
     end)
    (fun _ => debugLog "[ ConvivaAnalyticsTracker ] error @ reportAdEnded").

Definition reportAdEnded : M Self unit :=
  fun host => reportAdEnded_at (callStack host) host.

Definition reportAdError (error : string) (severity : ErrorSeverity) : M Self unit :=
  tryCatch
    (ad (AdAnalytics.reportAdError error severity))
    (fun _ => debugLog "[ ConvivaAnalyticsTracker ] error @ reportAdError").

(** *** Session lifecycle *)

(** The name of the next video object: the number of objects built
    so far. *)
Definition nextHandle (h : History) : Handle :=
  List.length
    (filter (fun e => match e with Sdk BuildVideoAnalytics => true | _ => false end) h).

(** [Conviva.Analytics.buildVideoAnalytics()]: a new object. *)
Definition buildVideoAnalytics : M Self Handle :=
  fun host s h =>
    (sdk BuildVideoAnalytics;; ret (nextHandle h)) host s h.

(** [Conviva.Analytics.buildAdAnalytics(video)]: the companion of
    [video], under the same name. *)
Definition buildAdAnalytics (v : Handle) : M Self Handle :=
  sdk (BuildAdAnalytics v);; ret v.

(** [this.convivaVideoAnalytics.getSessionId()]. *)
Definition getSessionId : M Self (option nat) :=
  video VideoAnalytics.getSessionId;;
  gets convivaVideoAnalytics.

Definition setPlayerInfo : M Self unit :=
  t <- get;;
  match convivaVideoAnalytics t, convivaAdAnalytics t, _player t with
  | Some _, Some _, Some _ =>
      p <- player;;
      video (VideoAnalytics.setPlayerInfo (version p));;
      ad (AdAnalytics.setAdPlayerInfo (version p))
  | _, _, _ => ret tt
  end.

Definition getUrlFromSource (p : PlayerAPI) (source : SourceConfig) : option string :=
  if String.eqb (getStreamType p) "dash" then dash source
  else if String.eqb (getStreamType p) "hls" then hls source
  else if String.eqb (getStreamType p) "progressive" then progressive source
  else None.

Definition getAssetNameFromSource (source : SourceConfig) : string :=
  if truthy (title source)
  then match title source with Some s => s | None => "" end
  else "Untitled (no source.title set)".

Definition onBuilder (f : ContentMetadataBuilder -> ContentMetadataBuilder) : M Self unit :=
  modify (fun t => set_contentMetadataBuilder (f (contentMetadataBuilder t)) t).

(** A custom tag whose value is [undefined] is not recorded. *)
Definition tag (key : string) (value : option string) : list (string * string) :=
  match value with
  | Some v => [(key, v)]
  | None => []
  end.

Definition buildContentMetadata : M Self unit :=
  t <- get;;
  if negb (isPlayerAttached t) then
    debugLog "[ ConvivaAnalyticsTracker ] Player is not attached, skipping default content metadata initialization, it will be initialized on source loaded event"
  else
    p <- player;;
    onBuilder (Builder.set_duration (getDuration p));;
    onBuilder (Builder.set_streamType (if isLive p then LIVE else VOD));;
    onBuilder (Builder.addToCustom
      [ (AUTOPLAY_CONTENT_METADATA_CUSTOM_TAG,
         string_of_bool (PlayerConfigHelper.getAutoplayConfig p));
        (PRELOAD_CONTENT_METADATA_CUSTOM_TAG,
         string_of_bool (PlayerConfigHelper.getPreloadConfig p));
        (INTEGRATION_VERSION_CONTENT_METADATA_CUSTOM_TAG, VERSION) ]);;
    match getSource p with
    | Some source =>
        onBuilder (Builder.set_assetName (Some (getAssetNameFromSource source)));;
        onBuilder (fun b => Builder.set_viewerId (Builder.get_viewerId b) b);;
        onBuilder (Builder.addToCustom
          ([ (PLAYER_TYPE_CONTENT_METADATA_CUSTOM_TAG, getPlayerType p);
             (STREAM_TYPE_CONTENT_METADATA_CUSTOM_TAG, getStreamType p) ]
           ++ tag VR_CONTENT_TYPE_CONTENT_METADATA_CUSTOM_TAG (vrContentType source)));;
        onBuilder (Builder.set_streamUrl (getUrlFromSource p source))
    | None => ret tt
    end.

Definition updateSession : M Self unit :=
  t <- get;;
  if negb (isSessionActive t) then ret tt
  else
    match convivaVideoAnalytics t with
    | Some h =>
        info <- build;;
        sdk (Video h (VideoAnalytics.setContentInfo info))
    | None => throw TypeError
    end.

(** The callback handed to [setCallback], which the SDK invokes to
    pull the playhead; [playheadTimeMs] is [None] when the player's
    current time is not finite. *)
Definition playheadCallback (playheadTimeMs : option Z) : M Self unit :=
  t <- get;;
  if negb (isPlayerAttached t) then ret tt
  else
    match playheadTimeMs with
    | None => ret tt
    | Some ms =>
        if _isAdBreakActive t then
          debugLog "[ ConvivaAnalyticsTracker ] report ad player head time";;
          reportAdMetric PLAY_HEAD_TIME (VNum ms) VUndefined
        else
          debugLog "[ ConvivaAnalyticsTracker ] report player head time";;
          reportPlaybackMetric PLAY_HEAD_TIME (VNum ms) VUndefined
    end.

Definition internalInitializeSession : M Self unit :=
  debugLog "[ ConvivaAnalyticsTracker ] initializing session";;
  buildContentMetadata;;
  v <- buildVideoAnalytics;;
  modify (set_convivaVideoAnalytics (Some v));;
  a <- buildAdAnalytics v;;
  modify (set_convivaAdAnalytics (Some a));;
  debugLog "[ ConvivaAnalyticsTracker ] report playback requested";;
  reportPlaybackRequested;;
  key <- getSessionId;;
  modify (set_sessionKey key);;
  debugLog "[ ConvivaAnalyticsTracker ] new session key";;
  setPlayerInfo;;
  reportPlaybackMetric PLAYER_STATE (VState STOPPED) VUndefined;;
  video VideoAnalytics.setCallback;;
  t <- get;;
  when (negb (isSessionActive t))
    (consoleLog "[ ConvivaAnalyticsTracker ] Something went wrong, could not obtain session key" LOG_ERROR).

Definition initializeSession : M Self unit :=
  t <- get;;
  if isSessionActive t then
    consoleLog "[ ConvivaAnalyticsTracker ] There is already a session running." LOG_WARNING
  else
    let named := truthy (Builder.get_assetName (contentMetadataBuilder t)) in
    if negb (isPlayerAttached t) && negb named then
      throw (JsString "Player is not attached during session initialization and `assetName` is empty in the content metadata. Either attach the player before calling `initializeSession` or set the `assetName` manually using `updateContentMetadata`.")
    else
      (* [&&] evaluates [this.player.getSource()] only when attached *)
      sourceLoaded <-
        (if isPlayerAttached t
         then p <- player;;
              ret (match getSource p with Some _ => true | None => false end)
         else ret false);;
      if isPlayerAttached t && negb sourceLoaded && negb named then
        throw (JsString "Player is attached but no source is loaded and `assetName` is empty in the content metadata. Either load a source before calling `initializeSession` or set the `assetName` manually using `updateContentMetadata`.")
      else
        internalInitializeSession;;
        modify (set_sessionEndedExternally false).

Definition ensurePlaybackFinished : M Self unit :=
  t <- get;;
  if negb (isSessionActive t) then ret tt
  else
    when (_isAdBreakActive t)
      (debugLog "[ ConvivaAnalyticsTracker ] report ad skipped";;
       reportAdSkipped);;
    debugLog "[ ConvivaAnalyticsTracker ] report playback ended state";;
    reportPlaybackEnded.

Definition internalEndSession : M Self unit :=
  t <- get;;
  if negb (isSessionActive t) then ret tt
  else
    debugLog "[ ConvivaAnalyticsTracker ] end session";;
    onBuilder Builder.reset;;
    video VideoAnalytics.release;;
    modify (set_convivaVideoAnalytics None);;
    ad AdAnalytics.release;;
    modify (set_convivaAdAnalytics None);;
    modify (set_hasPlayed false);;
    modify (set_isAdBreakActive false).

Definition endSession : M Self unit :=
  t <- get;;
  if negb (isSessionActive t) then ret tt
  else
    debugLog "[ ConvivaAnalytics ] external ending session";;
    ensurePlaybackFinished;;
    internalEndSession;;
    modify (set_sessionEndedExternally true).

Definition internalUpdateContentMetadata (metadataOverrides : Metadata) : M Self unit :=
  onBuilder (Builder.setOverrides metadataOverrides);;
  t <- get;;
  if negb (isSessionActive t) then
    consoleLog "[ ConvivaAnalyticsTracker ] no active session. Content metadata will be propagated to Conviva on session initialization." LOG_DEBUG
  else
    buildContentMetadata;;
    updateSession.

Definition updateContentMetadata (metadataOverrides : Metadata) : M Self unit :=
  internalUpdateContentMetadata metadataOverrides.

Definition reportPlaybackDeficiency (message : string) (severity : ErrorSeverity)
  (endSession : bool) : M Self unit :=
  t <- get;;
  if negb (isSessionActive t) then ret tt
  else
    debugLog "[ ConvivaAnalyticsTracker ] report playback failed";;
    reportPlaybackFailed message;;
    when endSession internalEndSession.

Definition pauseTracking : M Self unit :=
  debugLog "[ ConvivaAnalyticsTracker ] pause tracking via ad break started reporting";;
  reportAdBreakStarted CLIENT_SIDE SEPARATE.

Definition resumeTracking : M Self unit :=
  debugLog "[ ConvivaAnalyticsTracker ] resume tracking via ad break ended reporting";;
  reportAdBreakEnded.

(** [release]: the subscriptions go with [_player], whether the
    player was destroyed or not. *)
Definition release (isPlayerDestroyed : bool) : M Self unit :=
  debugLog "[ ConvivaAnalyticsTracker ] releasing";;
  modify (set_player None);;
  ensurePlaybackFinished;;
  internalEndSession;;
  sdk AnalyticsRelease.

(** [canAttachPlayer(player)]: [canAttach] and [reason]. *)
Definition canAttachPlayer (p : PlayerAPI) (t : Self) : bool * option string :=
  let reason :=
    match getSource p with
    | Some _ =>
        Some "Player.load() has already been called (attaching player is possible only before player.load())"
    | None =>
        if isPlayerAttached t then Some "Player is already attached" else None
    end in
  (match reason with None => true | Some _ => false end, reason).

Definition attachPlayer (p : PlayerAPI) : M Self unit :=
  t <- get;;
  if negb (fst (canAttachPlayer p t)) then ret tt
  else
    modify (set_player (Some p));;
    setPlayerInfo.

(** *** The stall timer of the tracker *)

(** The callback of [stallTrackingTimeout]. *)
Definition stallTrackingCallback : M Self unit :=
  t <- get;;
  if _isAdBreakActive t then
    debugLog "[ ConvivaAnalyticsTracker ] report buffering ad playback state";;
    reportAdMetric PLAYER_STATE (VState BUFFERING) VUndefined
  else
    debugLog "[ ConvivaAnalyticsTracker ] report buffering playback state";;
    reportPlaybackMetric PLAYER_STATE (VState BUFFERING) VUndefined.

(** [ms] milliseconds pass with no other event: a pending timer whose
    delay is over becomes idle and runs its callback, once. *)
Definition elapse (ms : nat) : M Self unit :=
  t <- get;;
  match stallTrackingTimeout t with
  | None => ret tt
  | Some remaining =>
      if Nat.leb remaining ms then
        modify (set_stallTrackingTimeout Timeout.idle);;
        stallTrackingCallback
      else
        modify (set_stallTrackingTimeout (Some (remaining - ms)))
  end.

(** *** Player events *)

Definition onSourceLoaded (ev : PlayerEventBase) : M Self unit :=
  debugLog "[ ConvivaAnalyticsTracker ] [ Player Event ] source loaded";;
  t <- get;;
  if negb (isSessionActive t) then ret tt
  else
    buildContentMetadata;;
    updateSession.

Definition stallTrackingStartEvents : list PlayerEvent := [Play; Seek; TimeShift].

Definition stallTrackingClearEvents : list PlayerEvent :=
  [StallStarted; Playing; Paused; Seeked; TimeShifted; StallEnded; PlaybackFinished].

Definition trackPlaybackStateChanged (ev : PlayerEventBase) : M Self unit :=
  t <- get;;
  if negb (isSessionActive t) then ret tt
  else
    p <- player;;
    let playerState := PlayerStateHelper.getPlayerStateFromEvent ev p in
    (if includes stallTrackingStartEvents (type ev) then
       modify (fun t => set_stallTrackingTimeout
                 (Timeout.start STALL_TRACKING_DELAY_MS (stallTrackingTimeout t)) t)
     else if includes stallTrackingClearEvents (type ev) then
       modify (fun t => set_stallTrackingTimeout
                 (Timeout.clear (stallTrackingTimeout t)) t)
     else ret tt);;
    match playerState with
    | Some state =>
        t <- get;;
        if _isAdBreakActive t then
          debugLog "[ ConvivaAnalyticsTracker ] report ad playback state";;
          reportAdMetric PLAYER_STATE (VState state) VUndefined
        else
          debugLog "[ ConvivaAnalyticsTracker ] report playback state";;
          reportPlaybackMetric PLAYER_STATE (VState state) VUndefined
    | None => ret tt
    end;;
    when (PlayerEvent_eqb (type ev) PlaybackFinished)
      (debugLog "[ ConvivaAnalyticsTracker ] report playback ended";;
       reportPlaybackEnded).

(** [lang !== 'unknown' ? '[' + lang + ']:' + label : label]. *)
Definition formatTrack (lang label : string) : string :=
  if String.eqb lang "unknown" then label
  else "[" ++ lang ++ "]:" ++ label.

(** [audioTrack] is what [player.getAudio()] answered, possibly null. *)
Definition trackUpdateAudioTrack (audioTrack : option AudioTrack) : M Self unit :=
  t <- get;;
  if negb (isSessionActive t) then ret tt
  else
    match audioTrack with
    | None => throw TypeError
    | Some a =>
        debugLog "[ ConvivaAnalyticsTracker ] report audio language";;
        reportPlaybackMetric AUDIO_LANGUAGE (VStr (formatTrack (lang a) (label a))) VUndefined
    end.

Definition trackTurnOffSubtitles : M Self unit :=
  t <- get;;
  if negb (isSessionActive t) then ret tt
  else
    debugLog "[ ConvivaAnalyticsTracker ] report off subtitles language";;
    reportPlaybackMetric SUBTITLES_LANGUAGE (VStr "off") VUndefined;;
    debugLog "[ ConvivaAnalyticsTracker ] report off closed captions language";;
    reportPlaybackMetric CLOSED_CAPTIONS_LANGUAGE (VStr "off") VUndefined.

Definition trackUpdateSubtitleTrack (subtitleTrack : SubtitleTrack) : M Self unit :=
  t <- get;;
  if negb (isSessionActive t) then ret tt
  else
    let formattedSubtitle := formatTrack (sub_lang subtitleTrack) (sub_label subtitleTrack) in
    if String.eqb (kind subtitleTrack) "subtitles" then
      debugLog "[ ConvivaAnalyticsTracker ] report subtitles language";;
      reportPlaybackMetric SUBTITLES_LANGUAGE (VStr formattedSubtitle) VUndefined;;
      debugLog "[ ConvivaAnalyticsTracker ] report off closed captions language";;
      reportPlaybackMetric CLOSED_CAPTIONS_LANGUAGE (VStr "off") VUndefined
    else if String.eqb (kind subtitleTrack) "captions" then
      debugLog "[ ConvivaAnalyticsTracker ] report closed captions language";;
      reportPlaybackMetric CLOSED_CAPTIONS_LANGUAGE (VStr formattedSubtitle) VUndefined;;
      debugLog "[ ConvivaAnalyticsTracker ] report off subtitles language";;
      reportPlaybackMetric SUBTITLES_LANGUAGE (VStr "off") VUndefined
    else trackTurnOffSubtitles.

Definition trackInitialSubtitles : M Self unit :=
  t <- get;;
  if negb (isSessionActive t) then ret tt
  else
    p <- player;;
    match subtitles p with
    | Some list =>
        match filter enabled list with
        | [only] => trackUpdateSubtitleTrack only
        | _ => trackTurnOffSubtitles
        end
    | None => trackTurnOffSubtitles
    end.

Definition onPlay (ev : PlayerEventBase) : M Self unit :=
  debugLog "[ ConvivaAnalyticsTracker ] [ Player Event ] play";;
  t <- get;;
  if negb (canTrackPlayEvent t) then ret tt
  else
    when (negb (isSessionActive t) && negb (sessionEndedExternally t))
      internalInitializeSession;;
    t <- get;;
    if negb (hasPlayed t) then
      modify (set_hasPlayed true);;
      p <- player;;
      trackUpdateAudioTrack (getAudio p);;
      trackInitialSubtitles
    else ret tt.

Definition onPlaying (ev : PlayerEventBase) : M Self unit :=
  debugLog "[ ConvivaAnalyticsTracker ] [ Player Event ] playing";;
  t <- get;;
  if negb (isSessionActive t) then ret tt
  else
    onBuilder (Builder.setPlaybackStarted true);;
    updateSession.

Definition onPlaybackFinished (ev : PlayerEventBase) : M Self unit :=
  debugLog "[ ConvivaAnalyticsTracker ] [ Player Event ] playback finished";;
  t <- get;;
  if negb (isSessionActive t) then ret tt
  else
    video VideoAnalytics.release;;
    modify (set_convivaVideoAnalytics None);;
    ad AdAnalytics.release;;
    modify (set_convivaAdAnalytics None).

Definition trackAdBreakStarted (ty : AdType) : M Self unit :=
  t <- get;;
  if negb (isSessionActive t) then ret tt
  else
    modify (set_isAdBreakActive true);;
    debugLog "[ ConvivaAnalyticsTracker ] report ad break started";;
    reportAdBreakStarted ty (if AdType_eqb ty CLIENT_SIDE then SEPARATE else CONTENT).

Definition trackAdFinished : M Self unit :=
  t <- get;;
  if negb (isSessionActive t) then ret tt
  else
    debugLog "[ ConvivaAnalyticsTracker ] report ad ended";;
    reportAdEnded.

Definition trackAdSkipped : M Self unit :=
  t <- get;;
  if negb (isSessionActive t) then ret tt
  else
    debugLog "[ ConvivaAnalyticsTracker ] report ad skipped";;
    reportAdSkipped.

(** The message of the debug line interpolates the player state, so
    [this.player] is read before [debugLog] is entered. *)
Definition trackAdBreakFinished : M Self unit :=
  t <- get;;
  if negb (isSessionActive t) then ret tt
  else
    modify (set_isAdBreakActive false);;
    debugLog "[ ConvivaAnalyticsTracker ] report ad break ended";;
    reportAdBreakEnded;;
    p <- player;;
    debugLog ("[ ConvivaAnalyticsTracker ] report "
              ++ PlayerState_name (PlayerStateHelper.getPlayerState p)
              ++ " playback state");;
    p <- player;;
    reportPlaybackMetric PLAYER_STATE (VState (PlayerStateHelper.getPlayerState p)) VUndefined.

Definition trackSeekStart (target : Z) : M Self unit :=
  t <- get;;
  if negb (isSessionActive t) then ret tt
  else
    debugLog "[ ConvivaAnalyticsTracker ] report seek started";;
    reportPlaybackMetric SEEK_STARTED (VNum target) VUndefined.

Definition trackSeekEnd : M Self unit :=
  t <- get;;
  if negb (isSessionActive t) then ret tt
  else
    debugLog "[ ConvivaAnalyticsTracker ] report seek ended";;
    reportPlaybackMetric SEEK_ENDED VUndefined VUndefined.

Definition trackError (ev : PlayerEventBase) : M Self unit :=
  t <- get;;
  when (negb (isSessionActive t) && negb (sessionEndedExternally t))
    internalInitializeSession;;
  debugLog "[ ConvivaAnalyticsTracker ] report playback deficiency";;
  reportPlaybackDeficiency (string_of_N (code ev) ++ " " ++ name ev) FATAL true.

Definition onSourceUnloaded (ev : PlayerEventBase) : M Self unit :=
  debugLog "[ ConvivaAnalyticsTracker ] [ Player Event ] source unloaded";;
  t <- get;;
  if _isAdBreakActive t then ret tt
  else internalEndSession.

(** The attached player changed on its own: the reference the tracker
    holds now answers [p]. *)
Definition playerChanged (p : PlayerAPI) : M Self unit :=
  t <- get;;
  when (isPlayerAttached t) (modify (set_player (Some p))).

(** *** Custom events, quality changes and ads *)

Definition sendCustomApplicationEvent (eventName : string)
  (eventAttributes : list (string * string)) : M Self unit :=
  t <- get;;
  if negb (isSessionActive t) then
    consoleLog "[ ConvivaAnalyticsTracker ] cannot send application event, no active monitoring session" LOG_WARNING
  else
    debugLog "[ ConvivaAnalyticsTracker ] report custom app event";;
    reportAppEvent eventName eventAttributes.

Definition sendCustomPlaybackEvent (eventName : string)
  (eventAttributes : list (string * string)) : M Self unit :=
  t <- get;;
  if negb (isSessionActive t) then
    consoleLog "[ ConvivaAnalyticsTracker ] cannot send playback event, no active monitoring session" LOG_WARNING
  else
    debugLog "[ ConvivaAnalyticsTracker ] report custom playback event";;
    reportPlaybackEvent eventName eventAttributes.

(** [Math.round(bitrate / 1000)] for a whole number of bits per
    second: halves are rounded up. *)
Definition roundKbps (bitrate : Z) : Z := ((bitrate + 500) / 1000)%Z.

(** [bitrate] is [event.targetQuality.bitrate]. *)
Definition trackVideoQualityChanged (bitrate : Z) : M Self unit :=
  t <- get;;
  if negb (isSessionActive t) then ret tt
  else
    debugLog "[ ConvivaAnalyticsTracker ] report bitrate";;
    reportPlaybackMetric BITRATE (VNum (roundKbps bitrate)) VUndefined.

(** [playbackVideoData] is what [this.player.getPlaybackVideoData()]
    answers when it is asked, for a server-side ad. *)
Definition trackAdStarted (adInfo : list (string * string)) (ty : AdType)
  (bitrateKbps : option Z) (playbackVideoData : PlaybackVideoData) : M Self unit :=
  t <- get;;
  if negb (isSessionActive t) then ret tt
  else
    debugLog "[ ConvivaAnalyticsTracker ] report ad started";;
    reportAdStarted adInfo;;
    p <- player;;
    debugLog ("[ ConvivaAnalyticsTracker ] report "
              ++ PlayerState_name (PlayerStateHelper.getPlayerState p)
              ++ " ad playback state");;
    p <- player;;
    reportAdMetric PLAYER_STATE (VState (PlayerStateHelper.getPlayerState p)) VUndefined;;
    (if AdType_eqb ty SERVER_SIDE then
       _ <- player;;
       let resolution :=
         string_of_N (width playbackVideoData) ++ "x"
         ++ string_of_N (height playbackVideoData) in
       debugLog "[ ConvivaAnalyticsTracker ] report ad resolution";;
       reportAdMetric RESOLUTION (VStr resolution) VUndefined;;
       match frameRate playbackVideoData with
       | Some rate =>
           when (negb (Z.eqb rate 0))
             (debugLog "[ ConvivaAnalyticsTracker ] report framerate";;
              reportAdMetric RENDERED_FRAMERATE (VNum rate) VUndefined)
       | None => ret tt
       end
     else ret tt);;
    match bitrateKbps with
    | Some kbps =>
        when (negb (Z.eqb kbps 0))
          (debugLog "[ ConvivaAnalyticsTracker ] report ad bitrate";;
           reportAdMetric BITRATE (VNum kbps) VUndefined)
    | None => ret tt
    end.

Definition trackAdError (ev : AdErrorEvent.t) : M Self unit :=
  t <- get;;
  if negb (isSessionActive t) then ret tt
  else
    let formattedError := AdHelper.formatCsaiAdError ev in
    debugLog "[ ConvivaAnalyticsTracker ] report ad error";;
    reportAdError formattedError WARNING.

End Tracker.

(** ** ConvivaAnalyticsSsai and ConvivaAnalytics *)

(** The facade and its server-side ad object hold the same tracker
    object: the record keeps that one tracker next to the flag of the
    server-side object ([convivaSsaiAnalytics._isAdBreakActive]).  The
    facade's own [debugLoggingEnabled] is the tracker's. *)
Record ConvivaAnalytics := {
  convivaAnalyticsTracker : ConvivaAnalyticsTracker;
  ssai_isAdBreakActive : bool
}.

Definition set_tracker (t : ConvivaAnalyticsTracker) (s : ConvivaAnalytics) : ConvivaAnalytics :=
  {| convivaAnalyticsTracker := t; ssai_isAdBreakActive := ssai_isAdBreakActive s |}.

Definition set_ssai_isAdBreakActive (v : bool) (s : ConvivaAnalytics) : ConvivaAnalytics :=
  {| convivaAnalyticsTracker := convivaAnalyticsTracker s; ssai_isAdBreakActive := v |}.

(** A method of the tracker, called through the shared reference. *)
Definition onTracker {A} (m : M ConvivaAnalyticsTracker A) : M ConvivaAnalytics A :=
  zoom convivaAnalyticsTracker set_tracker m.

Module Ssai.

Definition isAdBreakActive (s : ConvivaAnalytics) : bool := ssai_isAdBreakActive s.

Definition reset : M ConvivaAnalytics unit :=
  modify (set_ssai_isAdBreakActive false).

Definition reportAdBreakStarted : M ConvivaAnalytics unit :=
  s <- get;;
  if Tracker.isAdBreakActive (convivaAnalyticsTracker s) || ssai_isAdBreakActive s
  then ret tt
  else
    modify (set_ssai_isAdBreakActive true);;
    onTracker (Tracker.trackAdBreakStarted SERVER_SIDE).

Definition reportAdFinished : M ConvivaAnalytics unit :=
  s <- get;;
  if negb (isAdBreakActive s) then ret tt
  else onTracker Tracker.trackAdFinished.

Definition reportAdSkipped : M ConvivaAnalytics unit :=
  s <- get;;
  if negb (ssai_isAdBreakActive s) then ret tt
  else onTracker Tracker.trackAdSkipped.

Definition reportAdBreakFinished : M ConvivaAnalytics unit :=
  s <- get;;
  if negb (ssai_isAdBreakActive s) then ret tt
  else
    modify (set_ssai_isAdBreakActive false);;
    onTracker Tracker.trackAdBreakFinished.

End Ssai.

Module Facade.

Definition Self := ConvivaAnalytics.

Definition debugLog (message : string) : M Self unit :=
  onTracker (Tracker.debugLog message).

Definition attachPlayer (p : PlayerAPI) : M Self unit :=
  s <- get;;
  let (canAttach, reason) := Tracker.canAttachPlayer p (convivaAnalyticsTracker s) in
  if negb canAttach then
    emit (LoggerLog
            ("[ ConvivaAnalyticsTracker ] cannot attach player: "
             ++ match reason with Some r => r | None => "undefined" end)
            LOG_WARNING)
  else
    onTracker (Tracker.attachPlayer p).

(** [new ConvivaAnalytics(player, customerKey, config)], before any
    effect of [attachPlayer]. *)
Definition new (debug : bool) : Self :=
  {| convivaAnalyticsTracker := Tracker.new debug; ssai_isAdBreakActive := false |}.

Definition initializeSession : M Self unit :=
  onTracker Tracker.initializeSession.

Definition endSession : M Self unit :=
  debugLog "[ ConvivaAnalytics ] external ending session";;
  Ssai.reset;;
  onTracker Tracker.endSession.

Definition updateContentMetadata (metadataOverrides : Metadata) : M Self unit :=
  onTracker (Tracker.updateContentMetadata metadataOverrides).

Definition reportPlaybackDeficiency (message : string) (severity : ErrorSeverity)
  (endSession : bool) : M Self unit :=
  onTracker (Tracker.reportPlaybackDeficiency message severity endSession).

Definition pauseTracking : M Self unit := onTracker Tracker.pauseTracking.

Definition resumeTracking : M Self unit := onTracker Tracker.resumeTracking.

Definition releaseInternal (isPlayerDestroyed : bool) : M Self unit :=
  debugLog "[ ConvivaAnalytics ] releasing";;
  onTracker (Tracker.release isPlayerDestroyed);;
  Ssai.reset.

Definition release : M Self unit := releaseInternal false.

(** *** Event handlers of the facade *)

Definition onPlaybackStateChanged (ev : PlayerEventBase) : M Self unit :=
  debugLog "[ ConvivaAnalytics ] [ Player Event ] playback state change related event";;
  onTracker (Tracker.trackPlaybackStateChanged ev).

Definition onPlay (ev : PlayerEventBase) : M Self unit :=
  debugLog "[ ConvivaAnalytics ] [ Player Event ] play";;
  s <- get;;
  if negb (Tracker.canTrackPlayEvent (convivaAnalyticsTracker s)) then ret tt
  else onPlaybackStateChanged ev.

Definition onPlaying (ev : PlayerEventBase) : M Self unit :=
  debugLog "[ ConvivaAnalytics ] [ Player Event ] playing";;
  onPlaybackStateChanged ev.

Definition onPlaybackFinished (ev : PlayerEventBase) : M Self unit :=
  debugLog "[ ConvivaAnalytics ] [ Player Event ] playback finished";;
  onPlaybackStateChanged ev.

Definition onAdBreakStarted (ev : PlayerEventBase) : M Self unit :=
  debugLog "[ ConvivaAnalytics ] [ Player Event ] adbreak started";;
  onTracker (Tracker.trackAdBreakStarted CLIENT_SIDE).

Definition onAdFinished (ev : PlayerEventBase) : M Self unit :=
  debugLog "[ ConvivaAnalytics ] [ Player Event ] ad finished";;
  onTracker Tracker.trackAdFinished.

Definition onAdBreakFinished (ev : PlayerEventBase) : M Self unit :=
  debugLog "[ ConvivaAnalytics ] [ Player Event ] adbreak finished";;
  onTracker Tracker.trackAdBreakFinished.

Definition onSeek (ev : PlayerEventBase) : M Self unit :=
  debugLog "[ ConvivaAnalytics ] [ Player Event ] seek";;
  onTracker (Tracker.trackSeekStart (seekTarget ev));;
  onPlaybackStateChanged ev.

Definition onSeeked (ev : PlayerEventBase) : M Self unit :=
  debugLog "[ ConvivaAnalytics ] [ Player Event ] seeked";;
  onTracker Tracker.trackSeekEnd;;
  onPlaybackStateChanged ev.

Definition onTimeShift (ev : PlayerEventBase) : M Self unit :=
  debugLog "[ ConvivaAnalytics ] [ Player Event ] time shift";;
  onTracker (Tracker.trackSeekStart (-1)%Z);;
  onPlaybackStateChanged ev.

Definition onTimeShifted (ev : PlayerEventBase) : M Self unit :=
  debugLog "[ ConvivaAnalytics ] [ Player Event ] time shifted";;
  onTracker Tracker.trackSeekEnd;;
  onPlaybackStateChanged ev.

Definition onError (ev : PlayerEventBase) : M Self unit :=
  debugLog "[ ConvivaAnalytics ] [ Player Event ] error";;
  onTracker (Tracker.trackError ev).

Definition onDestroy (ev : PlayerEventBase) : M Self unit :=
  debugLog "[ ConvivaAnalytics ] [ Player Event ] destroy";;
  releaseInternal true.

(** The player dispatches [ev] to the handlers subscribed to its type,
    in the order of their registration: [attachPlayer] of the facade
    lets the tracker register its own handlers before the facade's.
    Nothing is subscribed while no player is attached.  A handler that
    raises ends the dispatch. *)
Definition dispatch (ev : PlayerEventBase) : M Self unit :=
  s <- get;;
  if negb (Tracker.isPlayerAttached (convivaAnalyticsTracker s)) then ret tt
  else
    match type ev with
    | SourceLoaded => onTracker (Tracker.onSourceLoaded ev)
    | Play => onTracker (Tracker.onPlay ev);; onPlay ev
    | Playing => onTracker (Tracker.onPlaying ev);; onPlaying ev
    | PlaybackFinished => onTracker (Tracker.onPlaybackFinished ev);; onPlaybackFinished ev
    | SourceUnloaded => onTracker (Tracker.onSourceUnloaded ev)
    | Paused | StallStarted | StallEnded => onPlaybackStateChanged ev
    | AdFinished => onAdFinished ev
    | AdBreakStarted => onAdBreakStarted ev
    | AdBreakFinished => onAdBreakFinished ev
    | Error => onError ev
    | Destroy => onDestroy ev
    | Seek => onSeek ev
    | Seeked => onSeeked ev
    | TimeShift => onTimeShift ev
    | TimeShifted => onTimeShifted ev
    end.

End Facade.

(** ** Runs of the integration *)

(** What can happen to an integration: the player fires an event or
    changes, time passes, the SDK polls the playhead, or the embedding
    application calls a public method. *)
Inductive Input :=
| Fire (ev : PlayerEventBase)
| PlayerChanged (p : PlayerAPI)
| Elapse (ms : nat)
| PollPlayhead (playheadTimeMs : option Z)
| AttachPlayer (p : PlayerAPI)
| InitializeSession
| EndSession
| UpdateContentMetadata (metadataOverrides : Metadata)
| ReportPlaybackDeficiency (message : string) (severity : ErrorSeverity) (endSession : bool)
| PauseTracking
| ResumeTracking
| Release
| SsaiAdBreakStarted
| SsaiAdFinished
| SsaiAdSkipped
| SsaiAdBreakFinished.

Definition step (i : Input) : M ConvivaAnalytics unit :=
  match i with
  | Fire ev => Facade.dispatch ev
  | PlayerChanged p => onTracker (Tracker.playerChanged p)
  | Elapse ms => onTracker (Tracker.elapse ms)
  | PollPlayhead ms =>
      (* the callback belongs to the video object of the session *)
      s <- get;;
      when (Tracker.isSessionActive (convivaAnalyticsTracker s))
        (onTracker (Tracker.playheadCallback ms))
  | AttachPlayer p => Facade.attachPlayer p
  | InitializeSession => Facade.initializeSession
  | EndSession => Facade.endSession
  | UpdateContentMetadata o => Facade.updateContentMetadata o
  | ReportPlaybackDeficiency m sev e => Facade.reportPlaybackDeficiency m sev e
  | PauseTracking => Facade.pauseTracking
  | ResumeTracking => Facade.resumeTracking
  | Release => Facade.release
  | SsaiAdBreakStarted => Ssai.reportAdBreakStarted
  | SsaiAdFinished => Ssai.reportAdFinished
  | SsaiAdSkipped => Ssai.reportAdSkipped
  | SsaiAdBreakFinished => Ssai.reportAdBreakFinished
  end.

(** A run: the inputs one after the other.  An exception that leaves
    a handler or a public method reaches the caller; the integration
    stays as the raise left it and the next input finds it so. *)
Fixpoint run (host : Host) (inputs : list Input) (s : ConvivaAnalytics) (h : History)
  : ConvivaAnalytics * History :=
  match inputs with
  | [] => (s, h)
  | i :: rest =>
      match step i host s h with
      | (_, s', h') => run host rest s' h'
      end
  end.

(** ** Observations on histories *)

(** The SDK calls of a history, earliest first. *)
Fixpoint sdkCalls (h : History) : list SdkCall :=
  match h with
  | [] => []
  | Sdk c :: earlier => sdkCalls earlier ++ [c]
  | _ :: earlier => sdkCalls earlier
  end.

Definition isPlayerStateMetric (c : SdkCall) : option PlayerState :=
  match c with
  | Video _ (VideoAnalytics.reportPlaybackMetric PLAYER_STATE (VState s) _) => Some s
  | _ => None
  end.

(** The PLAYER_STATE values reported to the content stream, earliest
    first. *)
Definition contentPlayerStates (h : History) : list PlayerState :=
  flat_map (fun c => match isPlayerStateMetric c with Some s => [s] | None => [] end)
           (sdkCalls h).

(** The PLAYER_STATE value last reported to the content stream. *)
Definition lastContentPlayerState (h : History) : option PlayerState :=
  last (map Some (contentPlayerStates h)) None.

(** How often ad-break-started was reported. *)
Definition adBreakStartedCalls (h : History) : nat :=
  List.length
    (filter (fun c => match c with
                      | Video _ (VideoAnalytics.reportAdBreakStarted _ _) => true
                      | _ => false
                      end)
            (sdkCalls h)).

(** How many monitoring sessions were built. *)
Definition sessionsBuilt (h : History) : nat :=
  List.length
    (filter (fun c => match c with BuildVideoAnalytics => true | _ => false end)
            (sdkCalls h)).

(** *** Hosts *)

(** A host whose SDK never raises. *)
Definition quietHost : Host :=
  {| sdkThrows := fun _ _ => false; callStack := 1000 |}.

(** A host whose SDK raises on every call. *)
Definition hostileHost : Host :=
  {| sdkThrows := fun _ _ => true; callStack := 1000 |}.

(** The SDK calls the tracker makes outside a [try]: building and
    releasing the analytics objects, and the setters and getters of a
    session. *)
Definition unwrapped (c : SdkCall) : bool :=
  match c with
  | BuildVideoAnalytics | BuildAdAnalytics _ | AnalyticsRelease => true
  | Video _ (VideoAnalytics.setPlayerInfo _)
  | Video _ (VideoAnalytics.setContentInfo _)
  | Video _ VideoAnalytics.setCallback
  | Video _ VideoAnalytics.getSessionId
  | Video _ VideoAnalytics.release => true
  | Ad _ (AdAnalytics.setAdPlayerInfo _)
  | Ad _ AdAnalytics.release => true
  | _ => false
  end.

(** "Stable system interfaces", in the words of the tracker: the calls
    made outside a [try] do not raise.  The report calls still may. *)
Definition stableInterfaces (host : Host) : Prop :=
  forall h c, unwrapped c = true -> sdkThrows host h c = false.

(** *** The order of the reports of a session *)

Definition isRequestedOn (hd : Handle) (e : Effect) : bool :=
  match e with
  | Sdk (Video hd' (VideoAnalytics.reportPlaybackRequested _)) => Nat.eqb hd hd'
  | _ => false
  end.

Definition isPlayerStateOn (hd : Handle) (s : PlayerState) (e : Effect) : bool :=
  match e with
  | Sdk (Video hd' (VideoAnalytics.reportPlaybackMetric PLAYER_STATE (VState s') _)) =>
      Nat.eqb hd hd' && PlayerState_eqb s s'
  | _ => false
  end.

(** The part of a history since the latest video object was built,
    all of it if none was. *)
Fixpoint sinceBuild (h : History) : History :=
  match h with
  | [] => []
  | Sdk BuildVideoAnalytics :: _ => []
  | e :: earlier => e :: sinceBuild earlier
  end.

(** An effect other than the building of a video object. *)
Definition buildsNothing (e : Effect) : Prop := e <> Sdk BuildVideoAnalytics.

(** "Playback requested" was reported on the video object [hd] since
    the latest video object was built. *)
Definition requestedOn (hd : Handle) (h : History) : bool :=
  existsb (isRequestedOn hd) (sinceBuild h).

(** A STOPPED player state was reported on the video object [hd]
    since the latest video object was built. *)
Definition stoppedOn (hd : Handle) (h : History) : bool :=
  existsb (isPlayerStateOn hd STOPPED) (sinceBuild h).

(** [e] may follow the history [earlier]: a PLAYING report on a video
    object needs an earlier STOPPED report on that object, and a
    STOPPED report an earlier "playback requested" on it, both since
    the latest video object was built. *)
Definition mayFollow (e : Effect) (earlier : History) : bool :=
  match e with
  | Sdk (Video hd (VideoAnalytics.reportPlaybackMetric PLAYER_STATE (VState PLAYING) _)) =>
      stoppedOn hd earlier
  | Sdk (Video hd (VideoAnalytics.reportPlaybackMetric PLAYER_STATE (VState STOPPED) _)) =>
      requestedOn hd earlier
  | _ => true
  end.

(** Every report of the history came in order. *)
Fixpoint ordered (h : History) : bool :=
  match h with
  | [] => true
  | e :: earlier => mayFollow e earlier && ordered earlier
  end.

(** The session of a tracker, if one is active, has reported
    "playback requested" and STOPPED. *)
Definition sessionOpened (t : ConvivaAnalyticsTracker) (h : History) : Prop :=
  forall hd, convivaVideoAnalytics t = Some hd ->
    requestedOn hd h = true /\ stoppedOn hd h = true.

(** The reports of a tracker came in order so far, and its session,
    if any, was opened. *)
Definition reportsInOrder (t : ConvivaAnalyticsTracker) (h : History) : Prop :=
  ordered h = true /\ sessionOpened t h.

(** The same for the tracker behind a facade. *)
Definition facadeInOrder (s : ConvivaAnalytics) (h : History) : Prop :=
  reportsInOrder (convivaAnalyticsTracker s) h.

(** A call that may follow any history and builds no video object. *)
Definition neutral (c : SdkCall) : bool :=
  match c with
  | BuildVideoAnalytics
  | Video _ (VideoAnalytics.reportPlaybackMetric PLAYER_STATE (VState PLAYING) _)
  | Video _ (VideoAnalytics.reportPlaybackMetric PLAYER_STATE (VState STOPPED) _) => false
  | _ => true
  end.

(** The method [m] keeps [Inv] on the host [host], however it ends. *)
Definition preserves {S A : Type} (host : Host) (Inv : S -> History -> Prop) (m : M S A)
  : Prop :=
  forall s h, Inv s h -> Inv (final (m host s h)) (effects (m host s h)).

(** A field update that installs no video object. *)
Definition keepsSession (f : ConvivaAnalyticsTracker -> ConvivaAnalyticsTracker) : Prop :=
  forall t hd, convivaVideoAnalytics (f t) = Some hd -> convivaVideoAnalytics t = Some hd.

(** *** What [initializeSession] requires *)

(** An asset name is at hand: the metadata builder holds one, or a
    player is attached and has a source loaded. *)
Definition assetNameResolvable (t : ConvivaAnalyticsTracker) : bool :=
  truthy (Builder.get_assetName (contentMetadataBuilder t))
  || match _player t with
     | Some p => match getSource p with Some _ => true | None => false end
     | None => false
     end.

Definition playerNotAttachedMessage : string :=
  "Player is not attached during session initialization and `assetName` is empty in the content metadata. Either attach the player before calling `initializeSession` or set the `assetName` manually using `updateContentMetadata`.".

Definition noSourceLoadedMessage : string :=
  "Player is attached but no source is loaded and `assetName` is empty in the content metadata. Either load a source before calling `initializeSession` or set the `assetName` manually using `updateContentMetadata`.".

(** *** Histories left by logging and by guarded calls *)

(** The history after [debugLog message], for the debug flag [dbg]. *)
Definition logged (dbg : bool) (message : string) (h : History) : History :=
  if dbg then ConsoleLog message :: h else h.

(** The history after [try { call } catch { debugLog(message) }]:
    [call] is [None] when the receiver of the call is null, which
    raises before anything reaches the SDK. *)
Definition attempt (host : Host) (dbg : bool) (message : string)
  (call : option SdkCall) (h : History) : History :=
  match call with
  | Some c =>
      if sdkThrows host h c then logged dbg message (Sdk c :: h) else Sdk c :: h
  | None => logged dbg message h
  end.

(** The call [c] on the video object of [t], if there is one. *)
Definition onVideo (t : ConvivaAnalyticsTracker) (c : VideoAnalytics.call) : option SdkCall :=
  option_map (fun hd => Video hd c) (convivaVideoAnalytics t).

(** The call [c] on the ad object of [t], if there is one. *)
Definition onAd (t : ConvivaAnalyticsTracker) (c : AdAnalytics.call) : option SdkCall :=
  option_map (fun hd => Ad hd c) (convivaAdAnalytics t).

(** *** Sample values *)

Definition sampleSource : SourceConfig :=
  {| title := Some "Asset Title"; dash := None; hls := Some "test.m3u8";
     progressive := None; vrContentType := None |}.

(** A player with a source loaded, paused. *)
Definition samplePlayer : PlayerAPI :=
  {| isPlaying := false; isPaused := true; isStalled := false; isLive := false;
     getDuration := 10%Z; getSource := Some sampleSource;
     getStreamType := "hls"; getPlayerType := "html5"; version := "8.0.0";
     getAudio := Some {| lang := "en"; label := "English" |};
     subtitles := Some [];
     getConfig := {| playback_autoplay := None; adaptation_mobile_preload := None;
                     adaptation_desktop_preload := None; adaptation_preload := None |};
     isMobile := false |}.

(** [p] with other answers to [isPlaying], [isPaused], [isStalled]. *)
Definition answering (playing paused stalled : bool) (p : PlayerAPI) : PlayerAPI :=
  {| isPlaying := playing; isPaused := paused; isStalled := stalled;
     isLive := isLive p; getDuration := getDuration p; getSource := getSource p;
     getStreamType := getStreamType p; getPlayerType := getPlayerType p;
     version := version p; getAudio := getAudio p; subtitles := subtitles p;
     getConfig := getConfig p; isMobile := isMobile p |}.

(** [p] before [player.load()]. *)
Definition unloaded (p : PlayerAPI) : PlayerAPI :=
  {| isPlaying := isPlaying p; isPaused := isPaused p; isStalled := isStalled p;
     isLive := isLive p; getDuration := getDuration p; getSource := None;
     getStreamType := getStreamType p; getPlayerType := getPlayerType p;
     version := version p; getAudio := getAudio p; subtitles := subtitles p;
     getConfig := getConfig p; isMobile := isMobile p |}.

(** A tracker with a session on the video object 0, a player attached
    and nothing else going on. *)
Definition sampleTracker : ConvivaAnalyticsTracker :=
  {| _player := Some samplePlayer;
     debugLoggingEnabled := false;
     contentMetadataBuilder := Builder.empty;
     sessionKey := Some 0;
     convivaVideoAnalytics := Some 0;
     convivaAdAnalytics := Some 0;
     _isAdBreakActive := false;
     hasPlayed := true;
     stallTrackingTimeout := Timeout.idle;
     sessionEndedExternally := false |}.

(** A tracker with the sample player attached and no session yet. *)
Definition idleTracker : ConvivaAnalyticsTracker :=
  Tracker.set_player (Some samplePlayer) (Tracker.new false).

(** [sampleTracker] in an ad break. *)
Definition adBreakTracker : ConvivaAnalyticsTracker :=
  Tracker.set_isAdBreakActive true sampleTracker.

(** A facade around [sampleTracker], no server-side ad break. *)
Definition sampleFacade : ConvivaAnalytics :=
  {| convivaAnalyticsTracker := sampleTracker; ssai_isAdBreakActive := false |}.

(** The player is attached before it loads its source, playback
    starts and is under way. *)
Definition playbackUnderWay : list Input :=
  [ AttachPlayer (unloaded samplePlayer);
    PlayerChanged (answering false true false samplePlayer);
    Fire (event Play);
    PlayerChanged (answering true false false samplePlayer);
    Fire (event Playing) ].

(** A client-side ad break during which the player gets paused. *)
Definition adBreakWithPause : list Input :=
  [ Fire (event AdBreakStarted);
    PlayerChanged (answering false true false samplePlayer);
    Fire (event Paused);
    Fire (event AdBreakFinished) ].

(** *** The report wrappers *)

(** The thirteen [report*] wrappers of the tracker, with their
    arguments. *)
Inductive Report :=
| ReportPlaybackMetric (key : Playback) (v v2 : MetricValue)
| ReportAppEvent (eventName : string) (attrs : list (string * string))
| ReportPlaybackEnded
| ReportPlaybackFailed (message : string)
| ReportPlaybackEvent (eventName : string) (attrs : list (string * string))
| ReportAdBreakStarted (ty : AdType) (value : AdPlayer)
| ReportAdBreakEnded
| ReportPlaybackRequested
| ReportAdMetric (key : Playback) (v v2 : MetricValue)
| ReportAdSkipped
| ReportAdStarted (adInfo : list (string * string))
| ReportAdEnded
| ReportAdError (error : string) (severity : ErrorSeverity).

Definition report (r : Report) : M ConvivaAnalyticsTracker unit :=
  match r with
  | ReportPlaybackMetric k v v2 => Tracker.reportPlaybackMetric k v v2
  | ReportAppEvent n a => Tracker.reportAppEvent n a
  | ReportPlaybackEnded => Tracker.reportPlaybackEnded
  | ReportPlaybackFailed m => Tracker.reportPlaybackFailed m
  | ReportPlaybackEvent n a => Tracker.reportPlaybackEvent n a
  | ReportAdBreakStarted ty v => Tracker.reportAdBreakStarted ty v
  | ReportAdBreakEnded => Tracker.reportAdBreakEnded
  | ReportPlaybackRequested => Tracker.reportPlaybackRequested
  | ReportAdMetric k v v2 => Tracker.reportAdMetric k v v2
  | ReportAdSkipped => Tracker.reportAdSkipped
  | ReportAdStarted i => Tracker.reportAdStarted i
  | ReportAdEnded => Tracker.reportAdEnded
  | ReportAdError e sev => Tracker.reportAdError e sev
  end.

(** *** Inputs that start no session *)

(** The tracker has neither a video object nor an ad object. *)
Definition sessionless (t : ConvivaAnalyticsTracker) : Prop :=
  convivaVideoAnalytics t = None /\ convivaAdAnalytics t = None.

(** The inputs other than those that may start a session (a Play or
    an Error event, [initializeSession]) or release the SDK
    ([release], a Destroy event). *)
Definition startsNothing (i : Input) : bool :=
  match i with
  | Fire ev =>
      match type ev with
      | Play | Error | Destroy => false
      | _ => true
      end
  | InitializeSession | Release => false
  | _ => true
  end.

(** The ad object of a tracker is there when its video object is, and
    is the one built for it. *)
Definition paired (t : ConvivaAnalyticsTracker) : Prop :=
  convivaAdAnalytics t = convivaVideoAnalytics t.

(** [paired], as an invariant of runs. *)
Definition trackerPaired (t : ConvivaAnalyticsTracker) (_ : History) : Prop := paired t.

Definition facadePaired (s : ConvivaAnalytics) (_ : History) : Prop :=
  paired (convivaAnalyticsTracker s).

(** A field update that leaves both analytics objects alone. *)
Definition keepsObjects (f : ConvivaAnalyticsTracker -> ConvivaAnalyticsTracker) : Prop :=
  forall t, convivaVideoAnalytics (f t) = convivaVideoAnalytics t
            /\ convivaAdAnalytics (f t) = convivaAdAnalytics t.

(** *** Player configurations *)

(** [p] with another [adaptation.mobile.preload]. *)
Definition withMobilePreload (v : option bool) (p : PlayerAPI) : PlayerAPI :=
  {| isPlaying := isPlaying p; isPaused := isPaused p; isStalled := isStalled p;
     isLive := isLive p; getDuration := getDuration p; getSource := getSource p;
     getStreamType := getStreamType p; getPlayerType := getPlayerType p;
     version := version p; getAudio := getAudio p; subtitles := subtitles p;
     getConfig :=
       {| playback_autoplay := playback_autoplay (getConfig p);
          adaptation_mobile_preload := v;
          adaptation_desktop_preload := adaptation_desktop_preload (getConfig p);
          adaptation_preload := adaptation_preload (getConfig p) |};
     isMobile := isMobile p |}.

(** [p] with another [adaptation.desktop.preload]. *)
Definition withDesktopPreload (v : option bool) (p : PlayerAPI) : PlayerAPI :=
  {| isPlaying := isPlaying p; isPaused := isPaused p; isStalled := isStalled p;
     isLive := isLive p; getDuration := getDuration p; getSource := getSource p;
     getStreamType := getStreamType p; getPlayerType := getPlayerType p;
     version := version p; getAudio := getAudio p; subtitles := subtitles p;
     getConfig :=
       {| playback_autoplay := playback_autoplay (getConfig p);
          adaptation_mobile_preload := adaptation_mobile_preload (getConfig p);
          adaptation_desktop_preload := v;
          adaptation_preload := adaptation_preload (getConfig p) |};
     isMobile := isMobile p |}.

(** *** Metadata objects and event subscriptions *)

(** The value last given to [key] in a list of keys with values. *)
Fixpoint lastOf {V} (key : string) (entries : list (string * V)) : option V :=
  match entries with
  | [] => None
  | (k, v) :: rest =>
      match lastOf key rest with
      | Some later => Some later
      | None => if String.eqb k key then Some v else None
      end
  end.

(** The keys [convertSsaiAdInfoToConvivaAdInfo] writes itself. *)
Definition adInfoKeys : list string :=
  [ "c3.ad.id"; "c3.ad.technology"; "c3.ad.position"; "c3.ad.system";
    Constants.ASSET_NAME; "c3.ad.adStitcher"; "c3.ad.isSlate" ].

(** The elements at the even and at the odd indices of a list. *)
Fixpoint evens {A} (l : list A) : list A :=
  match l with
  | [] => []
  | x :: rest => x :: match rest with [] => [] | _ :: rest' => evens rest' end
  end.

Definition odds {A} (l : list A) : list A :=
  match l with
  | [] => []
  | _ :: rest => evens rest
  end.

(** The wrapper after the registrations [regs], each an event type
    with a callback, and the calls they made on the player. *)
Definition registered (regs : list (PlayerEvent * Callback))
  : list PlayerCall * PlayerEventWrapper.Self :=
  fold_left
    (fun acc reg =>
       let added := PlayerEventWrapper.add (fst reg) (snd reg) (snd acc) in
       ((fst acc ++ fst added)%list, snd added))
    regs ([], PlayerEventWrapper.new).

(** The order of the ad positions along the timeline. *)
Definition AdPosition_rank (p : AdPosition) : nat :=
  match p with
  | PREROLL => 0
  | MIDROLL => 1
  | POSTROLL => 2
  end.

(** [registerPlayerEvents] of the tracker: the event types it
    subscribes to, each with its handler, numbered in the order of
    the source ([onSourceLoaded], [onPlay], [onPlaying],
    [onPlaybackFinished], [onSourceUnloaded]). *)
Definition trackerRegistrations : list (PlayerEvent * Callback) :=
  [ (SourceLoaded, 0); (Play, 1); (Playing, 2); (PlaybackFinished, 3); (SourceUnloaded, 4) ].

(** How often the audio language was reported. *)
Definition audioLanguageReports (h : History) : nat :=
  List.length
    (filter (fun c => match c with
                      | Video _ (VideoAnalytics.reportPlaybackMetric AUDIO_LANGUAGE _ _) => true
                      | _ => false
                      end)
            (sdkCalls h)).

(** *** Player-state reports on both streams *)






(** * Properties *)

Local Open Scope list_scope.

(** ** Symbolic execution of methods *)

(** Unfold the report wrappers, the metadata defaults and the monad
    down to the primitive steps. *)
Ltac exec :=
  cbv beta iota zeta delta
    [ bind ret throw tryCatch get gets modify emit sdk when report
      Tracker.player Tracker.isPlayerAttached
      Tracker.debugLog Tracker.video Tracker.ad Tracker.build
      Tracker.reportPlaybackMetric Tracker.reportAppEvent Tracker.reportPlaybackEnded
      Tracker.reportPlaybackFailed Tracker.reportPlaybackEvent Tracker.reportAdBreakStarted
      Tracker.reportAdBreakEnded Tracker.reportPlaybackRequested Tracker.reportAdMetric
      Tracker.reportAdSkipped Tracker.reportAdStarted Tracker.reportAdError
      Tracker.onBuilder Tracker.buildContentMetadata
      Tracker.set_contentMetadataBuilder
      _player debugLoggingEnabled contentMetadataBuilder sessionKey convivaVideoAnalytics
      convivaAdAnalytics _isAdBreakActive hasPlayed stallTrackingTimeout sessionEndedExternally
      outcome final effects logged
      negb andb orb ];
  cbn [fst snd].

(** Decide the next SDK call: it returns when the host's interfaces
    are stable and the call is made outside a [try]; otherwise both
    ways are followed. *)
Ltac sdk_step :=
  match goal with
  | Hst : stableInterfaces ?host |- context [sdkThrows ?host ?h ?c] =>
      rewrite (Hst h c eq_refl)
  | |- context [sdkThrows ?host ?h ?c] =>
      let E := fresh "Esdk" in destruct (sdkThrows host h c) eqn:E
  end.

Ltac exec_all := exec; repeat (sdk_step; exec).

(** ** The report wrappers *)

Lemma reportAdEnded_at_run (stack : nat) (host : Host) (t : ConvivaAnalyticsTracker) (h : History) :
  Tracker.reportAdEnded_at stack host t h =
  (Returned tt, t,
   logged (debugLoggingEnabled t) "[ ConvivaAnalyticsTracker ] error @ reportAdEnded" h).
Proof.
  induction stack as [|below IH].
  - destruct t as [pl [|] b key va aa adb hp tm ext]; reflexivity.
  - cbn [Tracker.reportAdEnded_at]. unfold tryCatch at 1. rewrite IH. reflexivity.
Qed.

(** The self-call of [reportAdEnded] never reaches the SDK, whatever
    the stack the host grants. *)
Lemma reportAdEnded_run (host : Host) (t : ConvivaAnalyticsTracker) (h : History) :
  Tracker.reportAdEnded host t h =
  (Returned tt, t,
   logged (debugLoggingEnabled t) "[ ConvivaAnalyticsTracker ] error @ reportAdEnded" h).
Proof. unfold Tracker.reportAdEnded. apply reportAdEnded_at_run. Qed.

(** C10. Every [report*] wrapper returns to its caller whatever the
    vendor SDK does; the tracker it leaves behind is the same whether
    the SDK call raised or not; and when the SDK call raised, what
    follows the call is the debug line of the wrapper ([debugLog],
    which prints when debug logging is enabled). *)
Theorem report_wrappers_contain_sdk_failures :
  forall (r : Report) (host : Host) (t : ConvivaAnalyticsTracker) (h : History),
    outcome (report r host t h) = Returned tt
    /\ (forall host' h', final (report r host' t h') = final (report r host t h))
    /\ exists new,
         effects (report r host t h) = new ++ h
         /\ forall c, In (Sdk c) new -> sdkThrows host h c = true ->
              exists message,
                new ++ h = effects (Tracker.debugLog message host t (Sdk c :: h)).
Proof.
  intros r host t h.
  destruct t as [pl dbg b key va aa adb hp tm ext].
  destruct r;
    try (cbn [report]; unfold outcome, final, effects;
         (split; [|split]);
         [ now rewrite reportAdEnded_run
         | intros; now rewrite !reportAdEnded_run
         | rewrite reportAdEnded_run; unfold logged; cbn;
           destruct dbg;
           [ exists [ConsoleLog "[ ConvivaAnalyticsTracker ] error @ reportAdEnded"]
           | exists [] ];
           (split; [reflexivity|]);
           intros c Hin; cbn in Hin; intuition discriminate ]).
  all: destruct va as [va|], aa as [aa|], dbg.
  all: (split; [|split]); [ exec_all; reflexivity | intros host' h'; exec_all; reflexivity | ].
  all: exec_all.
  all: match goal with
       | |- exists new, ?e1 :: ?e2 :: ?h = new ++ ?h /\ _ => exists [e1; e2]
       | |- exists new, ?e1 :: ?h = new ++ ?h /\ _ => exists [e1]
       | |- exists new, ?h = new ++ ?h /\ _ => exists []
       end.
  all: (split; [reflexivity|]).
  all: intros c Hin Hc; cbn [In] in Hin.
  all: repeat match goal with
       | H : _ \/ _ |- _ => destruct H
       | H : False |- _ => destruct H
       | H : Sdk ?x = Sdk ?c |- _ =>
           let E := fresh in assert (E : x = c) by congruence; clear H; subst c
       | H : ConsoleLog _ = Sdk _ |- _ => discriminate H
       end.
  all: try congruence.
  all: first [ exists ""%string; reflexivity | eexists; reflexivity ].
Qed.

(** ** Methods in closed form *)

(** A tracker, field by field. *)
Ltac open_tracker t :=
  let pl := fresh "pl" in
  let dbg := fresh "dbg" in
  let b := fresh "b" in
  let key := fresh "key" in
  let va := fresh "va" in
  let aa := fresh "aa" in
  let adb := fresh "adb" in
  let hp := fresh "hp" in
  let tm := fresh "tm" in
  let ext := fresh "ext" in
  destruct t as [pl dbg b key va aa adb hp tm ext].

Lemma debugLog_run (message : string) (host : Host) (t : ConvivaAnalyticsTracker) (h : History) :
  Tracker.debugLog message host t h =
  (Returned tt, t, logged (debugLoggingEnabled t) message h).
Proof. open_tracker t. destruct dbg; reflexivity. Qed.

(** The wrappers around a call on the video object. *)
Ltac wrapper_run t :=
  destruct t as [pl [|] b key [va|] [aa|] adb hp tm ext];
  cbv [attempt onVideo onAd option_map]; exec; repeat (sdk_step; exec); reflexivity.

Lemma reportPlaybackMetric_run k v v2 host t h :
  Tracker.reportPlaybackMetric k v v2 host t h =
  (Returned tt, t,
   attempt host (debugLoggingEnabled t)
     "[ ConvivaAnalyticsTracker ] error @ reportPlaybackMetric"
     (onVideo t (VideoAnalytics.reportPlaybackMetric k v v2)) h).
Proof. wrapper_run t. Qed.

Lemma reportPlaybackEnded_run host t h :
  Tracker.reportPlaybackEnded host t h =
  (Returned tt, t,
   attempt host (debugLoggingEnabled t)
     "[ ConvivaAnalyticsTracker ] error @ reportPlaybackEnded"
     (onVideo t VideoAnalytics.reportPlaybackEnded) h).
Proof. wrapper_run t. Qed.

Lemma reportPlaybackFailed_run message host t h :
  Tracker.reportPlaybackFailed message host t h =
  (Returned tt, t,
   attempt host (debugLoggingEnabled t)
     "[ ConvivaAnalyticsTracker ] error @ reportPlaybackFailed"
     (onVideo t (VideoAnalytics.reportPlaybackFailed message)) h).
Proof. wrapper_run t. Qed.

Lemma reportAdBreakStarted_run ty value host t h :
  Tracker.reportAdBreakStarted ty value host t h =
  (Returned tt, t,
   attempt host (debugLoggingEnabled t)
     "[ ConvivaAnalyticsTracker ] error @ reportAdBreakStarted"
     (onVideo t (VideoAnalytics.reportAdBreakStarted ty value)) h).
Proof. wrapper_run t. Qed.

Lemma reportAdBreakEnded_run host t h :
  Tracker.reportAdBreakEnded host t h =
  (Returned tt, t,
   attempt host (debugLoggingEnabled t)
     "[ ConvivaAnalyticsTracker ] error @ reportAdBreakEnded"
     (onVideo t VideoAnalytics.reportAdBreakEnded) h).
Proof. wrapper_run t. Qed.

Lemma reportPlaybackRequested_run host t h :
  Tracker.reportPlaybackRequested host t h =
  (Returned tt,
   match convivaVideoAnalytics t with
   | Some _ =>
       Tracker.set_contentMetadataBuilder
         (snd (Builder.build (contentMetadataBuilder t))) t
   | None => t
   end,
   attempt host (debugLoggingEnabled t)
     "[ ConvivaAnalyticsTracker ] error @ reportPlaybackRequested"
     (onVideo t (VideoAnalytics.reportPlaybackRequested
                   (fst (Builder.build (contentMetadataBuilder t))))) h).
Proof. wrapper_run t. Qed.

Lemma reportAdMetric_run k v v2 host t h :
  Tracker.reportAdMetric k v v2 host t h =
  (Returned tt, t,
   attempt host (debugLoggingEnabled t)
     "[ ConvivaAnalyticsTracker ] error @ reportPlaybackMetric"
     (onAd t (AdAnalytics.reportAdMetric k v v2)) h).
Proof. wrapper_run t. Qed.

Lemma reportAdSkipped_run host t h :
  Tracker.reportAdSkipped host t h =
  (Returned tt, t,
   attempt host (debugLoggingEnabled t)
     "[ ConvivaAnalyticsTracker ] error @ reportAdSkipped"
     (onAd t AdAnalytics.reportAdSkipped) h).
Proof. wrapper_run t. Qed.

(** [buildContentMetadata] touches the metadata builder only, and
    says so on the debug line when no player is attached. *)
Lemma buildContentMetadata_run host t h :
  exists b,
    Tracker.buildContentMetadata host t h =
    (Returned tt, Tracker.set_contentMetadataBuilder b t,
     if Tracker.isPlayerAttached t then h
     else logged (debugLoggingEnabled t)
            "[ ConvivaAnalyticsTracker ] Player is not attached, skipping default content metadata initialization, it will be initialized on source loaded event" h).
Proof.
  open_tracker t. destruct pl as [p|].
  - destruct (getSource p) eqn:Esrc; exec; rewrite Esrc; eexists; reflexivity.
  - exists b. destruct dbg; reflexivity.
Qed.

(** Unfold the methods that branch and sequence, keeping the calls of
    the methods in closed form. *)
Ltac unfold_methods :=
  cbv beta iota zeta delta
    [ bind ret throw tryCatch get gets modify emit sdk when zoom onTracker
      Tracker.player Tracker.isPlayerAttached Tracker.isAdBreakActive Tracker.canTrackPlayEvent
      Tracker.isSessionActive Tracker.consoleLog Tracker.video Tracker.ad
      Tracker.build Tracker.getContentMetadata
      Tracker.buildVideoAnalytics Tracker.buildAdAnalytics Tracker.getSessionId
      Tracker.setPlayerInfo Tracker.onBuilder Tracker.updateSession
      Tracker.playheadCallback Tracker.internalInitializeSession Tracker.initializeSession
      Tracker.ensurePlaybackFinished Tracker.internalEndSession Tracker.endSession
      Tracker.internalUpdateContentMetadata Tracker.updateContentMetadata
      Tracker.reportPlaybackDeficiency Tracker.pauseTracking Tracker.resumeTracking
      Tracker.release Tracker.canAttachPlayer Tracker.attachPlayer
      Tracker.stallTrackingCallback Tracker.elapse Tracker.onSourceLoaded
      Tracker.trackPlaybackStateChanged Tracker.trackUpdateAudioTrack Tracker.trackTurnOffSubtitles
      Tracker.trackUpdateSubtitleTrack Tracker.trackInitialSubtitles Tracker.onPlay Tracker.onPlaying
      Tracker.onPlaybackFinished Tracker.trackAdBreakStarted Tracker.trackAdFinished
      Tracker.trackAdSkipped
      Tracker.trackAdBreakFinished Tracker.trackSeekStart Tracker.trackSeekEnd Tracker.trackError
      Tracker.onSourceUnloaded Tracker.playerChanged
      Tracker.set_player Tracker.set_contentMetadataBuilder Tracker.set_sessionKey
      Tracker.set_convivaVideoAnalytics Tracker.set_convivaAdAnalytics Tracker.set_isAdBreakActive
      Tracker.set_hasPlayed Tracker.set_stallTrackingTimeout Tracker.set_sessionEndedExternally
      Tracker.STALL_TRACKING_DELAY_MS Timeout.start Timeout.clear Timeout.idle
      Ssai.isAdBreakActive Ssai.reset Ssai.reportAdBreakStarted Ssai.reportAdFinished
      Ssai.reportAdSkipped Ssai.reportAdBreakFinished
      Facade.debugLog Facade.onAdBreakStarted Facade.onAdBreakFinished
      set_tracker set_ssai_isAdBreakActive convivaAnalyticsTracker ssai_isAdBreakActive
      _player debugLoggingEnabled contentMetadataBuilder sessionKey convivaVideoAnalytics
      convivaAdAnalytics _isAdBreakActive hasPlayed stallTrackingTimeout sessionEndedExternally
      PlayerStateHelper.getPlayerStateFromEvent includes existsb PlayerEvent_eqb AdType_eqb
      Tracker.stallTrackingStartEvents Tracker.stallTrackingClearEvents type code name
      Nat.leb
      onVideo onAd option_map
      outcome final effects
      negb andb orb ];
  cbn [fst snd].

Ltac builder_step :=
  match goal with
  | |- context [Tracker.buildContentMetadata ?host ?t ?h] =>
      let b := fresh "b" in
      let E := fresh "Ebuild" in
      destruct (buildContentMetadata_run host t h) as [b E];
      rewrite E; clear E
  end.

(** Replace the first call of a method by its closed form. *)
Ltac closed_form_step :=
  match goal with
  | |- context [Tracker.debugLog ?m ?host ?t ?h] =>
      rewrite (debugLog_run m host t h)
  | |- context [Tracker.reportPlaybackMetric ?k ?v ?v2 ?host ?t ?h] =>
      rewrite (reportPlaybackMetric_run k v v2 host t h)
  | |- context [Tracker.reportPlaybackEnded ?host ?t ?h] =>
      rewrite (reportPlaybackEnded_run host t h)
  | |- context [Tracker.reportPlaybackFailed ?m ?host ?t ?h] =>
      rewrite (reportPlaybackFailed_run m host t h)
  | |- context [Tracker.reportAdBreakStarted ?ty ?v ?host ?t ?h] =>
      rewrite (reportAdBreakStarted_run ty v host t h)
  | |- context [Tracker.reportAdBreakEnded ?host ?t ?h] =>
      rewrite (reportAdBreakEnded_run host t h)
  | |- context [Tracker.reportPlaybackRequested ?host ?t ?h] =>
      rewrite (reportPlaybackRequested_run host t h)
  | |- context [Tracker.reportAdMetric ?k ?v ?v2 ?host ?t ?h] =>
      rewrite (reportAdMetric_run k v v2 host t h)
  | |- context [Tracker.reportAdSkipped ?host ?t ?h] =>
      rewrite (reportAdSkipped_run host t h)
  | |- context [Tracker.reportAdEnded ?host ?t ?h] =>
      rewrite (reportAdEnded_run host t h)
  end.

(** Name the video object that was just built. *)
Ltac handle_step :=
  match goal with
  | |- context [Tracker.nextHandle ?h] =>
      let hd := fresh "hd" in
      let E := fresh "Ehd" in
      remember (Tracker.nextHandle h) as hd eqn:E
  end.

Ltac run_step :=
  first [ closed_form_step
        | builder_step
        | sdk_step
        | handle_step ].

(** Run a method on an opened tracker. *)
Ltac go := unfold_methods; repeat (run_step; unfold_methods).


(** Case analysis on what the player and the builder answer, where a
    method branches on it. *)
Ltac branch_step :=
  match goal with
  | |- context [match getSource ?p with _ => _ end] =>
      let E := fresh "Esrc" in destruct (getSource p) eqn:E
  | |- context [truthy ?x] =>
      let E := fresh "Ename" in destruct (truthy x) eqn:E
  | |- context [match getAudio ?p with _ => _ end] =>
      let E := fresh "Eaudio" in destruct (getAudio p) eqn:E
  | |- context [if isPlaying ?p then _ else _] =>
      let E := fresh "Eplaying" in destruct (isPlaying p) eqn:E
  end.

Ltac go_branches := unfold_methods; repeat (first [run_step | branch_step]; unfold_methods).

Lemma triple_eq {A B C} (a a' : A) (b b' : B) (c c' : C) :
  (a, b, c) = (a', b', c') -> a = a' /\ b = b' /\ c = c'.
Proof. intros E. injection E. auto. Qed.

(** ** Observing the closed forms *)

Lemma sdkCalls_logged dbg message h :
  sdkCalls (logged dbg message h) = sdkCalls h.
Proof. destruct dbg; reflexivity. Qed.

Lemma sdkCalls_attempt_some host dbg message c h :
  sdkCalls (attempt host dbg message (Some c) h) = sdkCalls h ++ [c].
Proof.
  unfold attempt. destruct (sdkThrows host h c); [rewrite sdkCalls_logged|]; reflexivity.
Qed.

Lemma sdkCalls_attempt_none host dbg message h :
  sdkCalls (attempt host dbg message None h) = sdkCalls h.
Proof. apply sdkCalls_logged. Qed.

Lemma length_filter_snoc {A} (f : A -> bool) (l : list A) (x : A) :
  List.length (filter f (l ++ [x])) = List.length (filter f l) + (if f x then 1 else 0).
Proof.
  rewrite filter_app, length_app. cbn. destruct (f x); reflexivity.
Qed.

(** Simplify an observation of a history in closed form. *)
Ltac observe :=
  repeat first
    [ rewrite sdkCalls_logged
    | rewrite sdkCalls_attempt_some
    | rewrite sdkCalls_attempt_none
    | progress cbn [sdkCalls] ].

(** ** Session initialization *)

Lemma initializeSession_active host t h :
  Tracker.isSessionActive t = true ->
  Tracker.initializeSession host t h =
  (Returned tt, t,
   LoggerLog "[ ConvivaAnalyticsTracker ] There is already a session running." LOG_WARNING :: h).
Proof.
  open_tracker t. destruct va; [reflexivity | discriminate].
Qed.

(** What a call of [initializeSession] without a session comes to. *)
Lemma initializeSession_idle host t h o t' h' :
  Tracker.isSessionActive t = false ->
  Tracker.initializeSession host t h = (o, t', h') ->
  (assetNameResolvable t = false
   /\ o = Raised (JsString (if Tracker.isPlayerAttached t
                            then noSourceLoadedMessage else playerNotAttachedMessage))
   /\ t' = t /\ h' = h)
  \/ (assetNameResolvable t = true
      /\ ((o = Returned tt /\ Tracker.isSessionActive t' = true
           /\ sessionsBuilt h' = S (sessionsBuilt h))
          \/ (o = Raised SdkException /\ ~ stableInterfaces host))).
Proof.
  intros Hidle. revert Hidle.
  open_tracker t. destruct va as [va|]; [discriminate|]. intros _.
  unfold assetNameResolvable. cbn [contentMetadataBuilder _player Tracker.isPlayerAttached].
  destruct pl as [p|]; go_branches.
  all: intros E; apply triple_eq in E; destruct E as (<- & <- & <-); cbn [orb].
  all: try (left; repeat split; reflexivity).
  all: right; split; [reflexivity|].
  all: try (right; split; [reflexivity|]; intros Hst;
            match goal with
            | E : sdkThrows ?host ?h ?c = true |- _ =>
                rewrite (Hst h c eq_refl) in E; discriminate
            end).
  all: left; repeat split; unfold sessionsBuilt; observe;
       rewrite !length_filter_snoc; cbn; lia.
Qed.

(** C4. Two calls of [initializeSession] in a row, the first one made
    without a session and returning: the second call returns, leaves
    the tracker as the first call left it, makes no call on the SDK
    and only logs a warning; one session was built overall. *)
Theorem initializeSession_twice_is_one_session :
  forall (host : Host) (t : ConvivaAnalyticsTracker) (h : History),
    Tracker.isSessionActive t = false ->
    outcome (Tracker.initializeSession host t h) = Returned tt ->
    let first := Tracker.initializeSession host t h in
    let second := Tracker.initializeSession host (final first) (effects first) in
    second =
      (Returned tt, final first,
       LoggerLog "[ ConvivaAnalyticsTracker ] There is already a session running." LOG_WARNING
         :: effects first)
    /\ sdkCalls (effects second) = sdkCalls (effects first)
    /\ sessionsBuilt (effects second) = S (sessionsBuilt h).
Proof.
  intros host t h Hidle Hret first second. subst second first.
  destruct (Tracker.initializeSession host t h) as [[o t'] h'] eqn:E.
  unfold outcome, final, effects in *. cbn [fst snd] in *. subst o.
  destruct (initializeSession_idle host t h Hidle E)
    as [(_ & Ho & _) | (_ & [(_ & Hact & Hbuilt) | (Ho & _)])]; try discriminate.
  rewrite (initializeSession_active host t' h' Hact). cbn [fst snd].
  repeat split. exact Hbuilt.
Qed.


(** ** Ending a session *)

(** C2. [endSession] does nothing without a session.  With a session
    and an ad break, on stable SDK interfaces, it reports ad-skipped,
    then playback-ended, then releases the video object and the ad
    object; afterwards both fields are null, no ad break is active and
    [hasPlayed] is false. *)
Theorem endSession_reports_and_releases :
  forall (host : Host) (t : ConvivaAnalyticsTracker) (h : History),
    (Tracker.isSessionActive t = false ->
     Tracker.endSession host t h = (Returned tt, t, h))
    /\ (forall hd ha,
          convivaVideoAnalytics t = Some hd ->
          convivaAdAnalytics t = Some ha ->
          _isAdBreakActive t = true ->
          stableInterfaces host ->
          let r := Tracker.endSession host t h in
          outcome r = Returned tt
          /\ sdkCalls (effects r) =
             sdkCalls h ++ [ Ad ha AdAnalytics.reportAdSkipped;
                             Video hd VideoAnalytics.reportPlaybackEnded;
                             Video hd VideoAnalytics.release;
                             Ad ha AdAnalytics.release ]
          /\ convivaVideoAnalytics (final r) = None
          /\ convivaAdAnalytics (final r) = None
          /\ Tracker.isAdBreakActive (final r) = false
          /\ hasPlayed (final r) = false).
Proof.
  intros host t h. split.
  - open_tracker t. destruct va; [discriminate | reflexivity].
  - intros hd ha Hv Ha Hb Hst r. subst r.
    open_tracker t. cbn in Hv, Ha, Hb. subst va aa adb.
    go. repeat split. observe. now rewrite <- !app_assoc.
Qed.

(** Run the method [m], applied up to its host, on an opened tracker
    and replace the run by its outcome, final tracker and history. *)
Ltac run_method m :=
  match goal with
  | |- context [m ?t ?h] =>
      let o := fresh "o" in
      let t' := fresh "t'" in
      let h' := fresh "h'" in
      let E := fresh "Erun" in
      destruct (m t h) as [[o t'] h'] eqn:E;
      revert E; go; intros E; apply triple_eq in E;
      destruct E as (<- & <- & <-);
      unfold outcome, final, effects; cbn [fst snd]
  end.

(** ** Playback failures *)

(** C9. [trackError] without a session, on stable SDK interfaces.  If
    the session was not ended externally: a session is initialized
    (built, requested, STOPPED), then the failure is reported with the
    message made of the event's code and name, then the session is
    released.  [reportPlaybackFailed] is the SDK's report of a fatal
    failure, and FATAL is the severity [trackError] passes on.  If the
    session was ended externally: nothing is built and nothing is
    reported. *)
Theorem trackError_opens_reports_and_ends :
  forall (host : Host) (t : ConvivaAnalyticsTracker) (h : History) (ev : PlayerEventBase),
    Tracker.isSessionActive t = false ->
    stableInterfaces host ->
    let r := Tracker.trackError ev host t h in
    let message := (string_of_N (code ev) ++ " " ++ name ev)%string in
    r = (when (negb (sessionEndedExternally t)) Tracker.internalInitializeSession;;
         Tracker.debugLog "[ ConvivaAnalyticsTracker ] report playback deficiency";;
         Tracker.reportPlaybackDeficiency message FATAL true) host t h
    /\ (sessionEndedExternally t = false ->
       exists hd info,
         outcome r = Returned tt
         /\ sdkCalls (effects r) =
            sdkCalls h
            ++ [ BuildVideoAnalytics; BuildAdAnalytics hd;
                 Video hd (VideoAnalytics.reportPlaybackRequested info);
                 Video hd VideoAnalytics.getSessionId ]
            ++ match _player t with
               | Some p => [ Video hd (VideoAnalytics.setPlayerInfo (version p));
                             Ad hd (AdAnalytics.setAdPlayerInfo (version p)) ]
               | None => []
               end
            ++ [ Video hd (VideoAnalytics.reportPlaybackMetric PLAYER_STATE (VState STOPPED) VUndefined);
                 Video hd VideoAnalytics.setCallback;
                 Video hd (VideoAnalytics.reportPlaybackFailed message);
                 Video hd VideoAnalytics.release;
                 Ad hd AdAnalytics.release ]
         /\ Tracker.isSessionActive (final r) = false)
    /\ (sessionEndedExternally t = true ->
        outcome r = Returned tt /\ final r = t /\ sdkCalls (effects r) = sdkCalls h).
Proof.
  intros host t h ev Hidle Hst r message. subst r message.
  open_tracker t. destruct va as [va|]; [discriminate|]. clear Hidle.
  split; [reflexivity|].
  split; intros Hext; cbn in Hext; subst ext.
  - destruct pl as [p|]; run_method (Tracker.trackError ev host);
      do 2 eexists; (split; [reflexivity|]);
      (split; [|reflexivity]); observe; cbn [app]; rewrite <- !app_assoc; reflexivity.
  - run_method (Tracker.trackError ev host). repeat split. now observe.
Qed.

(** ** Ad breaks and the player state *)

Lemma contentPlayerStates_snoc_state h c s :
  isPlayerStateMetric c = Some s ->
  forall calls, sdkCalls h = calls ++ [c] ->
  lastContentPlayerState h = Some s.
Proof.
  intros Hc calls Hcalls. unfold lastContentPlayerState, contentPlayerStates.
  rewrite Hcalls, flat_map_app. cbn. rewrite Hc. cbn.
  rewrite map_app. cbn. apply last_last.
Qed.

(** C1, as the code has it.  With a session and a player attached,
    [trackAdBreakStarted] changes the ad-break flag and nothing else
    (no player state is saved), and [trackAdBreakFinished] clears the
    flag, reports ad-break-ended and then reports to the content
    stream the state derived from the player at that moment:
    BUFFERING if it is stalled, else PLAYING if it is playing, else
    PAUSED. *)
Theorem trackAdBreakFinished_reports_current_player_state :
  forall (host : Host) (t : ConvivaAnalyticsTracker) (p : PlayerAPI) (hd : Handle) (h : History),
    convivaVideoAnalytics t = Some hd ->
    _player t = Some p ->
    (forall ty, final (Tracker.trackAdBreakStarted ty host t h) = Tracker.set_isAdBreakActive true t)
    /\ let r := Tracker.trackAdBreakFinished host t h in
       outcome r = Returned tt
       /\ final r = Tracker.set_isAdBreakActive false t
       /\ sdkCalls (effects r) =
          sdkCalls h
          ++ [ Video hd VideoAnalytics.reportAdBreakEnded;
               Video hd (VideoAnalytics.reportPlaybackMetric PLAYER_STATE
                           (VState (PlayerStateHelper.getPlayerState p)) VUndefined) ]
       /\ lastContentPlayerState (effects r) = Some (PlayerStateHelper.getPlayerState p).
Proof.
  intros host t p hd h Hv Hp.
  open_tracker t. cbn in Hv, Hp. subst va pl.
  split.
  - intros ty. run_method (Tracker.trackAdBreakStarted ty host). reflexivity.
  - intros r. subst r. run_method (Tracker.trackAdBreakFinished host).
    assert (Hcalls :
      sdkCalls
        (attempt host dbg "[ ConvivaAnalyticsTracker ] error @ reportPlaybackMetric"
           (Some (Video hd (VideoAnalytics.reportPlaybackMetric PLAYER_STATE
                              (VState (PlayerStateHelper.getPlayerState p)) VUndefined)))
           (logged dbg
              ("[ ConvivaAnalyticsTracker ] report "
               ++ PlayerState_name (PlayerStateHelper.getPlayerState p)
               ++ " playback state")%string
              (attempt host dbg "[ ConvivaAnalyticsTracker ] error @ reportAdBreakEnded"
                 (Some (Video hd VideoAnalytics.reportAdBreakEnded))
                 (logged dbg "[ ConvivaAnalyticsTracker ] report ad break ended" h)))) =
      (sdkCalls h ++ [Video hd VideoAnalytics.reportAdBreakEnded])
      ++ [Video hd (VideoAnalytics.reportPlaybackMetric PLAYER_STATE
                      (VState (PlayerStateHelper.getPlayerState p)) VUndefined)])
      by (observe; reflexivity).
    repeat split.
    + rewrite Hcalls. now rewrite <- app_assoc.
    + eapply contentPlayerStates_snoc_state; [|exact Hcalls]. reflexivity.
Qed.

(** C6, as the code has it.  During a session with a player attached,
    a Paused event yields a PAUSED player state whatever the player
    answers to [isPaused]: on the ad stream during an ad break, on the
    content stream otherwise.  Without a session the event yields
    nothing. *)
Theorem paused_event_reports_paused :
  forall (host : Host) (t : ConvivaAnalyticsTracker) (h : History) (ev : PlayerEventBase),
    type ev = Paused ->
    (Tracker.isSessionActive t = false ->
     Tracker.trackPlaybackStateChanged ev host t h = (Returned tt, t, h))
    /\ (forall p hd ha,
          _player t = Some p ->
          convivaVideoAnalytics t = Some hd ->
          convivaAdAnalytics t = Some ha ->
          let r := Tracker.trackPlaybackStateChanged ev host t h in
          outcome r = Returned tt
          /\ sdkCalls (effects r) =
             sdkCalls h
             ++ [ if _isAdBreakActive t
                  then Ad ha (AdAnalytics.reportAdMetric PLAYER_STATE (VState PAUSED) VUndefined)
                  else Video hd (VideoAnalytics.reportPlaybackMetric PLAYER_STATE
                                   (VState PAUSED) VUndefined) ]).
Proof.
  intros host t h [ty c n sk] Hty. cbn in Hty. subst ty.
  open_tracker t. split.
  - destruct va; [discriminate | reflexivity].
  - intros p hd ha Hp Hv Ha r. subst r. cbn in Hp, Hv, Ha. subst pl va aa.
    destruct adb;
      run_method (Tracker.trackPlaybackStateChanged
                    {| type := Paused; code := c; name := n; seekTarget := sk |} host);
      split; try reflexivity; now observe.
Qed.

(** ** The stall timer *)

(** An idle timer lets time pass. *)
Lemma elapse_idle ms host t h :
  stallTrackingTimeout t = Timeout.idle ->
  Tracker.elapse ms host t h = (Returned tt, t, h).
Proof. open_tracker t. cbn. intros ->. reflexivity. Qed.

(** A pending timer counts down while its delay is not over. *)
Lemma elapse_early remaining ms host t h :
  stallTrackingTimeout t = Some remaining ->
  ms < remaining ->
  Tracker.elapse ms host t h =
  (Returned tt, Tracker.set_stallTrackingTimeout (Some (remaining - ms)) t, h).
Proof.
  open_tracker t. cbn [stallTrackingTimeout]. intros -> Hlt.
  unfold Tracker.elapse. unfold_methods.
  apply Nat.leb_gt in Hlt. unfold Nat.leb in Hlt |- *. rewrite Hlt. reflexivity.
Qed.

(** A pending timer whose delay is over runs its callback: BUFFERING
    on the stream that is active for [t]. *)
Lemma elapse_late remaining ms host t h :
  stallTrackingTimeout t = Some remaining ->
  remaining <= ms ->
  Tracker.elapse ms host t h =
  (Returned tt, Tracker.set_stallTrackingTimeout Timeout.idle t,
   if _isAdBreakActive t then
     attempt host (debugLoggingEnabled t)
       "[ ConvivaAnalyticsTracker ] error @ reportPlaybackMetric"
       (onAd t (AdAnalytics.reportAdMetric PLAYER_STATE (VState BUFFERING) VUndefined))
       (logged (debugLoggingEnabled t)
          "[ ConvivaAnalyticsTracker ] report buffering ad playback state" h)
   else
     attempt host (debugLoggingEnabled t)
       "[ ConvivaAnalyticsTracker ] error @ reportPlaybackMetric"
       (onVideo t (VideoAnalytics.reportPlaybackMetric PLAYER_STATE (VState BUFFERING) VUndefined))
       (logged (debugLoggingEnabled t)
          "[ ConvivaAnalyticsTracker ] report buffering playback state" h)).
Proof.
  open_tracker t. cbn [stallTrackingTimeout]. intros -> Hle.
  unfold Tracker.elapse. unfold_methods.
  apply Nat.leb_le in Hle. unfold Nat.leb in Hle |- *. rewrite Hle.
  destruct adb; go; reflexivity.
Qed.

(** [trackPlaybackStateChanged] and the timer by themselves, on a
    tracker with a session and a player attached: an event of the
    start list arms the one stall timer with the fixed delay,
    whatever its state was, and reports nothing; an event of the
    clear list leaves the timer idle; an idle timer does nothing,
    however much time passes; a pending timer reports nothing while
    less time has passed than it has left; once the delay is over it
    reports BUFFERING once, on the ad stream during an ad break and
    on the content stream otherwise, and is idle.  Which events reach
    [trackPlaybackStateChanged] during a session is up to the
    handlers of the facade: see the last section. *)
Lemma trackPlaybackStateChanged_arms_and_clears :
  forall (host : Host) (t : ConvivaAnalyticsTracker) (p : PlayerAPI) (hd ha : Handle)
         (h : History),
    _player t = Some p ->
    convivaVideoAnalytics t = Some hd ->
    convivaAdAnalytics t = Some ha ->
    (forall ev,
        includes Tracker.stallTrackingStartEvents (type ev) = true ->
        let r := Tracker.trackPlaybackStateChanged ev host t h in
        outcome r = Returned tt
        /\ final r = Tracker.set_stallTrackingTimeout (Some Tracker.STALL_TRACKING_DELAY_MS) t
        /\ sdkCalls (effects r) = sdkCalls h)
    /\ (forall ev,
        includes Tracker.stallTrackingClearEvents (type ev) = true ->
        let r := Tracker.trackPlaybackStateChanged ev host t h in
        outcome r = Returned tt
        /\ final r = Tracker.set_stallTrackingTimeout Timeout.idle t)
    /\ (forall ms,
        stallTrackingTimeout t = Timeout.idle ->
        Tracker.elapse ms host t h = (Returned tt, t, h))
    /\ (forall remaining ms,
        stallTrackingTimeout t = Some remaining ->
        ms < remaining ->
        Tracker.elapse ms host t h =
        (Returned tt, Tracker.set_stallTrackingTimeout (Some (remaining - ms)) t, h))
    /\ (forall remaining ms,
        stallTrackingTimeout t = Some remaining ->
        remaining <= ms ->
        let r := Tracker.elapse ms host t h in
        outcome r = Returned tt
        /\ final r = Tracker.set_stallTrackingTimeout Timeout.idle t
        /\ sdkCalls (effects r) =
           sdkCalls h
           ++ [ if _isAdBreakActive t
                then Ad ha (AdAnalytics.reportAdMetric PLAYER_STATE (VState BUFFERING) VUndefined)
                else Video hd (VideoAnalytics.reportPlaybackMetric PLAYER_STATE
                                 (VState BUFFERING) VUndefined) ]
        /\ forall ms', Tracker.elapse ms' host (final r) (effects r) =
                       (Returned tt, final r, effects r)).
Proof.
  intros host t p hd ha h Hp Hv Ha.
  split; [|split; [|split; [|split]]].
  - intros [ty c n sk] Hon r. subst r.
    open_tracker t. cbn in Hp, Hv, Ha. subst pl va aa.
    destruct ty; try discriminate Hon;
      match goal with
      | |- context [Tracker.trackPlaybackStateChanged ?e host] =>
          run_method (Tracker.trackPlaybackStateChanged e host)
      end; repeat split.
  - intros [ty c n sk] Hoff r. subst r.
    open_tracker t. cbn in Hp, Hv, Ha. subst pl va aa.
    destruct ty; try discriminate Hoff; destruct adb;
      match goal with
      | |- context [Tracker.trackPlaybackStateChanged ?e host] =>
          destruct (Tracker.trackPlaybackStateChanged e host _ h) as [[o t'] h'] eqn:E;
          revert E; go_branches; intros E; apply triple_eq in E;
          destruct E as (<- & <- & <-)
      end; split; reflexivity.
  - intros ms. apply elapse_idle.
  - intros remaining ms. apply elapse_early.
  - intros remaining ms Hrem Hle r. subst r.
    rewrite (@elapse_late remaining ms host t h Hrem Hle).
    unfold outcome, final, effects. cbn [fst snd].
    split; [reflexivity|]. split; [reflexivity|]. split.
    + unfold onAd, onVideo. rewrite Hv, Ha. cbn [option_map].
      destruct (_isAdBreakActive t); now observe.
    + intros ms'. apply elapse_idle. open_tracker t. reflexivity.
Qed.

(** ** Client-side and server-side ad breaks *)

(** C8, as the code has it.  The tracker has one ad-break flag, which
    both entry points set.  The server-side entry point
    [reportAdBreakStarted] does nothing while that flag or its own is
    set; in a session with neither set it sets both and reports one
    ad-break-started (SERVER_SIDE, CONTENT), and a second call right
    after does nothing.  The client-side entry point (the handler of
    the player's AdBreakStarted event) checks only that a session is
    active: it sets the tracker's flag and reports ad-break-started
    (CLIENT_SIDE, SEPARATE) whatever the two flags are. *)
Theorem ssai_start_is_guarded_csai_start_is_not :
  forall (host : Host) (s : ConvivaAnalytics) (h : History) (hd : Handle),
    convivaVideoAnalytics (convivaAnalyticsTracker s) = Some hd ->
    (Tracker.isAdBreakActive (convivaAnalyticsTracker s) = true
     \/ Ssai.isAdBreakActive s = true ->
     Ssai.reportAdBreakStarted host s h = (Returned tt, s, h))
    /\ (Tracker.isAdBreakActive (convivaAnalyticsTracker s) = false ->
        Ssai.isAdBreakActive s = false ->
        let r := Ssai.reportAdBreakStarted host s h in
        outcome r = Returned tt
        /\ Tracker.isAdBreakActive (convivaAnalyticsTracker (final r)) = true
        /\ Ssai.isAdBreakActive (final r) = true
        /\ sdkCalls (effects r) =
           sdkCalls h ++ [Video hd (VideoAnalytics.reportAdBreakStarted SERVER_SIDE CONTENT)]
        /\ Ssai.reportAdBreakStarted host (final r) (effects r) =
           (Returned tt, final r, effects r))
    /\ (forall ev,
        let r := Facade.onAdBreakStarted ev host s h in
        outcome r = Returned tt
        /\ Tracker.isAdBreakActive (convivaAnalyticsTracker (final r)) = true
        /\ Ssai.isAdBreakActive (final r) = Ssai.isAdBreakActive s
        /\ sdkCalls (effects r) =
           sdkCalls h ++ [Video hd (VideoAnalytics.reportAdBreakStarted CLIENT_SIDE SEPARATE)]).
Proof.
  intros host [t ssai] h hd Hv. cbn in Hv.
  open_tracker t. cbn in Hv. subst va.
  split; [|split].
  - cbn. intros [-> | ->]; [reflexivity|]. destruct adb; reflexivity.
  - intros Hadb Hssai r. subst r. cbn in Hadb, Hssai. subst adb ssai.
    run_method (Ssai.reportAdBreakStarted host).
    repeat split. now observe.
  - intros ev r. subst r. run_method (Facade.onAdBreakStarted ev host).
    repeat split. now observe.
Qed.

(** ** Concrete runs *)

Lemma quietHost_stable : stableInterfaces quietHost.
Proof. intros h c _. reflexivity. Qed.

(** Against C1 as stated: playback is PLAYING when a client-side ad
    break starts, the player is paused during the break, and the
    state reported to the content stream right after the break is
    PAUSED, not the PLAYING of before the break. *)
Lemma adBreak_restores_pre_ad_state_counterexample :
  let before := run quietHost playbackUnderWay (Facade.new false) [] in
  let after := run quietHost adBreakWithPause (fst before) (snd before) in
  lastContentPlayerState (snd before) = Some PLAYING
  /\ option_map PlayerStateHelper.getPlayerState
       (_player (convivaAnalyticsTracker (fst before))) = Some PLAYING
  /\ lastContentPlayerState (snd after) = Some PAUSED
  /\ lastContentPlayerState (snd after) <> lastContentPlayerState (snd before).
Proof.
  vm_compute. repeat split; discriminate.
Qed.

Lemma trackAdBreakFinished_reports_current_player_state_witness :
  convivaVideoAnalytics adBreakTracker = Some 0
  /\ _player adBreakTracker = Some samplePlayer
  /\ lastContentPlayerState (effects (Tracker.trackAdBreakFinished quietHost adBreakTracker []))
     = Some PAUSED.
Proof.
  split; [reflexivity | split; [reflexivity |]].
  apply (@trackAdBreakFinished_reports_current_player_state
           quietHost adBreakTracker samplePlayer 0 []); reflexivity.
Defined.

Lemma endSession_reports_and_releases_witness :
  convivaVideoAnalytics adBreakTracker = Some 0
  /\ convivaAdAnalytics adBreakTracker = Some 0
  /\ _isAdBreakActive adBreakTracker = true
  /\ sdkCalls (effects (Tracker.endSession quietHost adBreakTracker [])) =
     [ Ad 0 AdAnalytics.reportAdSkipped;
       Video 0 VideoAnalytics.reportPlaybackEnded;
       Video 0 VideoAnalytics.release;
       Ad 0 AdAnalytics.release ].
Proof.
  split; [reflexivity | split; [reflexivity | split; [reflexivity |]]].
  apply (proj2 (@endSession_reports_and_releases quietHost adBreakTracker []) 0 0);
    try reflexivity.
  exact quietHost_stable.
Defined.

Lemma initializeSession_twice_is_one_session_witness :
  Tracker.isSessionActive idleTracker = false
  /\ outcome (Tracker.initializeSession quietHost idleTracker []) = Returned tt
  /\ sessionsBuilt
       (effects
          (Tracker.initializeSession quietHost
             (final (Tracker.initializeSession quietHost idleTracker []))
             (effects (Tracker.initializeSession quietHost idleTracker [])))) = 1.
Proof.
  split; [reflexivity | split; [reflexivity |]].
  apply (@initializeSession_twice_is_one_session quietHost idleTracker []); reflexivity.
Defined.


(** Against C6 as stated: a session is active, the player answers
    [false] to [isPaused], and a Paused event still yields a PAUSED
    player state on the content stream. *)
Lemma paused_event_while_not_paused_counterexample :
  let t := Tracker.set_player (Some (answering true false false samplePlayer)) sampleTracker in
  option_map isPaused (_player t) = Some false
  /\ contentPlayerStates
       (effects (Tracker.trackPlaybackStateChanged (event Paused) quietHost t [])) = [PAUSED]
  /\ contentPlayerStates
       (effects (Tracker.trackPlaybackStateChanged (event Paused) quietHost t [])) <> [].
Proof.
  vm_compute. repeat split; discriminate.
Qed.

Lemma paused_event_reports_paused_witness :
  type (event Paused) = Paused
  /\ sdkCalls (effects (Tracker.trackPlaybackStateChanged (event Paused) hostileHost
                          sampleTracker [])) =
     [Video 0 (VideoAnalytics.reportPlaybackMetric PLAYER_STATE (VState PAUSED) VUndefined)].
Proof.
  split; [reflexivity |].
  apply (proj2 (@paused_event_reports_paused hostileHost sampleTracker [] (event Paused)
                  eq_refl) samplePlayer 0 0); reflexivity.
Defined.

(** Against C8 as stated: a server-side ad break is active, the
    player starts a client-side ad break, and a second
    ad-break-started is reported instead of nothing. *)
Lemma csai_start_during_ssai_break_counterexample :
  let before :=
    run quietHost (playbackUnderWay ++ [SsaiAdBreakStarted]) (Facade.new false) [] in
  let after := run quietHost [Fire (event AdBreakStarted)] (fst before) (snd before) in
  Ssai.isAdBreakActive (fst before) = true
  /\ adBreakStartedCalls (snd before) = 1
  /\ adBreakStartedCalls (snd after) = 2
  /\ snd after <> snd before.
Proof.
  vm_compute. repeat split; discriminate.
Qed.

Lemma ssai_start_is_guarded_csai_start_is_not_witness :
  convivaVideoAnalytics (convivaAnalyticsTracker sampleFacade) = Some 0
  /\ sdkCalls (effects (Ssai.reportAdBreakStarted quietHost sampleFacade [])) =
     [Video 0 (VideoAnalytics.reportAdBreakStarted SERVER_SIDE CONTENT)].
Proof.
  split; [reflexivity |].
  apply (proj1 (proj2 (@ssai_start_is_guarded_csai_start_is_not quietHost sampleFacade []
                         0 eq_refl))); reflexivity.
Defined.

Lemma trackError_opens_reports_and_ends_witness :
  Tracker.isSessionActive idleTracker = false
  /\ stableInterfaces quietHost
  /\ Tracker.isSessionActive
       (final (Tracker.trackError {| type := Error; code := 1201%N; name := "SOURCE_ERROR";
                                     seekTarget := 0%Z |} quietHost idleTracker [])) = false.
Proof.
  split; [reflexivity | split; [exact quietHost_stable |]].
  destruct (proj1 (proj2 (@trackError_opens_reports_and_ends
                     quietHost idleTracker []
                     {| type := Error; code := 1201%N; name := "SOURCE_ERROR";
                        seekTarget := 0%Z |}
                     eq_refl quietHost_stable)) eq_refl)
    as (hd & info & _ & _ & Hidle).
  exact Hidle.
Defined.

(** ** The order of the reports of a session *)

Section Preservation.

Context {S : Type} (host : Host) (Inv : S -> History -> Prop).

Lemma preserves_ret {A} (a : A) : preserves host Inv (ret a).
Proof. intros s h H. exact H. Qed.

Lemma preserves_throw {A} (e : Exn) : preserves host Inv (throw (A := A) e).
Proof. intros s h H. exact H. Qed.

Lemma preserves_get : preserves host Inv get.
Proof. intros s h H. exact H. Qed.

Lemma preserves_gets {A} (f : S -> A) : preserves host Inv (gets f).
Proof. intros s h H. exact H. Qed.

Lemma preserves_bind {A B} (m : M S A) (k : A -> M S B) :
  preserves host Inv m ->
  (forall a, preserves host Inv (k a)) ->
  preserves host Inv (bind m k).
Proof.
  intros Hm Hk s h H. specialize (Hm s h H).
  unfold bind, final, effects in *.
  destruct (m host s h) as [[[a|e] s'] h']; cbn [fst snd] in *.
  - apply Hk, Hm.
  - exact Hm.
Qed.

Lemma preserves_tryCatch {A} (body : M S A) (handler : Exn -> M S A) :
  preserves host Inv body ->
  (forall e, preserves host Inv (handler e)) ->
  preserves host Inv (tryCatch body handler).
Proof.
  intros Hb Hh s h H. specialize (Hb s h H).
  unfold tryCatch, final, effects in *.
  destruct (body host s h) as [[[a|e] s'] h']; cbn [fst snd] in *.
  - exact Hb.
  - apply Hh, Hb.
Qed.

Lemma preserves_when (b : bool) (m : M S unit) :
  preserves host Inv m -> preserves host Inv (when b m).
Proof. intros Hm. destruct b; [exact Hm | apply preserves_ret]. Qed.

Lemma preserves_modify (f : S -> S) :
  (forall s h, Inv s h -> Inv (f s) h) ->
  preserves host Inv (modify f).
Proof. intros Hf s h H. apply Hf, H. Qed.

Lemma preserves_emit (e : Effect) :
  (forall s h, Inv s h -> Inv s (e :: h)) ->
  preserves host Inv (emit e).
Proof. intros He s h H. apply He, H. Qed.

Lemma preserves_sdk (c : SdkCall) :
  (forall s h, Inv s h -> Inv s (Sdk c :: h)) ->
  preserves host Inv (sdk c).
Proof.
  intros Hc s h H. unfold sdk, final, effects.
  destruct (sdkThrows host h c); apply Hc, H.
Qed.

End Preservation.

Lemma preserves_zoom {S T A} host (Inv : T -> History -> Prop)
  (proj : S -> T) (upd : T -> S -> S) (m : M T A) :
  (forall t s, proj (upd t s) = t) ->
  preserves host Inv m ->
  preserves host (fun s h => Inv (proj s) h) (zoom proj upd m).
Proof.
  intros Hpu Hm s h H. specialize (Hm (proj s) h H).
  unfold zoom, final, effects in *.
  destruct (m host (proj s) h) as [[o t'] h']; cbn [fst snd] in *.
  now rewrite Hpu.
Qed.

(** *** Histories only grow *)

Lemma existsb_logged (f : Effect -> bool) dbg message h :
  f (ConsoleLog message) = false ->
  existsb f (sinceBuild (logged dbg message h)) = existsb f (sinceBuild h).
Proof. intros Hf. destruct dbg; cbn; [now rewrite Hf | reflexivity]. Qed.

Lemma sinceBuild_cons e h :
  buildsNothing e -> sinceBuild (e :: h) = e :: sinceBuild h.
Proof.
  intros He. destruct e as [c| |]; try reflexivity.
  destruct c; try reflexivity. now destruct He.
Qed.

Lemma requestedOn_cons hd e h :
  buildsNothing e -> requestedOn hd h = true -> requestedOn hd (e :: h) = true.
Proof.
  intros He. unfold requestedOn. rewrite (sinceBuild_cons h He). cbn.
  intros ->. apply orb_true_r.
Qed.

Lemma stoppedOn_cons hd e h :
  buildsNothing e -> stoppedOn hd h = true -> stoppedOn hd (e :: h) = true.
Proof.
  intros He. unfold stoppedOn. rewrite (sinceBuild_cons h He). cbn.
  intros ->. apply orb_true_r.
Qed.

Lemma sessionOpened_cons t e h :
  buildsNothing e -> sessionOpened t h -> sessionOpened t (e :: h).
Proof.
  intros He H hd Hhd. destruct (H hd Hhd). split;
    [now apply requestedOn_cons | now apply stoppedOn_cons].
Qed.

Lemma neutral_buildsNothing c : neutral c = true -> buildsNothing (Sdk c).
Proof. intros Hc E. injection E as ->. discriminate Hc. Qed.

Lemma mayFollow_neutral c h : neutral c = true -> mayFollow (Sdk c) h = true.
Proof.
  destruct c as [| |hd c| |]; try reflexivity.
  destruct c as [|k v v2| | | | | | | | | | |]; try reflexivity.
  destruct k; try reflexivity. destruct v as [s| | |]; try reflexivity.
  destruct s; try reflexivity; discriminate.
Qed.

Lemma mayFollow_on_session t hd c h :
  sessionOpened t h ->
  convivaVideoAnalytics t = Some hd ->
  mayFollow (Sdk (Video hd c)) h = true.
Proof.
  intros Hopen Hhd. destruct (Hopen hd Hhd) as [Hreq Hstop].
  destruct c as [|k v v2| | | | | | | | | | |]; try reflexivity.
  destruct k; try reflexivity. destruct v as [s| | |]; try reflexivity.
  destruct s; try reflexivity; assumption.
Qed.

(** *** Steps of the tracker *)

Lemma inOrder_modify host f :
  keepsSession f -> preserves host reportsInOrder (modify f).
Proof.
  intros Hf. apply preserves_modify. intros t h [Hord Hopen]. split; [exact Hord|].
  intros hd Hhd. apply Hopen, Hf, Hhd.
Qed.

Lemma inOrder_log host e :
  (forall c, e <> Sdk c) -> preserves host reportsInOrder (emit e).
Proof.
  intros He. apply preserves_emit. intros t h [Hord Hopen]. split.
  - cbn [ordered]. rewrite Hord. destruct e; [now destruct (He c) | reflexivity | reflexivity].
  - apply sessionOpened_cons; [apply He | exact Hopen].
Qed.

Lemma inOrder_sdk_neutral host c :
  neutral c = true -> preserves host reportsInOrder (sdk c).
Proof.
  intros Hc. apply preserves_sdk. intros t h [Hord Hopen]. split.
  - cbn [ordered]. now rewrite Hord, mayFollow_neutral.
  - apply sessionOpened_cons; [now apply neutral_buildsNothing | exact Hopen].
Qed.

Lemma inOrder_video host c : preserves host reportsInOrder (Tracker.video c).
Proof.
  intros t h [Hord Hopen]. unfold Tracker.video, bind, get, final, effects.
  destruct (convivaVideoAnalytics t) as [hd|] eqn:Hhd.
  - unfold sdk. assert (Hnext : reportsInOrder t (Sdk (Video hd c) :: h)).
    { split.
      - cbn [ordered]. now rewrite Hord, (@mayFollow_on_session t hd c h Hopen Hhd).
      - apply sessionOpened_cons; [discriminate | exact Hopen]. }
    destruct (sdkThrows host h (Video hd c)); exact Hnext.
  - split; assumption.
Qed.

Lemma inOrder_debugLog host message : preserves host reportsInOrder (Tracker.debugLog message).
Proof.
  unfold Tracker.debugLog. apply preserves_bind; [apply preserves_get|].
  intros t. unfold when. destruct (debugLoggingEnabled t).
  - apply inOrder_log. discriminate.
  - apply preserves_ret.
Qed.

Lemma inOrder_reportAdEnded host : preserves host reportsInOrder Tracker.reportAdEnded.
Proof.
  intros t h H. rewrite reportAdEnded_run.
  pose proof (@inOrder_debugLog host "[ ConvivaAnalyticsTracker ] error @ reportAdEnded" t h H)
    as Hlog.
  now rewrite debugLog_run in Hlog.
Qed.

Lemma existsb_attempt_some (f : Effect -> bool) host dbg message c h :
  f (ConsoleLog message) = false ->
  buildsNothing (Sdk c) ->
  existsb f (sinceBuild (attempt host dbg message (Some c) h)) =
  f (Sdk c) || existsb f (sinceBuild h).
Proof.
  intros Hf Hc. unfold attempt. destruct (sdkThrows host h c).
  - rewrite existsb_logged by exact Hf. now rewrite (sinceBuild_cons h Hc).
  - now rewrite (sinceBuild_cons h Hc).
Qed.

Lemma ordered_logged dbg message h : ordered (logged dbg message h) = ordered h.
Proof. destruct dbg; reflexivity. Qed.

Lemma ordered_attempt_some host dbg message c h :
  ordered (attempt host dbg message (Some c) h) = mayFollow (Sdk c) h && ordered h.
Proof.
  unfold attempt. destruct (sdkThrows host h c); [|reflexivity].
  now rewrite ordered_logged.
Qed.

(** Evaluate [ordered], [requestedOn] and [stoppedOn] on a history in
    closed form. *)
Ltac order :=
  repeat first
    [ progress unfold requestedOn, stoppedOn
    | rewrite ordered_logged
    | rewrite ordered_attempt_some
    | rewrite existsb_logged by reflexivity
    | rewrite existsb_attempt_some by (reflexivity || discriminate)
    | rewrite Nat.eqb_refl
    | progress cbn [ordered mayFollow requestedOn stoppedOn sinceBuild existsb
                    isRequestedOn isPlayerStateOn PlayerState_eqb andb orb] ].

(** With stable interfaces [internalInitializeSession] runs to its
    end: the new video object has "playback requested" and then
    STOPPED reported on it. *)
Lemma inOrder_internalInitializeSession host :
  stableInterfaces host ->
  preserves host reportsInOrder Tracker.internalInitializeSession.
Proof.
  intros Hst t h [Hord Hopen]. clear Hopen.
  open_tracker t.
  destruct pl as [p|]; run_method (Tracker.internalInitializeSession host).
  all: split; [ order; exact Hord | ].
  all: intros hd' Hhd'; cbn in Hhd'; injection Hhd' as <-.
  all: split; order; reflexivity.
Qed.

Lemma inOrder_onTracker {A} host (m : M ConvivaAnalyticsTracker A) :
  preserves host reportsInOrder m ->
  preserves host facadeInOrder (onTracker m).
Proof.
  intros Hm. unfold onTracker.
  exact (@preserves_zoom _ _ _ host reportsInOrder convivaAnalyticsTracker set_tracker m
           (fun t s => eq_refl) Hm).
Qed.

Lemma facade_modify host (f : ConvivaAnalytics -> ConvivaAnalytics) :
  (forall s, convivaAnalyticsTracker (f s) = convivaAnalyticsTracker s) ->
  preserves host facadeInOrder (modify f).
Proof.
  intros Hf. apply preserves_modify. intros s h H. unfold facadeInOrder. now rewrite Hf.
Qed.

Lemma facade_log host e :
  (forall c, e <> Sdk c) -> preserves host facadeInOrder (emit e).
Proof.
  intros He s h H. exact (@inOrder_log host e He (convivaAnalyticsTracker s) h H).
Qed.

(** Decompose a method along its sequencing and branching. *)
Ltac in_order_step Hst :=
  first
    [ apply inOrder_internalInitializeSession; exact Hst
    | assumption
    | apply inOrder_video
    | apply inOrder_debugLog
    | apply inOrder_reportAdEnded
    | apply inOrder_onTracker
    | apply preserves_ret
    | apply preserves_throw
    | apply preserves_get
    | apply preserves_gets
    | apply preserves_bind; [|intro]
    | apply preserves_tryCatch; [|intro]
    | apply preserves_when
    | apply inOrder_modify; intros ? ? ?; first [assumption | discriminate]
    | apply facade_modify; reflexivity
    | apply inOrder_log; discriminate
    | apply facade_log; discriminate
    | apply inOrder_sdk_neutral; reflexivity
    | match goal with
      | |- preserves _ _ (if ?b then _ else _) => destruct b
      | |- preserves _ _ (match ?x with _ => _ end) => destruct x
      | |- preserves _ _ (let _ := _ in _) => cbv zeta
      end ].

Ltac in_order Hst := repeat in_order_step Hst.

Lemma inOrder_trackPlaybackStateChanged host ev :
  preserves host reportsInOrder (Tracker.trackPlaybackStateChanged ev).
Proof.
  assert (Hst : True) by exact I.
  unfold Tracker.trackPlaybackStateChanged. in_order Hst.
Qed.

Lemma inOrder_internalEndSession host :
  preserves host reportsInOrder Tracker.internalEndSession.
Proof.
  assert (Hst : True) by exact I.
  unfold Tracker.internalEndSession. in_order Hst.
Qed.

Lemma step_inOrder host (i : Input) :
  stableInterfaces host -> preserves host facadeInOrder (step i).
Proof.
  intros Hst.
  pose proof (inOrder_trackPlaybackStateChanged host) as Htrack.
  pose proof (inOrder_internalEndSession host) as Hend.
  destruct i; cbn [step]; try unfold Facade.dispatch; in_order Hst.
Qed.

Lemma run_inOrder host (inputs : list Input) :
  stableInterfaces host ->
  forall s h,
    facadeInOrder s h ->
    facadeInOrder (fst (run host inputs s h)) (snd (run host inputs s h)).
Proof.
  intros Hst. induction inputs as [|i rest IH]; intros s h H; cbn [run].
  - exact H.
  - pose proof (@step_inOrder host i Hst s h H) as Hstep.
    unfold final, effects in Hstep.
    destruct (step i host s h) as [[o s'] h']. cbn [fst snd] in Hstep.
    apply IH, Hstep.
Qed.

Lemma ordered_split (h : History) :
  ordered h = true ->
  forall later e earlier, h = later ++ e :: earlier -> mayFollow e earlier = true.
Proof.
  intros Hord later. revert h Hord.
  induction later as [|x later IH]; intros h Hord e earlier ->; cbn in Hord;
    apply andb_true_iff in Hord; destruct Hord as [Hfirst Hrest].
  - exact Hfirst.
  - exact (IH _ Hrest e earlier eq_refl).
Qed.

(** What [internalInitializeSession] reports on stable interfaces. *)
Lemma internalInitializeSession_stable host t h :
  stableInterfaces host ->
  exists hd info,
    outcome (Tracker.internalInitializeSession host t h) = Returned tt
    /\ convivaVideoAnalytics (final (Tracker.internalInitializeSession host t h)) = Some hd
    /\ sdkCalls (effects (Tracker.internalInitializeSession host t h)) =
       sdkCalls h
       ++ [ BuildVideoAnalytics; BuildAdAnalytics hd;
            Video hd (VideoAnalytics.reportPlaybackRequested info);
            Video hd VideoAnalytics.getSessionId ]
       ++ match _player t with
          | Some p => [ Video hd (VideoAnalytics.setPlayerInfo (version p));
                        Ad hd (AdAnalytics.setAdPlayerInfo (version p)) ]
          | None => []
          end
       ++ [ Video hd (VideoAnalytics.reportPlaybackMetric PLAYER_STATE (VState STOPPED)
                        VUndefined);
            Video hd VideoAnalytics.setCallback ].
Proof.
  intros Hst. open_tracker t.
  destruct pl as [p|]; run_method (Tracker.internalInitializeSession host);
    do 2 eexists; (split; [reflexivity|]); (split; [reflexivity|]);
    observe; cbn [app]; rewrite <- !app_assoc; reflexivity.
Qed.

(** C3.  On stable SDK interfaces: [internalInitializeSession]
    returns with a session whose video object got "playback
    requested" and, after it, a STOPPED player state; and in every
    run of the integration, from its construction on and whatever the
    player, the clock, the SDK and the application do, a PLAYING
    player state is reported on a video object only after a STOPPED
    one on that object, a STOPPED one only after "playback requested"
    on it, and the session of the tracker, if one is active, has had
    both. *)
Theorem stopped_is_reported_before_playing :
  forall (host : Host) (debug : bool) (inputs : list Input),
    stableInterfaces host ->
    let s := fst (run host inputs (Facade.new debug) []) in
    let h := snd (run host inputs (Facade.new debug) []) in
    (forall t h0, exists hd info,
        outcome (Tracker.internalInitializeSession host t h0) = Returned tt
        /\ convivaVideoAnalytics (final (Tracker.internalInitializeSession host t h0)) = Some hd
        /\ sdkCalls (effects (Tracker.internalInitializeSession host t h0)) =
           sdkCalls h0
           ++ [ BuildVideoAnalytics; BuildAdAnalytics hd;
                Video hd (VideoAnalytics.reportPlaybackRequested info);
                Video hd VideoAnalytics.getSessionId ]
           ++ match _player t with
              | Some p => [ Video hd (VideoAnalytics.setPlayerInfo (version p));
                            Ad hd (AdAnalytics.setAdPlayerInfo (version p)) ]
              | None => []
              end
           ++ [ Video hd (VideoAnalytics.reportPlaybackMetric PLAYER_STATE (VState STOPPED)
                            VUndefined);
                Video hd VideoAnalytics.setCallback ])
    /\ (forall later e earlier, h = later ++ e :: earlier -> mayFollow e earlier = true)
    /\ sessionOpened (convivaAnalyticsTracker s) h.
Proof.
  intros host debug inputs Hst s h.
  assert (Hrun : facadeInOrder s h).
  { subst s h. apply run_inOrder; [exact Hst|].
    split; [reflexivity|]. intros hd Hhd. discriminate Hhd. }
  destruct Hrun as [Hord Hopen].
  split; [|split].
  - intros t h0. now apply internalInitializeSession_stable.
  - now apply ordered_split.
  - exact Hopen.
Qed.

Lemma stopped_is_reported_before_playing_witness :
  stableInterfaces quietHost
  /\ contentPlayerStates (snd (run quietHost playbackUnderWay (Facade.new false) []))
     = [STOPPED; PLAYING]
  /\ sessionOpened
       (convivaAnalyticsTracker (fst (run quietHost playbackUnderWay (Facade.new false) [])))
       (snd (run quietHost playbackUnderWay (Facade.new false) [])).
Proof.
  split; [exact quietHost_stable | split; [reflexivity |]].
  apply (@stopped_is_reported_before_playing quietHost false playbackUnderWay
           quietHost_stable).
Defined.

(** * Further properties *)

(** ** Further methods in closed form *)

Lemma reportAppEvent_run eventName eventAttributes host t h :
  Tracker.reportAppEvent eventName eventAttributes host t h =
  (Returned tt, t,
   attempt host (debugLoggingEnabled t)
     "[ ConvivaAnalyticsTracker ] error @ reportAppEvent"
     (onVideo t (VideoAnalytics.reportAppEvent eventName eventAttributes)) h).
Proof. wrapper_run t. Qed.

Lemma reportPlaybackEvent_run eventName eventAttributes host t h :
  Tracker.reportPlaybackEvent eventName eventAttributes host t h =
  (Returned tt, t,
   attempt host (debugLoggingEnabled t)
     "[ ConvivaAnalyticsTracker ] error @ reportPlaybackEvent"
     (onVideo t (VideoAnalytics.reportPlaybackEvent eventName eventAttributes)) h).
Proof. wrapper_run t. Qed.

Lemma reportAdStarted_run adInfo host t h :
  Tracker.reportAdStarted adInfo host t h =
  (Returned tt, t,
   attempt host (debugLoggingEnabled t)
     "[ ConvivaAnalyticsTracker ] error @ reportAdStarted"
     (onAd t (AdAnalytics.reportAdStarted adInfo)) h).
Proof. wrapper_run t. Qed.

Lemma reportAdError_run error severity host t h :
  Tracker.reportAdError error severity host t h =
  (Returned tt, t,
   attempt host (debugLoggingEnabled t)
     "[ ConvivaAnalyticsTracker ] error @ reportAdError"
     (onAd t (AdAnalytics.reportAdError error severity)) h).
Proof. wrapper_run t. Qed.

(** Unfold the remaining methods of the tracker and the handlers of
    the facade as well. *)
Ltac unfold_handlers :=
  cbv beta iota zeta delta
    [ Tracker.sendCustomApplicationEvent Tracker.sendCustomPlaybackEvent
      Tracker.trackVideoQualityChanged Tracker.trackAdStarted Tracker.trackAdError
      step Facade.dispatch Facade.attachPlayer Facade.initializeSession Facade.endSession
      Facade.updateContentMetadata Facade.reportPlaybackDeficiency Facade.pauseTracking
      Facade.resumeTracking Facade.releaseInternal Facade.release
      Facade.onPlaybackStateChanged Facade.onPlay Facade.onPlaying Facade.onPlaybackFinished
      Facade.onAdFinished Facade.onSeek Facade.onSeeked Facade.onTimeShift Facade.onTimeShifted
      Facade.onError Facade.onDestroy seekTarget width height frameRate ];
  unfold_methods.

Ltac closed_form_step_more :=
  match goal with
  | |- context [Tracker.reportAppEvent ?n ?a ?host ?t ?h] =>
      rewrite (reportAppEvent_run n a host t h)
  | |- context [Tracker.reportPlaybackEvent ?n ?a ?host ?t ?h] =>
      rewrite (reportPlaybackEvent_run n a host t h)
  | |- context [Tracker.reportAdStarted ?i ?host ?t ?h] =>
      rewrite (reportAdStarted_run i host t h)
  | |- context [Tracker.reportAdError ?e ?s ?host ?t ?h] =>
      rewrite (reportAdError_run e s host t h)
  end.

Ltac walk := unfold_handlers; repeat (first [closed_form_step_more | run_step]; unfold_handlers).

(** Run the method or input [m], applied up to its host, on an opened
    tracker or facade; [tac] settles the tests the run stops at. *)
Ltac run_handler_with m tac :=
  match goal with
  | |- context [m ?t ?h] =>
      let o := fresh "o" in
      let t' := fresh "t'" in
      let h' := fresh "h'" in
      let E := fresh "Erun" in
      destruct (m t h) as [[o t'] h'] eqn:E;
      revert E; walk; repeat (progress tac; walk); intros E; apply triple_eq in E;
      destruct E as (<- & <- & <-);
      try unfold outcome, final, effects; cbn [fst snd]
  end.

Ltac run_handler m := run_handler_with m idtac.

(** ** Helpers of the player configuration and state *)

(** X1. [getPreloadConfig] never reads the setting of the other
    platform: on a desktop browser the result is the same whatever
    [adaptation.mobile.preload] is, and on a mobile browser whatever
    [adaptation.desktop.preload] is.  The setting of the platform
    wins over the root setting, and with none of the two set the
    result is [true] for a VOD stream and [false] for a live one. *)
Theorem getPreloadConfig_ignores_other_platform :
  forall (p : PlayerAPI) (v : option bool),
    (isMobile p = false ->
     PlayerConfigHelper.getPreloadConfig (withMobilePreload v p)
     = PlayerConfigHelper.getPreloadConfig p)
    /\ (isMobile p = true ->
        PlayerConfigHelper.getPreloadConfig (withDesktopPreload v p)
        = PlayerConfigHelper.getPreloadConfig p)
    /\ (forall b,
          (if isMobile p then adaptation_mobile_preload (getConfig p)
           else adaptation_desktop_preload (getConfig p)) = Some b ->
          PlayerConfigHelper.getPreloadConfig p = b)
    /\ ((if isMobile p then adaptation_mobile_preload (getConfig p)
         else adaptation_desktop_preload (getConfig p)) = None ->
        adaptation_preload (getConfig p) = None ->
        PlayerConfigHelper.getPreloadConfig p = negb (isLive p)).
Proof.
  intros p v. unfold PlayerConfigHelper.getPreloadConfig.
  split; [|split; [|split]].
  - intros Hm. cbn. rewrite Hm. reflexivity.
  - intros Hm. cbn. rewrite Hm. reflexivity.
  - intros b Hb. cbv zeta. rewrite Hb. reflexivity.
  - intros Hplat Hroot. cbv zeta. rewrite Hplat, Hroot. reflexivity.
Qed.

Lemma getPreloadConfig_ignores_other_platform_witness :
  isMobile samplePlayer = false
  /\ PlayerConfigHelper.getPreloadConfig (withMobilePreload (Some false) samplePlayer) = true.
Proof.
  split; [reflexivity|].
  rewrite (proj1 (@getPreloadConfig_ignores_other_platform samplePlayer (Some false)) eq_refl).
  reflexivity.
Defined.

(** X2. The two helpers that derive a player state agree where both
    apply: for a Seeked, TimeShifted or StallEnded event the state
    derived from the event is the state derived from the player,
    provided the player is not stalled (the event helper does not ask
    [isStalled]).  Neither helper ever yields STOPPED, and the event
    helper yields BUFFERING for a StallStarted event only. *)
Theorem player_state_helpers_agree :
  forall (ev : PlayerEventBase) (p : PlayerAPI),
    (In (type ev) [Seeked; TimeShifted; StallEnded] ->
     isStalled p = false ->
     PlayerStateHelper.getPlayerStateFromEvent ev p
     = Some (PlayerStateHelper.getPlayerState p))
    /\ PlayerStateHelper.getPlayerState p <> STOPPED
    /\ PlayerStateHelper.getPlayerStateFromEvent ev p <> Some STOPPED
    /\ (PlayerStateHelper.getPlayerStateFromEvent ev p = Some BUFFERING
        <-> type ev = StallStarted).
Proof.
  intros [ty c n sk] p.
  unfold PlayerStateHelper.getPlayerStateFromEvent, PlayerStateHelper.getPlayerState.
  cbn [type]. split; [|split; [|split]].
  - intros Hin Hst. rewrite Hst.
    cbn [In] in Hin. destruct Hin as [<- | [<- | [<- | []]]];
      destruct (isPlaying p); reflexivity.
  - destruct (isStalled p), (isPlaying p); discriminate.
  - destruct ty, (isPlaying p); discriminate.
  - split.
    + destruct ty, (isPlaying p); (reflexivity || discriminate).
    + intros ->. reflexivity.
Qed.

Lemma player_state_helpers_agree_witness :
  In (type (event Seeked)) [Seeked; TimeShifted; StallEnded]
  /\ isStalled samplePlayer = false
  /\ PlayerStateHelper.getPlayerStateFromEvent (event Seeked) samplePlayer = Some PAUSED.
Proof.
  split; [cbn; auto | split; [reflexivity|]].
  rewrite (proj1 (@player_state_helpers_agree (event Seeked) samplePlayer));
    [reflexivity | cbn; auto | reflexivity].
Defined.

(** ** AdHelper *)

(** X3. [mapCsaiAdPosition] follows the timeline: a break scheduled
    later is never mapped to an earlier position (PREROLL before
    MIDROLL before POSTROLL).  A break scheduled at 0 or before is a
    PREROLL even when the duration is 0, and after that a break at or
    past the duration is a POSTROLL. *)
Theorem mapCsaiAdPosition_is_monotone :
  forall (p : PlayerAPI) (earlier later : Z),
    (earlier <= later)%Z ->
    AdPosition_rank (AdHelper.mapCsaiAdPosition earlier p)
    <= AdPosition_rank (AdHelper.mapCsaiAdPosition later p)
    /\ (AdHelper.mapCsaiAdPosition earlier p = PREROLL <-> (earlier <= 0)%Z)
    /\ (AdHelper.mapCsaiAdPosition earlier p = POSTROLL
        <-> (0 < earlier)%Z /\ (getDuration p <= earlier)%Z).
Proof.
  intros p earlier later Hle. unfold AdHelper.mapCsaiAdPosition.
  destruct (Z.leb_spec earlier 0), (Z.leb_spec later 0),
           (Z.leb_spec (getDuration p) earlier), (Z.leb_spec (getDuration p) later);
    cbn; repeat split; intros; try lia; try discriminate; try reflexivity;
    try (exfalso; lia).
Qed.

Lemma mapCsaiAdPosition_is_monotone_witness :
  (5 <= 10)%Z
  /\ AdPosition_rank (AdHelper.mapCsaiAdPosition 5 samplePlayer)
     <= AdPosition_rank (AdHelper.mapCsaiAdPosition 10 samplePlayer).
Proof.
  assert (H : (5 <= 10)%Z) by lia.
  split; [exact H|].
  apply (@mapCsaiAdPosition_is_monotone samplePlayer 5%Z 10%Z H).
Defined.

(** ** Metadata objects *)

Lemma getProp_setProp key key' value o :
  getProp key (setProp key' value o) =
  if String.eqb key' key then value else getProp key o.
Proof.
  induction o as [|[k v] rest IH]; cbn.
  - destruct (String.eqb key' key); reflexivity.
  - destruct (String.eqb k key') eqn:Ek; cbn.
    + apply String.eqb_eq in Ek. subst k.
      destruct (String.eqb key' key); reflexivity.
    + rewrite IH. destruct (String.eqb k key) eqn:Ekey; [|reflexivity].
      apply String.eqb_eq in Ekey. subst k. now rewrite String.eqb_sym, Ek.
Qed.

Lemma getProp_spread key source o :
  getProp key (spread source o) =
  match lastOf key source with
  | Some v => v
  | None => getProp key o
  end.
Proof.
  unfold spread. revert o.
  induction source as [|[k v] rest IH]; intros o; cbn [fold_left lastOf fst snd].
  - reflexivity.
  - rewrite IH. destruct (lastOf key rest); [reflexivity|].
    rewrite getProp_setProp. destruct (String.eqb k key); reflexivity.
Qed.

Lemma lastOf_map_MStr key (tags : list (string * string)) :
  lastOf key (map (fun kv => (fst kv, MStr (snd kv))) tags) = option_map MStr (lastOf key tags).
Proof.
  induction tags as [|[k v] rest IH]; cbn; [reflexivity|].
  rewrite IH. destruct (lastOf key rest); cbn; [reflexivity|].
  destruct (String.eqb k key); reflexivity.
Qed.

Lemma lastOf_absent {V} key (entries : list (string * V)) :
  ~ In key (map fst entries) -> lastOf key entries = None.
Proof.
  induction entries as [|[k v] rest IH]; cbn; [reflexivity|].
  intros Hnot. rewrite IH by tauto.
  destruct (String.eqb k key) eqn:E; [|reflexivity].
  apply String.eqb_eq in E. tauto.
Qed.

Lemma keys_setProp key value o :
  forall k, In k (map fst (setProp key value o)) <-> k = key \/ In k (map fst o).
Proof.
  induction o as [|[k' v'] rest IH]; intros k; cbn.
  - intuition.
  - destruct (String.eqb k' key) eqn:E; cbn.
    + apply String.eqb_eq in E. subst k'. intuition.
    + rewrite IH. intuition.
Qed.

(** Defining a property keeps the keys of an object apart. *)
Lemma NoDup_setProp key value o :
  NoDup (map fst o) -> NoDup (map fst (setProp key value o)).
Proof.
  induction o as [|[k' v'] rest IH]; cbn; intros Hnd.
  - constructor; [intros [] | constructor].
  - inversion Hnd as [|? ? Hnot Hrest]; subst.
    destruct (String.eqb k' key) eqn:E; cbn.
    + constructor; assumption.
    + constructor; [|now apply IH].
      rewrite keys_setProp. intros [-> | Hin]; [|contradiction].
      now rewrite String.eqb_refl in E.
Qed.

Lemma lastOf_unique key (o : ConvivaMetadata) :
  NoDup (map fst o) ->
  match lastOf key o with Some v => v | None => MUndefined end = getProp key o.
Proof.
  induction o as [|[k v] rest IH]; cbn; intros Hnd; [reflexivity|].
  inversion Hnd as [|? ? Hnot Hrest]; subst. specialize (IH Hrest).
  destruct (String.eqb k key) eqn:E.
  - apply String.eqb_eq in E. subst k. now rewrite (lastOf_absent key rest Hnot).
  - destruct (lastOf key rest); exact IH.
Qed.

(** The properties picked from the content metadata: those of the
    pick list, each with the value the content metadata has for it. *)
Lemma getProp_selected key keys meta selected :
  getProp key
    (fold_left (fun selected key => setProp key (getProp key meta) selected) keys selected) =
  if existsb (String.eqb key) keys then getProp key meta else getProp key selected.
Proof.
  revert selected. induction keys as [|k rest IH]; intros selected; cbn [fold_left existsb].
  - reflexivity.
  - rewrite IH, getProp_setProp. rewrite (String.eqb_sym key k).
    destruct (String.eqb k key) eqn:E; cbn [orb].
    + apply String.eqb_eq in E. subst k. now destruct (existsb _ rest).
    + reflexivity.
Qed.

(** X4. The ad keys that [convertSsaiAdInfoToConvivaAdInfo] writes
    itself cannot be overridden, neither by [additionalMetadata] nor
    by the content metadata: the ad id is the given id, the
    technology is "Server Side", position, ad system and ad stitcher
    are the given ones or "NA", [isSlate] is its text or "NA", the
    asset name is the title of the ad, else the asset name of the
    content metadata, else "NA", and a duration other than 0 is
    passed on. *)
Theorem ad_info_keys_are_not_overridable :
  forall (ssaiAdInfo : SsaiAdInfo.t) (allCurrentContentMetadata : ConvivaMetadata),
    let adInfo :=
      AdHelper.convertSsaiAdInfoToConvivaAdInfo ssaiAdInfo allCurrentContentMetadata in
    getProp "c3.ad.id" adInfo = MStr (SsaiAdInfo.id ssaiAdInfo)
    /\ getProp "c3.ad.technology" adInfo = MStr "Server Side"
    /\ getProp "c3.ad.position" adInfo =
       MStr (match SsaiAdInfo.position ssaiAdInfo with
             | Some p => AdPosition_name p
             | None => "NA"
             end)
    /\ getProp "c3.ad.system" adInfo =
       MStr (AdHelper.orDefault (SsaiAdInfo.adSystem ssaiAdInfo) "NA")
    /\ getProp "c3.ad.adStitcher" adInfo =
       MStr (AdHelper.orDefault (SsaiAdInfo.adStitcher ssaiAdInfo) "NA")
    /\ getProp "c3.ad.isSlate" adInfo =
       MStr (match SsaiAdInfo.isSlate ssaiAdInfo with
             | Some b => string_of_bool b
             | None => "NA"
             end)
    /\ getProp Constants.ASSET_NAME adInfo =
       (if truthy (SsaiAdInfo.title ssaiAdInfo)
        then MStr (AdHelper.orDefault (SsaiAdInfo.title ssaiAdInfo) "NA")
        else if truthyValue (getProp Constants.ASSET_NAME allCurrentContentMetadata)
             then getProp Constants.ASSET_NAME allCurrentContentMetadata
             else MStr "NA")
    /\ (forall d, SsaiAdInfo.duration ssaiAdInfo = Some d -> d <> 0%Z ->
                  getProp Constants.DURATION adInfo = MNum d).
Proof.
  intros info meta adInfo. subst adInfo.
  unfold AdHelper.convertSsaiAdInfoToConvivaAdInfo.
  assert (Hdur : forall key o,
             String.eqb Constants.DURATION key = false ->
             getProp key
               match SsaiAdInfo.duration info with
               | Some d => if Z.eqb d 0 then o else setProp Constants.DURATION (MNum d) o
               | None => o
               end = getProp key o).
  { intros key o Hkey. destruct (SsaiAdInfo.duration info) as [d|]; [|reflexivity].
    destruct (Z.eqb d 0); [reflexivity|]. now rewrite getProp_setProp, Hkey. }
  cbv zeta.
  repeat match goal with |- _ /\ _ => split end.
  1-7: rewrite Hdur by reflexivity; rewrite getProp_spread;
       cbn [lastOf String.eqb Ascii.eqb Bool.eqb]; try reflexivity.
  - destruct (SsaiAdInfo.position info); reflexivity.
  - destruct (SsaiAdInfo.isSlate info); reflexivity.
  - intros d Hd Hnz. rewrite Hd.
    destruct (Z.eqb_spec d 0); [contradiction|].
    now rewrite getProp_setProp.
Qed.

Lemma ad_info_keys_are_not_overridable_witness :
  let info :=
    {| SsaiAdInfo.id := "adId"; SsaiAdInfo.title := None; SsaiAdInfo.duration := Some 30%Z;
       SsaiAdInfo.adSystem := None; SsaiAdInfo.position := None;
       SsaiAdInfo.isSlate := None; SsaiAdInfo.adStitcher := None;
       SsaiAdInfo.additionalMetadata :=
         Some [("c3.ad.id", "other"); ("Conviva.duration", "1")] |} in
  SsaiAdInfo.duration info = Some 30%Z
  /\ 30%Z <> 0%Z
  /\ getProp Constants.DURATION (AdHelper.convertSsaiAdInfoToConvivaAdInfo info []) = MNum 30.
Proof.
  cbv zeta. split; [reflexivity | split; [discriminate|]].
  apply (@ad_info_keys_are_not_overridable
           {| SsaiAdInfo.id := "adId"; SsaiAdInfo.title := None; SsaiAdInfo.duration := Some 30%Z;
              SsaiAdInfo.adSystem := None; SsaiAdInfo.position := None;
              SsaiAdInfo.isSlate := None; SsaiAdInfo.adStitcher := None;
              SsaiAdInfo.additionalMetadata :=
                Some [("c3.ad.id", "other"); ("Conviva.duration", "1")] |} []);
    [reflexivity | discriminate].
Defined.

(** X5. For every other key, [additionalMetadata] supersedes the
    content metadata, and of the content metadata only the keys of
    the pick list are passed on: the ad info has the value
    [additionalMetadata] gives the key (the last one), else the value
    of the content metadata if the key is in the pick list, else no
    such property. *)
Theorem ad_info_prefers_additional_metadata :
  forall (ssaiAdInfo : SsaiAdInfo.t) (allCurrentContentMetadata : ConvivaMetadata)
         (key : string),
    ~ In key adInfoKeys ->
    key <> Constants.DURATION ->
    getProp key (AdHelper.convertSsaiAdInfoToConvivaAdInfo ssaiAdInfo allCurrentContentMetadata) =
    match lastOf key (match SsaiAdInfo.additionalMetadata ssaiAdInfo with
                      | Some tags => tags
                      | None => []
                      end) with
    | Some v => MStr v
    | None =>
        if existsb (String.eqb key) AdHelper.keysToPick
        then getProp key allCurrentContentMetadata
        else MUndefined
    end.
Proof.
  intros info meta key Hkey Hdur.
  unfold AdHelper.convertSsaiAdInfoToConvivaAdInfo. cbv zeta.
  assert (Hd : String.eqb Constants.DURATION key = false).
  { apply String.eqb_neq. congruence. }
  assert (Hout : forall o,
             getProp key
               match SsaiAdInfo.duration info with
               | Some d => if Z.eqb d 0 then o else setProp Constants.DURATION (MNum d) o
               | None => o
               end = getProp key o).
  { intros o. destruct (SsaiAdInfo.duration info) as [d|]; [|reflexivity].
    destruct (Z.eqb d 0); [reflexivity|]. now rewrite getProp_setProp, Hd. }
  assert (Hsel : NoDup (map fst
            (fold_left (fun selected key => setProp key (getProp key meta) selected)
               AdHelper.keysToPick []))).
  { assert (Hkeep : forall keys o,
               NoDup (map fst o) ->
               NoDup (map fst (fold_left
                        (fun selected key => setProp key (getProp key meta) selected)
                        keys o))).
    { induction keys as [|k rest IH]; intros o Ho; cbn [fold_left].
      - exact Ho.
      - apply IH. now apply NoDup_setProp. }
    apply Hkeep. constructor. }
  rewrite Hout, getProp_spread.
  rewrite lastOf_absent by exact Hkey.
  rewrite getProp_spread.
  assert (Hpicked :
    getProp key
      (spread (fold_left (fun selected key => setProp key (getProp key meta) selected)
                 AdHelper.keysToPick []) []) =
    if existsb (String.eqb key) AdHelper.keysToPick
    then getProp key meta else MUndefined).
  { rewrite getProp_spread. cbn [getProp].
    rewrite (@lastOf_unique key _ Hsel). now rewrite getProp_selected. }
  destruct (SsaiAdInfo.additionalMetadata info) as [tags|].
  - rewrite lastOf_map_MStr. destruct (lastOf key tags); cbn [option_map]; [reflexivity|].
    exact Hpicked.
  - cbn [map lastOf]. exact Hpicked.
Qed.

Lemma ad_info_prefers_additional_metadata_witness :
  let info :=
    {| SsaiAdInfo.id := "adId"; SsaiAdInfo.title := None; SsaiAdInfo.duration := None;
       SsaiAdInfo.adSystem := None; SsaiAdInfo.position := None;
       SsaiAdInfo.isSlate := None; SsaiAdInfo.adStitcher := None;
       SsaiAdInfo.additionalMetadata := Some [("Conviva.viewerId", "ad viewer")] |} in
  let meta := [("Conviva.viewerId", MStr "viewer"); ("customKey", MStr "custom")] in
  ~ In "customKey" adInfoKeys
  /\ "customKey" <> Constants.DURATION
  /\ getProp "customKey" (AdHelper.convertSsaiAdInfoToConvivaAdInfo info meta) = MUndefined.
Proof.
  cbv zeta.
  assert (Hkey : ~ In "customKey" adInfoKeys).
  { cbn. intuition discriminate. }
  split; [exact Hkey | split; [discriminate|]].
  apply (@ad_info_prefers_additional_metadata
           {| SsaiAdInfo.id := "adId"; SsaiAdInfo.title := None; SsaiAdInfo.duration := None;
              SsaiAdInfo.adSystem := None; SsaiAdInfo.position := None;
              SsaiAdInfo.isSlate := None; SsaiAdInfo.adStitcher := None;
              SsaiAdInfo.additionalMetadata := Some [("Conviva.viewerId", "ad viewer")] |}
           [("Conviva.viewerId", MStr "viewer"); ("customKey", MStr "custom")]
           "customKey" Hkey); discriminate.
Defined.

(** ** PlayerEventWrapper *)

Lemma PlayerEvent_eqb_eq a b : PlayerEvent_eqb a b = true <-> a = b.
Proof. split; [destruct a, b; (reflexivity || discriminate) | intros ->; now destruct b]. Qed.

Lemma PlayerEvent_eqb_refl a : PlayerEvent_eqb a a = true.
Proof. now apply PlayerEvent_eqb_eq. Qed.

Lemma PlayerEvent_eqb_neq a b : a <> b -> PlayerEvent_eqb a b = false.
Proof.
  intros Hne. destruct (PlayerEvent_eqb a b) eqn:E; [|reflexivity].
  apply PlayerEvent_eqb_eq in E. contradiction.
Qed.

Section WrapperArrays.

Import PlayerEventWrapper.

Lemma handlersOf_onHandlers e f w :
  handlersOf e (onHandlers e f w) = option_map f (handlersOf e w).
Proof.
  induction w as [|[e' cbs] rest IH]; cbn; [reflexivity|].
  destruct (PlayerEvent_eqb e' e) eqn:E; cbn; rewrite E; [reflexivity | exact IH].
Qed.

Lemma onHandlers_onHandlers e f g w :
  onHandlers e f (onHandlers e g w) = onHandlers e (fun cbs => f (g cbs)) w.
Proof.
  induction w as [|[e' cbs] rest IH]; cbn; [reflexivity|].
  destruct (PlayerEvent_eqb e' e) eqn:E; cbn; rewrite E; [reflexivity | now rewrite IH].
Qed.

Lemma onHandlers_ext e f g w cbs :
  handlersOf e w = Some cbs -> f cbs = g cbs -> onHandlers e f w = onHandlers e g w.
Proof.
  induction w as [|[e' cbs'] rest IH]; cbn; [discriminate|].
  destruct (PlayerEvent_eqb e' e).
  - intros [= ->] ->. reflexivity.
  - intros Hh Hfg. now rewrite IH.
Qed.

Lemma onHandlers_same e w cbs :
  handlersOf e w = Some cbs -> onHandlers e (fun _ => cbs) w = w.
Proof.
  induction w as [|[e' cbs'] rest IH]; cbn; [discriminate|].
  destruct (PlayerEvent_eqb e' e).
  - intros [= ->]. reflexivity.
  - intros Hh. now rewrite IH.
Qed.

Lemma arrayRemove_at cb pre rest :
  ~ In cb pre -> arrayRemove cb (pre ++ cb :: rest) = pre ++ rest.
Proof.
  induction pre as [|x pre IH]; cbn; intros Hnot.
  - now rewrite Nat.eqb_refl.
  - destruct (Nat.eqb_spec x cb) as [-> | _]; [tauto|].
    rewrite IH by tauto. reflexivity.
Qed.

(** Past the end of the array the loop is over. *)
Lemma removeEach_past_end steps index e w cbs :
  handlersOf e w = Some cbs -> List.length cbs <= index ->
  removeEach steps index e w = ([], w).
Proof.
  intros Hh Hlen. destruct steps; cbn; [reflexivity|].
  rewrite Hh. apply nth_error_None in Hlen. now rewrite Hlen.
Qed.

(** The loop from the index [length pre] on, the array being
    [pre ++ rest] without repetition: every other callback of [rest]
    is removed, starting with the first; the others stay. *)
Lemma removeEach_from steps e :
  forall pre rest w,
    handlersOf e w = Some (pre ++ rest) ->
    NoDup (pre ++ rest) ->
    List.length rest <= steps ->
    removeEach steps (List.length pre) e w =
    (map (Off e) (evens rest), onHandlers e (fun _ => pre ++ odds rest) w).
Proof.
  induction steps as [|steps IH]; intros pre rest w Hh Hnd Hlen.
  - destruct rest; [|cbn in Hlen; lia]. cbn.
    now rewrite (@onHandlers_same e w (pre ++ [])).
  - cbn [removeEach]. rewrite Hh.
    rewrite nth_error_app2 by lia. rewrite Nat.sub_diag.
    destruct rest as [|cb rest1]; cbn [nth_error].
    + cbn. now rewrite (@onHandlers_same e w (pre ++ [])).
    + assert (Hnot : ~ In cb pre).
      { intros Hin. apply NoDup_remove_2 in Hnd. apply Hnd, in_or_app. now left. }
      assert (Hnd1 : NoDup (pre ++ rest1)) by now apply NoDup_remove_1 in Hnd.
      cbn [remove fst snd].
      assert (Hw1 : onHandlers e (arrayRemove cb) w = onHandlers e (fun _ => pre ++ rest1) w).
      { apply (@onHandlers_ext e _ _ w (pre ++ cb :: rest1) Hh). now apply arrayRemove_at. }
      rewrite Hw1.
      assert (Hh1 : handlersOf e (onHandlers e (fun _ => pre ++ rest1) w) = Some (pre ++ rest1)).
      { now rewrite handlersOf_onHandlers, Hh. }
      destruct rest1 as [|y rest2].
      * rewrite (@removeEach_past_end steps (S (List.length pre)) e _ (pre ++ []) Hh1)
          by (rewrite app_nil_r; lia).
        cbn. reflexivity.
      * replace (S (List.length pre)) with (List.length (pre ++ [y]))
          by (rewrite length_app; cbn; lia).
        rewrite (IH (pre ++ [y]) rest2).
        -- cbn [fst snd evens odds map app]. rewrite onHandlers_onHandlers.
           now rewrite <- app_assoc.
        -- now rewrite <- app_assoc.
        -- now rewrite <- app_assoc.
        -- cbn in Hlen. lia.
Qed.

End WrapperArrays.

(** X6. [clear] removes callbacks from the array it is iterating:
    for an event type with the callbacks [callbacks] (no callback
    twice), the loop ends by itself within [length callbacks] steps,
    calls [player.off] for the callbacks at the even indices only
    (the first, the third, ...) and leaves those at the odd indices
    in the array, still subscribed. *)
Theorem clear_skips_every_other_callback :
  forall (eventType : PlayerEvent) (w : PlayerEventWrapper.Self) (callbacks : list Callback),
    PlayerEventWrapper.handlersOf eventType w = Some callbacks ->
    NoDup callbacks ->
    (forall steps, List.length callbacks <= steps ->
       PlayerEventWrapper.removeEach steps 0 eventType w
       = PlayerEventWrapper.clearType eventType w)
    /\ fst (PlayerEventWrapper.clearType eventType w) = map (Off eventType) (evens callbacks)
    /\ PlayerEventWrapper.handlersOf eventType (snd (PlayerEventWrapper.clearType eventType w))
       = Some (odds callbacks).
Proof.
  intros e w cbs Hh Hnd.
  assert (Hrun : forall steps, List.length cbs <= steps ->
            PlayerEventWrapper.removeEach steps 0 e w =
            (map (Off e) (evens cbs),
             PlayerEventWrapper.onHandlers e (fun _ => odds cbs) w)).
  { intros steps Hlen. exact (@removeEach_from steps e [] cbs w Hh Hnd Hlen). }
  unfold PlayerEventWrapper.clearType. rewrite Hh.
  split; [|split].
  - intros steps Hlen. now rewrite (Hrun steps Hlen), (Hrun _ (le_n _)).
  - now rewrite (Hrun _ (le_n _)).
  - rewrite (Hrun _ (le_n _)). cbn [snd]. now rewrite handlersOf_onHandlers, Hh.
Qed.

Lemma clear_skips_every_other_callback_witness :
  PlayerEventWrapper.handlersOf Play [(Play, [1; 2; 3])] = Some [1; 2; 3]
  /\ NoDup [1; 2; 3]
  /\ fst (PlayerEventWrapper.clearType Play [(Play, [1; 2; 3])]) = [Off Play 1; Off Play 3]
  /\ PlayerEventWrapper.handlersOf Play
       (snd (PlayerEventWrapper.clearType Play [(Play, [1; 2; 3])])) = Some [2].
Proof.
  assert (Hnd : NoDup [1; 2; 3]).
  { repeat constructor; cbn; lia. }
  split; [reflexivity | split; [exact Hnd|]].
  apply (@clear_skips_every_other_callback Play [(Play, [1; 2; 3])] [1; 2; 3] eq_refl Hnd).
Defined.

Section WrapperRegistrations.

Import PlayerEventWrapper.

Lemma handlersOf_app e w w' :
  handlersOf e (w ++ w') =
  match handlersOf e w with
  | Some cbs => Some cbs
  | None => handlersOf e w'
  end.
Proof.
  induction w as [|[e' cbs] rest IH]; cbn; [reflexivity|].
  destruct (PlayerEvent_eqb e' e); [reflexivity | exact IH].
Qed.

Lemma onHandlers_app e f w w' :
  handlersOf e w = None -> onHandlers e f (w ++ w') = w ++ onHandlers e f w'.
Proof.
  induction w as [|[e' cbs] rest IH]; cbn; [reflexivity|].
  destruct (PlayerEvent_eqb e' e); [discriminate|].
  intros Hh. now rewrite IH.
Qed.

Lemma handlersOf_map_absent e (f : PlayerEvent * Callback -> list Callback) regs :
  ~ In e (map fst regs) -> handlersOf e (map (fun r => (fst r, f r)) regs) = None.
Proof.
  induction regs as [|[e' cb] rest IH]; cbn; [reflexivity|].
  intros Hnot. rewrite PlayerEvent_eqb_neq by tauto. apply IH. tauto.
Qed.

(** Registrations of distinct event types: one array with one
    callback for each. *)
Lemma registered_from regs :
  forall calls w,
    NoDup (map fst regs) ->
    (forall e, In e (map fst regs) -> handlersOf e w = None) ->
    fold_left
      (fun acc reg =>
         let added := add (fst reg) (snd reg) (snd acc) in
         (fst acc ++ fst added, snd added))
      regs (calls, w) =
    (calls ++ map (fun r => On (fst r) (snd r)) regs,
     w ++ map (fun r => (fst r, [snd r])) regs).
Proof.
  induction regs as [|[e cb] rest IH]; intros calls w Hnd Hfree; cbn [fold_left map].
  - now rewrite !app_nil_r.
  - inversion Hnd as [|? ? Hnot Hrest]; subst.
    cbn [add fst snd]. rewrite (Hfree e) by (cbn; auto).
    rewrite IH.
    + now rewrite <- !app_assoc.
    + exact Hrest.
    + intros e' Hin. rewrite handlersOf_app, (Hfree e') by (cbn; auto).
      cbn. rewrite PlayerEvent_eqb_neq; [reflexivity|].
      intros ->. contradiction.
Qed.

(** One array of one callback: the loop removes it. *)
Lemma clearType_single e cb (before later : Self) :
  handlersOf e before = None ->
  clearType e (before ++ (e, [cb]) :: later) =
  ([Off e cb], before ++ (e, []) :: later).
Proof.
  intros Hfree.
  assert (Hh : handlersOf e (before ++ (e, [cb]) :: later) = Some [cb]).
  { rewrite handlersOf_app, Hfree. cbn. now rewrite PlayerEvent_eqb_refl. }
  unfold clearType. rewrite Hh. cbn [List.length removeEach]. rewrite Hh.
  cbn [nth_error remove fst snd app].
  rewrite (@onHandlers_app e (arrayRemove cb) before _ Hfree). cbn [onHandlers].
  rewrite PlayerEvent_eqb_refl. cbn [arrayRemove]. now rewrite Nat.eqb_refl.
Qed.

(** [clear] on arrays of one callback each: the event types are
    taken in turn, and each one's callback is removed. *)
Lemma clear_from todo :
  forall done calls,
    NoDup (map fst (done ++ todo)) ->
    fold_left
      (fun acc eventType =>
         let cleared := clearType eventType (snd acc) in
         (fst acc ++ fst cleared, snd cleared))
      (map fst todo)
      (calls, map (fun r => (fst r, [])) done ++ map (fun r => (fst r, [snd r])) todo) =
    (calls ++ map (fun r => Off (fst r) (snd r)) todo,
     map (fun r => (fst r, [])) (done ++ todo)).
Proof.
  induction todo as [|[e cb] rest IH]; intros done calls Hnd;
    set (step := fun (acc : list PlayerCall * Self) (eventType : PlayerEvent) => _) in *;
    cbn [fold_left map].
  - now rewrite !app_nil_r.
  - assert (Hfree : handlersOf e (map (fun r : PlayerEvent * Callback => (fst r, @nil Callback)) done)
                    = None).
    { apply (@handlersOf_map_absent e (fun _ => [])).
      rewrite map_app in Hnd. cbn in Hnd. apply NoDup_remove_2 in Hnd.
      intros Hin. apply Hnd, in_or_app. now left. }
    unfold step at 2. cbv beta zeta. cbn [fst snd].
    rewrite (@clearType_single e cb _ _ Hfree). cbn [fst snd].
    replace (map (fun r : PlayerEvent * Callback => (fst r, @nil Callback)) done
             ++ (e, []) :: map (fun r => (fst r, [snd r])) rest)
      with (map (fun r : PlayerEvent * Callback => (fst r, @nil Callback)) (done ++ [(e, cb)])
            ++ map (fun r => (fst r, [snd r])) rest)
      by (rewrite map_app, <- app_assoc; reflexivity).
    rewrite IH.
    + rewrite <- !app_assoc. reflexivity.
    + now rewrite <- app_assoc.
Qed.

End WrapperRegistrations.

(** X7. The way the integration uses the wrapper, one callback for
    each event type: the registrations call [player.on] once each,
    and [clear] then calls [player.off] for every one of them, in the
    order of the registrations, and leaves every array empty. *)
Theorem clear_unsubscribes_single_callbacks :
  forall (regs : list (PlayerEvent * Callback)),
    NoDup (map fst regs) ->
    fst (registered regs) = map (fun r => On (fst r) (snd r)) regs
    /\ fst (PlayerEventWrapper.clear (snd (registered regs)))
       = map (fun r => Off (fst r) (snd r)) regs
    /\ snd (PlayerEventWrapper.clear (snd (registered regs)))
       = map (fun r => (fst r, [])) regs.
Proof.
  intros regs Hnd.
  assert (Hreg : registered regs =
                 (map (fun r => On (fst r) (snd r)) regs,
                  map (fun r => (fst r, [snd r])) regs)).
  { exact (@registered_from regs [] [] Hnd (fun e _ => eq_refl)). }
  rewrite Hreg. cbn [fst snd].
  assert (Hclear :
    PlayerEventWrapper.clear (map (fun r => (fst r, [snd r])) regs) =
    (map (fun r => Off (fst r) (snd r)) regs, map (fun r => (fst r, [])) regs)).
  { unfold PlayerEventWrapper.clear. rewrite map_map.
    exact (@clear_from regs [] [] Hnd). }
  rewrite Hclear. repeat split.
Qed.

Lemma clear_unsubscribes_single_callbacks_witness :
  NoDup (map fst trackerRegistrations)
  /\ fst (PlayerEventWrapper.clear (snd (registered trackerRegistrations)))
     = [ Off SourceLoaded 0; Off Play 1; Off Playing 2; Off PlaybackFinished 3;
         Off SourceUnloaded 4 ].
Proof.
  assert (Hnd : NoDup (map fst trackerRegistrations)).
  { repeat constructor; cbn; intuition discriminate. }
  split; [exact Hnd|].
  apply (@clear_unsubscribes_single_callbacks trackerRegistrations Hnd).
Defined.

(** ** Quality changes, ads and tracks *)

(** X8. [trackVideoQualityChanged] reports the bitrate in kbps to
    the content stream, rounded to the nearest whole number (a half
    goes up): the reported value is within 500 bits per second of the
    bitrate of the event.  Without a session nothing is reported. *)
Theorem trackVideoQualityChanged_reports_rounded_kbps :
  forall (host : Host) (t : ConvivaAnalyticsTracker) (h : History) (bitrate : Z),
    (Tracker.isSessionActive t = false ->
     Tracker.trackVideoQualityChanged bitrate host t h = (Returned tt, t, h))
    /\ (forall hd,
          convivaVideoAnalytics t = Some hd ->
          let r := Tracker.trackVideoQualityChanged bitrate host t h in
          exists kbps,
            outcome r = Returned tt /\ final r = t
            /\ sdkCalls (effects r) =
               sdkCalls h
               ++ [Video hd (VideoAnalytics.reportPlaybackMetric BITRATE (VNum kbps) VUndefined)]
            /\ (1000 * kbps - 500 <= bitrate < 1000 * kbps + 500)%Z).
Proof.
  intros host t h bitrate. open_tracker t. split.
  - destruct va; [discriminate | reflexivity].
  - intros hd Hv r. subst r. cbn in Hv. subst va.
    exists (Tracker.roundKbps bitrate).
    split; [|split; [|split]].
    1-3: run_handler (Tracker.trackVideoQualityChanged bitrate host); try reflexivity;
         now observe.
    unfold Tracker.roundKbps.
    pose proof (Z.div_mod (bitrate + 500) 1000 ltac:(lia)) as Hdiv.
    pose proof (Z.mod_pos_bound (bitrate + 500) 1000 ltac:(lia)) as Hmod.
    lia.
Qed.

Lemma trackVideoQualityChanged_reports_rounded_kbps_witness :
  convivaVideoAnalytics sampleTracker = Some 0
  /\ exists kbps,
       sdkCalls (effects (Tracker.trackVideoQualityChanged 2400000 quietHost sampleTracker []))
       = [Video 0 (VideoAnalytics.reportPlaybackMetric BITRATE (VNum kbps) VUndefined)]
       /\ (1000 * kbps - 500 <= 2400000 < 1000 * kbps + 500)%Z.
Proof.
  split; [reflexivity|].
  destruct (proj2 (@trackVideoQualityChanged_reports_rounded_kbps
                     quietHost sampleTracker [] 2400000%Z) 0 eq_refl)
    as (kbps & _ & _ & Hcalls & Hbound).
  exists kbps. split; [exact Hcalls | exact Hbound].
Defined.

(** ** Custom events and deficiencies *)

(** X9. The two custom-event entry points need a session.  Without
    one, each only logs a warning: nothing reaches the SDK, also for
    an application event.  With one, each makes the one SDK call for
    it, with the given name and attributes, returns whatever the SDK
    does, and leaves the tracker as it was. *)
Theorem custom_events_need_a_session :
  forall (host : Host) (t : ConvivaAnalyticsTracker) (h : History)
         (eventName : string) (eventAttributes : list (string * string)),
    (Tracker.isSessionActive t = false ->
     Tracker.sendCustomApplicationEvent eventName eventAttributes host t h =
     (Returned tt, t,
      LoggerLog "[ ConvivaAnalyticsTracker ] cannot send application event, no active monitoring session"
        LOG_WARNING :: h)
     /\ Tracker.sendCustomPlaybackEvent eventName eventAttributes host t h =
        (Returned tt, t,
         LoggerLog "[ ConvivaAnalyticsTracker ] cannot send playback event, no active monitoring session"
           LOG_WARNING :: h))
    /\ (forall hd,
          convivaVideoAnalytics t = Some hd ->
          let app := Tracker.sendCustomApplicationEvent eventName eventAttributes host t h in
          let playback := Tracker.sendCustomPlaybackEvent eventName eventAttributes host t h in
          outcome app = Returned tt /\ final app = t
          /\ sdkCalls (effects app) =
             sdkCalls h ++ [Video hd (VideoAnalytics.reportAppEvent eventName eventAttributes)]
          /\ outcome playback = Returned tt /\ final playback = t
          /\ sdkCalls (effects playback) =
             sdkCalls h ++ [Video hd (VideoAnalytics.reportPlaybackEvent eventName eventAttributes)]).
Proof.
  intros host t h eventName eventAttributes. open_tracker t. split.
  - destruct va; [discriminate|]. intros _. split; reflexivity.
  - intros hd Hv app playback. subst app playback. cbn in Hv. subst va.
    split; [|split; [|split]].
    1-3: run_handler (Tracker.sendCustomApplicationEvent eventName eventAttributes host).
    4: run_handler (Tracker.sendCustomPlaybackEvent eventName eventAttributes host).
    all: repeat split; now observe.
Qed.

Lemma custom_events_need_a_session_witness :
  Tracker.isSessionActive idleTracker = false
  /\ sdkCalls (effects (Tracker.sendCustomApplicationEvent "event" [] quietHost idleTracker []))
     = [].
Proof.
  split; [reflexivity|].
  rewrite (proj1 (proj1 (@custom_events_need_a_session quietHost idleTracker [] "event" [])
                    eq_refl)).
  reflexivity.
Defined.

(** X10. [reportPlaybackDeficiency] never starts a session and
    never touches [sessionEndedExternally]; its severity argument has
    no influence on what it does.  Without a session it does nothing
    at all.  With a session it reports the failure with the message;
    if asked not to end the session the tracker stays as it was, and
    if asked to end it (on stable SDK interfaces) both objects are
    released and the session is over. *)
Theorem reportPlaybackDeficiency_never_starts_a_session :
  forall (host : Host) (t : ConvivaAnalyticsTracker) (h : History)
         (message : string) (severity : ErrorSeverity) (endSession : bool),
    let r := Tracker.reportPlaybackDeficiency message severity endSession host t h in
    sessionsBuilt (effects r) = sessionsBuilt h
    /\ sessionEndedExternally (final r) = sessionEndedExternally t
    /\ (forall severity',
          Tracker.reportPlaybackDeficiency message severity' endSession host t h = r)
    /\ (Tracker.isSessionActive t = false -> r = (Returned tt, t, h))
    /\ (forall hd,
          convivaVideoAnalytics t = Some hd -> endSession = false ->
          outcome r = Returned tt /\ final r = t
          /\ sdkCalls (effects r) =
             sdkCalls h ++ [Video hd (VideoAnalytics.reportPlaybackFailed message)])
    /\ (forall hd ha,
          convivaVideoAnalytics t = Some hd -> convivaAdAnalytics t = Some ha ->
          endSession = true -> stableInterfaces host ->
          outcome r = Returned tt
          /\ Tracker.isSessionActive (final r) = false
          /\ sdkCalls (effects r) =
             sdkCalls h ++ [ Video hd (VideoAnalytics.reportPlaybackFailed message);
                             Video hd VideoAnalytics.release;
                             Ad ha AdAnalytics.release ]).
Proof.
  intros host t h message severity endSession r. subst r.
  open_tracker t.
  split; [|split; [|split; [|split; [|split]]]].
  - destruct va as [hd|], aa as [ha|], endSession;
      match goal with
      | |- context [Tracker.reportPlaybackDeficiency ?m ?s ?e host] =>
          run_handler (Tracker.reportPlaybackDeficiency m s e host)
      end;
      unfold sessionsBuilt; observe; rewrite ?length_filter_snoc; cbn; lia.
  - destruct va as [hd|], aa as [ha|], endSession;
      match goal with
      | |- context [Tracker.reportPlaybackDeficiency ?m ?s ?e host] =>
          run_handler (Tracker.reportPlaybackDeficiency m s e host)
      end; reflexivity.
  - reflexivity.
  - destruct va; [discriminate | reflexivity].
  - intros hd Hv ->. cbn in Hv. subst va.
    run_handler (Tracker.reportPlaybackDeficiency message severity false host).
    repeat split. now observe.
  - intros hd ha Hv Ha -> Hst. cbn in Hv, Ha. subst va aa.
    run_handler (Tracker.reportPlaybackDeficiency message severity true host).
    repeat split. observe. now rewrite <- !app_assoc.
Qed.

Lemma reportPlaybackDeficiency_never_starts_a_session_witness :
  convivaVideoAnalytics sampleTracker = Some 0
  /\ final (Tracker.reportPlaybackDeficiency "stalled" WARNING false quietHost sampleTracker [])
     = sampleTracker.
Proof.
  split; [reflexivity|].
  apply (proj1 (proj2 (proj2 (proj2 (proj2
           (@reportPlaybackDeficiency_never_starts_a_session
              quietHost sampleTracker [] "stalled" WARNING false))))) 0);
    reflexivity.
Defined.

(** X11. [pauseTracking] and [resumeTracking] always return and
    leave the tracker as it was; in particular neither touches the
    ad-break flag, although they report an ad break to the SDK.  With
    a session each makes its one SDK call (ad-break-started for a
    client-side ad on a separate player, ad-break-ended); without one
    nothing reaches the SDK. *)
Theorem pause_and_resume_tracking_keep_the_tracker :
  forall (host : Host) (t : ConvivaAnalyticsTracker) (h : History),
    let paused := Tracker.pauseTracking host t h in
    let resumed := Tracker.resumeTracking host t h in
    outcome paused = Returned tt /\ final paused = t
    /\ outcome resumed = Returned tt /\ final resumed = t
    /\ sdkCalls (effects paused) =
       sdkCalls h
       ++ match convivaVideoAnalytics t with
          | Some hd => [Video hd (VideoAnalytics.reportAdBreakStarted CLIENT_SIDE SEPARATE)]
          | None => []
          end
    /\ sdkCalls (effects resumed) =
       sdkCalls h
       ++ match convivaVideoAnalytics t with
          | Some hd => [Video hd VideoAnalytics.reportAdBreakEnded]
          | None => []
          end.
Proof.
  intros host t h paused resumed. subst paused resumed. open_tracker t.
  split; [|split; [|split; [|split; [|split]]]].
  1, 2, 5: run_handler (Tracker.pauseTracking host).
  4-6: run_handler (Tracker.resumeTracking host).
  all: try reflexivity.
  all: destruct va as [hd|]; observe; cbn [app option_map]; observe; now rewrite ?app_nil_r.
Qed.

(** X12. [trackAdStarted], during a session with a player attached,
    reports to the ad object only: the ad with its info, then the
    state derived from the player at that moment; for a server-side
    ad the resolution of the video and, if it is not 0, its frame
    rate; and the bitrate if one other than 0 is given.  For a
    client-side ad neither resolution nor frame rate is reported.
    The call returns whatever the SDK does, and the tracker stays as
    it was.  Without a session nothing happens. *)
Theorem trackAdStarted_reports_to_the_ad_object :
  forall (host : Host) (t : ConvivaAnalyticsTracker) (h : History)
         (adInfo : list (string * string)) (ty : AdType) (bitrateKbps : option Z)
         (playbackVideoData : PlaybackVideoData),
    (Tracker.isSessionActive t = false ->
     Tracker.trackAdStarted adInfo ty bitrateKbps playbackVideoData host t h
     = (Returned tt, t, h))
    /\ (forall p hd ha,
          _player t = Some p ->
          convivaVideoAnalytics t = Some hd ->
          convivaAdAnalytics t = Some ha ->
          let r := Tracker.trackAdStarted adInfo ty bitrateKbps playbackVideoData host t h in
          outcome r = Returned tt /\ final r = t
          /\ sdkCalls (effects r) =
             sdkCalls h
             ++ [ Ad ha (AdAnalytics.reportAdStarted adInfo);
                  Ad ha (AdAnalytics.reportAdMetric PLAYER_STATE
                           (VState (PlayerStateHelper.getPlayerState p)) VUndefined) ]
             ++ match ty with
                | SERVER_SIDE =>
                    [ Ad ha (AdAnalytics.reportAdMetric RESOLUTION
                               (VStr (string_of_N (width playbackVideoData) ++ "x"
                                      ++ string_of_N (height playbackVideoData))%string)
                               VUndefined) ]
                    ++ match frameRate playbackVideoData with
                       | Some rate =>
                           if Z.eqb rate 0 then []
                           else [ Ad ha (AdAnalytics.reportAdMetric RENDERED_FRAMERATE
                                           (VNum rate) VUndefined) ]
                       | None => []
                       end
                | CLIENT_SIDE => []
                end
             ++ match bitrateKbps with
                | Some kbps =>
                    if Z.eqb kbps 0 then []
                    else [ Ad ha (AdAnalytics.reportAdMetric BITRATE (VNum kbps) VUndefined) ]
                | None => []
                end).
Proof.
  intros host t h adInfo ty bitrateKbps [w ht rate]. open_tracker t. split.
  - destruct va; [discriminate | reflexivity].
  - intros p hd ha Hp Hv Ha r. subst r. cbn in Hp, Hv, Ha. subst pl va aa.
    cbn [width height frameRate].
    destruct ty, bitrateKbps as [kbps|], rate as [rate|];
      try destruct (Z.eqb kbps 0) eqn:Ek; try destruct (Z.eqb rate 0) eqn:Er;
      (split; [|split]);
      match goal with
      | |- context [Tracker.trackAdStarted ?a ?b ?c ?d host] =>
          run_handler_with (Tracker.trackAdStarted a b c d host) ltac:(rewrite ?Ek, ?Er)
      end;
      try reflexivity;
      observe; cbn [app]; rewrite <- ?app_assoc; reflexivity.
Qed.

Lemma trackAdStarted_reports_to_the_ad_object_witness :
  _player sampleTracker = Some samplePlayer
  /\ convivaVideoAnalytics sampleTracker = Some 0
  /\ convivaAdAnalytics sampleTracker = Some 0
  /\ sdkCalls (effects (Tracker.trackAdStarted [] SERVER_SIDE None
                          {| width := 100; height := 100; frameRate := Some 60%Z |}
                          quietHost sampleTracker [])) =
     [ Ad 0 (AdAnalytics.reportAdStarted []);
       Ad 0 (AdAnalytics.reportAdMetric PLAYER_STATE (VState PAUSED) VUndefined);
       Ad 0 (AdAnalytics.reportAdMetric RESOLUTION (VStr "100x100") VUndefined);
       Ad 0 (AdAnalytics.reportAdMetric RENDERED_FRAMERATE (VNum 60) VUndefined) ].
Proof.
  split; [reflexivity | split; [reflexivity | split; [reflexivity |]]].
  apply (proj2 (@trackAdStarted_reports_to_the_ad_object quietHost sampleTracker [] []
                  SERVER_SIDE None {| width := 100; height := 100; frameRate := Some 60%Z |})
           samplePlayer 0 0 eq_refl eq_refl eq_refl).
Defined.

Lemma append_assoc (a b c : string) : ((a ++ b) ++ c = a ++ (b ++ c))%string.
Proof. induction a as [|x a IH]; cbn; [reflexivity | now rewrite IH]. Qed.

(** X13. An ad error is reported to the ad object as a warning and
    ends nothing: [trackAdError], during a session, makes the one
    call [reportAdError] with the text of [formatCsaiAdError] and the
    severity WARNING, returns whatever the SDK does, and leaves the
    tracker as it was, session and ad break included.  The text
    starts with "Ad error:" and gives the name and the message of
    the event, or "Unknown name" and "Unknown message" in their
    place.  Without a session nothing happens. *)
Theorem trackAdError_warns_and_keeps_the_session :
  forall (host : Host) (t : ConvivaAnalyticsTracker) (h : History) (ev : AdErrorEvent.t),
    (Tracker.isSessionActive t = false ->
     Tracker.trackAdError ev host t h = (Returned tt, t, h))
    /\ (forall hd ha,
          convivaVideoAnalytics t = Some hd ->
          convivaAdAnalytics t = Some ha ->
          let r := Tracker.trackAdError ev host t h in
          outcome r = Returned tt /\ final r = t
          /\ sdkCalls (effects r) =
             sdkCalls h
             ++ [Ad ha (AdAnalytics.reportAdError (AdHelper.formatCsaiAdError ev) WARNING)])
    /\ (AdErrorEvent.data_code ev = None ->
        AdErrorEvent.troubleShootLink ev = None ->
        AdHelper.formatCsaiAdError ev =
        ("Ad error: " ++ AdHelper.orDefault (AdErrorEvent.name ev) "Unknown name"
         ++ "; Message: " ++ AdHelper.orDefault (AdErrorEvent.message ev) "Unknown message"
         ++ "; Error code: " ++ string_of_N (AdErrorEvent.code ev) ++ ";")%string).
Proof.
  intros host t h ev. open_tracker t. split; [|split].
  - destruct va; [discriminate | reflexivity].
  - intros hd ha Hv Ha r. subst r. cbn in Hv, Ha. subst va aa.
    split; [|split]; run_handler (Tracker.trackAdError ev host); try reflexivity.
    now observe.
  - intros Hdata Hlink. unfold AdHelper.formatCsaiAdError. rewrite Hdata, Hlink.
    cbv zeta.
    destruct (AdErrorEvent.name ev) as [[|c1 s1]|], (AdErrorEvent.message ev) as [[|c2 s2]|];
      cbn; rewrite ?append_assoc; reflexivity.
Qed.

Lemma trackAdError_warns_and_keeps_the_session_witness :
  let ev := {| AdErrorEvent.message := Some "VAST error"; AdErrorEvent.name := None;
               AdErrorEvent.code := 403%N; AdErrorEvent.data_code := None;
               AdErrorEvent.troubleShootLink := None |} in
  convivaVideoAnalytics sampleTracker = Some 0
  /\ convivaAdAnalytics sampleTracker = Some 0
  /\ sdkCalls (effects (Tracker.trackAdError ev quietHost sampleTracker [])) =
     [Ad 0 (AdAnalytics.reportAdError
              "Ad error: Unknown name; Message: VAST error; Error code: 403;" WARNING)].
Proof.
  cbv zeta. split; [reflexivity | split; [reflexivity |]].
  apply (proj1 (proj2 (@trackAdError_warns_and_keeps_the_session quietHost sampleTracker []
                  {| AdErrorEvent.message := Some "VAST error"; AdErrorEvent.name := None;
                     AdErrorEvent.code := 403%N; AdErrorEvent.data_code := None;
                     AdErrorEvent.troubleShootLink := None |})) 0 0 eq_refl eq_refl).
Defined.

(** ** Audio and subtitle tracks *)

Ltac run_subtitles Esub Ecap :=
  match goal with
  | |- context [Tracker.trackUpdateSubtitleTrack ?s ?host ?t ?h] =>
      run_handler_with (Tracker.trackUpdateSubtitleTrack s host)
        ltac:(cbn [kind sub_lang sub_label]; rewrite ?Esub, ?Ecap)
  | |- context [Tracker.trackTurnOffSubtitles ?host ?t ?h] =>
      run_handler (Tracker.trackTurnOffSubtitles host)
  end.

(** X14. Subtitles and closed captions are reported together and
    never both as on: [trackUpdateSubtitleTrack], during a session,
    reports a SUBTITLES_LANGUAGE and a CLOSED_CAPTIONS_LANGUAGE metric
    to the content stream, one each, and at least one of the two is
    "off".  A track of kind "subtitles" gives its text to the first
    and a track of kind "captions" to the second; a track of any
    other kind turns both off, as [trackTurnOffSubtitles] does. *)
Theorem subtitles_and_captions_are_exclusive :
  forall (host : Host) (t : ConvivaAnalyticsTracker) (h : History)
         (subtitleTrack : SubtitleTrack) (hd : Handle),
    convivaVideoAnalytics t = Some hd ->
    let r := Tracker.trackUpdateSubtitleTrack subtitleTrack host t h in
    let text := Tracker.formatTrack (sub_lang subtitleTrack) (sub_label subtitleTrack) in
    let metric key value :=
      Video hd (VideoAnalytics.reportPlaybackMetric key (VStr value) VUndefined) in
    outcome r = Returned tt /\ final r = t
    /\ (exists subtitles captions,
          (subtitles = "off" \/ captions = "off")
          /\ (sdkCalls (effects r) =
              sdkCalls h ++ [ metric SUBTITLES_LANGUAGE subtitles;
                              metric CLOSED_CAPTIONS_LANGUAGE captions ]
              \/ sdkCalls (effects r) =
                 sdkCalls h ++ [ metric CLOSED_CAPTIONS_LANGUAGE captions;
                                 metric SUBTITLES_LANGUAGE subtitles ])
          /\ (kind subtitleTrack = "subtitles" -> subtitles = text)
          /\ (kind subtitleTrack = "captions" -> captions = text)
          /\ (kind subtitleTrack <> "subtitles" -> kind subtitleTrack <> "captions" ->
              subtitles = "off" /\ captions = "off"))
    /\ sdkCalls (effects (Tracker.trackTurnOffSubtitles host t h)) =
       sdkCalls h ++ [ metric SUBTITLES_LANGUAGE "off"; metric CLOSED_CAPTIONS_LANGUAGE "off" ].
Proof.
  intros host t h [sl sb k en] hd Hv r text metric. subst r text metric.
  open_tracker t. cbn in Hv. subst va. cbn [sub_lang sub_label kind].
  destruct (String.eqb k "subtitles") eqn:Esub;
    [|destruct (String.eqb k "captions") eqn:Ecap].
  all: split; [|split; [|split]].
  all: try (run_subtitles Esub Ecap; reflexivity).
  all: try (run_subtitles Esub Ecap; observe; now rewrite <- app_assoc).
  - exists (Tracker.formatTrack sl sb), "off".
    split; [now right|]. split; [|split; [|split]].
    + left. run_subtitles Esub Ecap. observe. now rewrite <- app_assoc.
    + reflexivity.
    + intros ->. discriminate Esub.
    + intros Hn. apply String.eqb_eq in Esub. contradiction.
  - exists "off", (Tracker.formatTrack sl sb).
    split; [now left|]. split; [|split; [|split]].
    + right. run_subtitles Esub Ecap. observe. now rewrite <- app_assoc.
    + intros ->. discriminate Esub.
    + reflexivity.
    + intros _ Hn. apply String.eqb_eq in Ecap. contradiction.
  - exists "off", "off".
    split; [now left|]. split; [|split; [|split]].
    + left. run_subtitles Esub Ecap. observe. now rewrite <- app_assoc.
    + intros ->. discriminate Esub.
    + intros ->. discriminate Ecap.
    + intros _ _. split; reflexivity.
Qed.

Lemma subtitles_and_captions_are_exclusive_witness :
  convivaVideoAnalytics sampleTracker = Some 0
  /\ sdkCalls (effects (Tracker.trackTurnOffSubtitles quietHost sampleTracker [])) =
     [ Video 0 (VideoAnalytics.reportPlaybackMetric SUBTITLES_LANGUAGE (VStr "off") VUndefined);
       Video 0 (VideoAnalytics.reportPlaybackMetric CLOSED_CAPTIONS_LANGUAGE (VStr "off")
                  VUndefined) ].
Proof.
  split; [reflexivity|].
  apply (@subtitles_and_captions_are_exclusive quietHost sampleTracker []
           {| sub_lang := "en"; sub_label := "English"; kind := "subtitles"; enabled := true |}
           0 eq_refl).
Defined.

(** ** The audio track *)

Ltac run_audio :=
  match goal with
  | |- context [Tracker.trackUpdateAudioTrack ?a ?host ?t ?h] =>
      run_handler (Tracker.trackUpdateAudioTrack a host)
  end.

(** X15. The audio language is reported as "[lang]:label", or as
    the label alone when the language of the track is "unknown".
    [trackUpdateAudioTrack], during a session, makes that one report
    to the content stream; given no track (the player has no active
    audio track) it raises a TypeError before anything is reported.
    Without a session it returns with nothing, track or not. *)
Theorem audio_language_is_reported_with_its_label :
  forall (host : Host) (t : ConvivaAnalyticsTracker) (h : History),
    (Tracker.isSessionActive t = false ->
     forall audioTrack, Tracker.trackUpdateAudioTrack audioTrack host t h = (Returned tt, t, h))
    /\ (forall hd,
          convivaVideoAnalytics t = Some hd ->
          Tracker.trackUpdateAudioTrack None host t h = (Raised TypeError, t, h)
          /\ forall a,
               let r := Tracker.trackUpdateAudioTrack (Some a) host t h in
               outcome r = Returned tt /\ final r = t
               /\ sdkCalls (effects r) =
                  sdkCalls h
                  ++ [Video hd (VideoAnalytics.reportPlaybackMetric AUDIO_LANGUAGE
                                  (VStr (if String.eqb (lang a) "unknown" then label a
                                         else ("[" ++ lang a ++ "]:" ++ label a)%string))
                                  VUndefined)]).
Proof.
  intros host t h. open_tracker t. split.
  - destruct va; [discriminate|]. intros _ audioTrack. reflexivity.
  - intros hd Hv. cbn in Hv. subst va. split; [reflexivity|].
    intros a r. subst r. run_audio. repeat split. now observe.
Qed.

Lemma audio_language_is_reported_with_its_label_witness :
  convivaVideoAnalytics sampleTracker = Some 0
  /\ sdkCalls (effects (Tracker.trackUpdateAudioTrack
                          (Some {| lang := "en"; label := "English" |})
                          quietHost sampleTracker [])) =
     [Video 0 (VideoAnalytics.reportPlaybackMetric AUDIO_LANGUAGE (VStr "[en]:English")
                 VUndefined)].
Proof.
  split; [reflexivity|].
  apply (proj2 (proj2 (@audio_language_is_reported_with_its_label quietHost sampleTracker [])
                  0 eq_refl) {| lang := "en"; label := "English" |}).
Defined.

(** ** The playhead *)

Ltac run_playhead :=
  match goal with
  | |- context [Tracker.playheadCallback ?ms ?host ?t ?h] =>
      run_handler (Tracker.playheadCallback ms host)
  end.

(** X16. When the SDK polls the playhead, the time goes to one
    stream: to the ad object during an ad break and to the video
    object otherwise, as a PLAY_HEAD_TIME metric in milliseconds.
    Nothing is reported while no player is attached or while the
    player's time is not finite.  The callback returns whatever the
    SDK does and leaves the tracker as it was. *)
Theorem playhead_goes_to_one_stream :
  forall (host : Host) (t : ConvivaAnalyticsTracker) (h : History) (playheadTimeMs : option Z),
    let r := Tracker.playheadCallback playheadTimeMs host t h in
    outcome r = Returned tt /\ final r = t
    /\ (Tracker.isPlayerAttached t = false \/ playheadTimeMs = None -> effects r = h)
    /\ (forall ms hd ha,
          Tracker.isPlayerAttached t = true -> playheadTimeMs = Some ms ->
          convivaVideoAnalytics t = Some hd -> convivaAdAnalytics t = Some ha ->
          sdkCalls (effects r) =
          sdkCalls h
          ++ [ if _isAdBreakActive t
               then Ad ha (AdAnalytics.reportAdMetric PLAY_HEAD_TIME (VNum ms) VUndefined)
               else Video hd (VideoAnalytics.reportPlaybackMetric PLAY_HEAD_TIME (VNum ms)
                                VUndefined) ]).
Proof.
  intros host t h playheadTimeMs r. subst r. open_tracker t.
  split; [|split; [|split]].
  - destruct pl, playheadTimeMs, adb; run_playhead; reflexivity.
  - destruct pl, playheadTimeMs, adb; run_playhead; reflexivity.
  - intros [Hp | ->].
    + destruct pl; [discriminate|]. reflexivity.
    + destruct pl; reflexivity.
  - intros ms hd ha Hp -> Hv Ha. cbn in Hv, Ha. subst va aa.
    destruct pl; [|discriminate]. destruct adb; run_playhead; now observe.
Qed.

Lemma playhead_goes_to_one_stream_witness :
  Tracker.isPlayerAttached adBreakTracker = true
  /\ convivaVideoAnalytics adBreakTracker = Some 0
  /\ convivaAdAnalytics adBreakTracker = Some 0
  /\ sdkCalls (effects (Tracker.playheadCallback (Some 1500%Z) quietHost adBreakTracker [])) =
     [Ad 0 (AdAnalytics.reportAdMetric PLAY_HEAD_TIME (VNum 1500) VUndefined)].
Proof.
  split; [reflexivity | split; [reflexivity | split; [reflexivity |]]].
  apply (proj2 (proj2 (proj2 (@playhead_goes_to_one_stream quietHost adBreakTracker []
                                (Some 1500%Z)))) 1500%Z 0 0); reflexivity.
Defined.

(** ** Attaching a player *)

Ltac run_attach :=
  match goal with
  | |- context [Facade.attachPlayer ?p ?host ?s ?h] =>
      run_handler (Facade.attachPlayer p host)
  end.

(** X17. A player can be attached once, and only before it has a
    source.  [attachPlayer] of the facade refuses a player if one is
    attached already or if the player has a source: it logs one
    warning with the reason, makes no SDK call and leaves the
    integration as it was.  Otherwise the player is attached, whatever
    the SDK does, and every later [attachPlayer] is refused.  When
    both reasons apply, the warning gives the source as the reason. *)
Theorem attachPlayer_attaches_once :
  forall (host : Host) (s : ConvivaAnalytics) (h : History) (p : PlayerAPI),
    (Tracker.isPlayerAttached (convivaAnalyticsTracker s) = true \/ getSource p <> None ->
     let reason :=
       match getSource p with
       | Some _ => "Player.load() has already been called (attaching player is possible only before player.load())"
       | None => "Player is already attached"
       end in
     Facade.attachPlayer p host s h =
     (Returned tt, s,
      LoggerLog ("[ ConvivaAnalyticsTracker ] cannot attach player: " ++ reason)%string
        LOG_WARNING :: h))
    /\ (Tracker.isPlayerAttached (convivaAnalyticsTracker s) = false ->
        getSource p = None ->
        let r := Facade.attachPlayer p host s h in
        _player (convivaAnalyticsTracker (final r)) = Some p
        /\ forall host' q,
             final (Facade.attachPlayer q host' (final r) (effects r)) = final r
             /\ sdkCalls (effects (Facade.attachPlayer q host' (final r) (effects r)))
                = sdkCalls (effects r)).
Proof.
  intros host [t ssai] h p. open_tracker t. split.
  - intros Hrefused reason. subst reason. cbn in Hrefused.
    destruct (getSource p) as [src|] eqn:Esrc.
    + unfold Facade.attachPlayer, Tracker.canAttachPlayer. unfold_handlers.
      rewrite Esrc. unfold_handlers. reflexivity.
    + destruct Hrefused as [Hatt | Hsrc]; [|contradiction].
      destruct pl; [|discriminate].
      unfold Facade.attachPlayer, Tracker.canAttachPlayer. unfold_handlers.
      rewrite Esrc. unfold_handlers. reflexivity.
  - intros Hp Hsrc r. subst r. cbn in Hp. destruct pl; [discriminate|].
    assert (Hfirst :
      forall o s' h',
        Facade.attachPlayer p host
          {| convivaAnalyticsTracker :=
               {| _player := None; debugLoggingEnabled := dbg; contentMetadataBuilder := b;
                  sessionKey := key; convivaVideoAnalytics := va; convivaAdAnalytics := aa;
                  _isAdBreakActive := adb; hasPlayed := hp; stallTrackingTimeout := tm;
                  sessionEndedExternally := ext |};
             ssai_isAdBreakActive := ssai |} h = (o, s', h') ->
        _player (convivaAnalyticsTracker s') = Some p).
    { intros o s' h'. unfold Facade.attachPlayer, Tracker.canAttachPlayer. unfold_handlers.
      rewrite Hsrc. destruct va, aa; walk; intros E; apply triple_eq in E;
        destruct E as (_ & <- & _); reflexivity. }
    destruct (Facade.attachPlayer p host _ h) as [[o s'] h'] eqn:E.
    specialize (Hfirst o s' h' eq_refl). unfold final, effects. cbn [fst snd].
    split; [exact Hfirst|].
    intros host' q. destruct s' as [t' ssai']. destruct t' as [pl' dbg' b' key' va' aa' adb' hp' tm' ext'].
    cbn in Hfirst. subst pl'.
    unfold Facade.attachPlayer, Tracker.canAttachPlayer. unfold_handlers.
    destruct (getSource q); unfold_handlers; split; reflexivity.
Qed.

Lemma attachPlayer_attaches_once_witness :
  Tracker.isPlayerAttached (convivaAnalyticsTracker (Facade.new false)) = false
  /\ getSource (unloaded samplePlayer) = None
  /\ _player (convivaAnalyticsTracker
                (final (Facade.attachPlayer (unloaded samplePlayer) quietHost
                          (Facade.new false) []))) = Some (unloaded samplePlayer).
Proof.
  split; [reflexivity | split; [reflexivity |]].
  apply (proj2 (@attachPlayer_attaches_once quietHost (Facade.new false) []
                  (unloaded samplePlayer)) eq_refl eq_refl).
Defined.

(** X18. Attaching a player late, during a session: on stable SDK
    interfaces [attachPlayer] hands the player's version to the video
    object and to the ad object ([setPlayerInfo], [setAdPlayerInfo]).
    Without a session attaching makes no SDK call. *)
Theorem attachPlayer_late_sets_player_info :
  forall (host : Host) (t : ConvivaAnalyticsTracker) (h : History) (p : PlayerAPI),
    Tracker.isPlayerAttached t = false ->
    getSource p = None ->
    let r := Tracker.attachPlayer p host t h in
    (Tracker.isSessionActive t = false ->
     r = (Returned tt, Tracker.set_player (Some p) t, h))
    /\ (forall hd ha,
          convivaVideoAnalytics t = Some hd -> convivaAdAnalytics t = Some ha ->
          stableInterfaces host ->
          r = (Returned tt, Tracker.set_player (Some p) t,
               Sdk (Ad ha (AdAnalytics.setAdPlayerInfo (version p)))
               :: Sdk (Video hd (VideoAnalytics.setPlayerInfo (version p))) :: h)).
Proof.
  intros host t h p Hp Hsrc r. subst r. open_tracker t.
  cbn in Hp. destruct pl; [discriminate|].
  unfold Tracker.attachPlayer, Tracker.canAttachPlayer. unfold_handlers. rewrite Hsrc.
  split.
  - destruct va; [discriminate|]. intros _. reflexivity.
  - intros hd ha Hv Ha Hst. cbn in Hv, Ha. subst va aa. walk. reflexivity.
Qed.

Lemma attachPlayer_late_sets_player_info_witness :
  let t := Tracker.set_player None sampleTracker in
  Tracker.isPlayerAttached t = false
  /\ getSource (unloaded samplePlayer) = None
  /\ sdkCalls (effects (Tracker.attachPlayer (unloaded samplePlayer) quietHost t [])) =
     [ Video 0 (VideoAnalytics.setPlayerInfo "8.0.0");
       Ad 0 (AdAnalytics.setAdPlayerInfo "8.0.0") ].
Proof.
  cbv zeta. split; [reflexivity | split; [reflexivity |]].
  rewrite (proj2 (@attachPlayer_late_sets_player_info quietHost
                    (Tracker.set_player None sampleTracker) [] (unloaded samplePlayer)
                    eq_refl eq_refl) 0 0 eq_refl eq_refl quietHost_stable).
  reflexivity.
Defined.

(** ** Releasing and unloading *)

Ltac run_release :=
  match goal with
  | |- context [Facade.release ?host ?s ?h] => run_handler (Facade.release host)
  end.

(** X19. [release] of the facade, on stable SDK interfaces, always
    returns; afterwards no player is attached, no session is active,
    no ad break is active on either side, and the last SDK call is
    [Conviva.Analytics.release()], made also when there was no
    session.  A session that was active is finished first: ad-skipped
    during an ad break, playback-ended, then both objects are
    released. *)
Theorem release_detaches_and_ends :
  forall (host : Host) (s : ConvivaAnalytics) (h : History),
    stableInterfaces host ->
    paired (convivaAnalyticsTracker s) ->
    let t := convivaAnalyticsTracker s in
    let r := Facade.release host s h in
    outcome r = Returned tt
    /\ _player (convivaAnalyticsTracker (final r)) = None
    /\ Tracker.isSessionActive (convivaAnalyticsTracker (final r)) = false
    /\ Ssai.isAdBreakActive (final r) = false
    /\ sdkCalls (effects r) =
       sdkCalls h
       ++ match convivaVideoAnalytics t with
          | Some hd =>
              (if _isAdBreakActive t then [Ad hd AdAnalytics.reportAdSkipped] else [])
              ++ [ Video hd VideoAnalytics.reportPlaybackEnded;
                   Video hd VideoAnalytics.release;
                   Ad hd AdAnalytics.release ]
          | None => []
          end
       ++ [AnalyticsRelease]
    /\ (Tracker.isSessionActive t = true ->
        Tracker.isAdBreakActive (convivaAnalyticsTracker (final r)) = false).
Proof.
  intros host [t ssai] h Hst Hpair t0 r. subst t0 r.
  open_tracker t. unfold paired in Hpair. cbn in Hpair. subst aa.
  cbn [convivaAnalyticsTracker convivaVideoAnalytics _isAdBreakActive].
  destruct va as [hd|], adb; run_release; repeat split;
    try discriminate; observe; cbn [app]; rewrite <- ?app_assoc; reflexivity.
Qed.

Lemma release_detaches_and_ends_witness :
  stableInterfaces quietHost
  /\ paired (convivaAnalyticsTracker sampleFacade)
  /\ sdkCalls (effects (Facade.release quietHost sampleFacade [])) =
     [ Video 0 VideoAnalytics.reportPlaybackEnded;
       Video 0 VideoAnalytics.release;
       Ad 0 AdAnalytics.release;
       AnalyticsRelease ].
Proof.
  split; [exact quietHost_stable | split; [reflexivity |]].
  apply (@release_detaches_and_ends quietHost sampleFacade [] quietHost_stable eq_refl).
Defined.

Ltac run_unloaded :=
  match goal with
  | |- context [Tracker.onSourceUnloaded ?ev ?host ?t ?h] =>
      run_handler (Tracker.onSourceUnloaded ev host)
  end.

(** X20. A SourceUnloaded event ends the session, except during an
    ad break, where it is ignored: the tracker stays as it was and
    nothing reaches the SDK.  Outside an ad break, on stable SDK
    interfaces, both objects are released without a playback-ended
    report, and the session is over; [sessionEndedExternally] is not
    touched, so the next Play event starts a new session. *)
Theorem sourceUnloaded_ends_the_session_outside_ads :
  forall (host : Host) (t : ConvivaAnalyticsTracker) (h : History) (ev : PlayerEventBase),
    let r := Tracker.onSourceUnloaded ev host t h in
    (_isAdBreakActive t = true ->
     outcome r = Returned tt /\ final r = t /\ sdkCalls (effects r) = sdkCalls h)
    /\ (forall hd ha,
          _isAdBreakActive t = false ->
          convivaVideoAnalytics t = Some hd -> convivaAdAnalytics t = Some ha ->
          stableInterfaces host ->
          outcome r = Returned tt
          /\ Tracker.isSessionActive (final r) = false
          /\ convivaAdAnalytics (final r) = None
          /\ sessionEndedExternally (final r) = sessionEndedExternally t
          /\ sdkCalls (effects r) =
             sdkCalls h ++ [Video hd VideoAnalytics.release; Ad ha AdAnalytics.release]).
Proof.
  intros host t h ev r. subst r. open_tracker t. split.
  - intros Hadb. cbn in Hadb. subst adb. run_unloaded. repeat split. now observe.
  - intros hd ha Hadb Hv Ha Hst. cbn in Hadb, Hv, Ha. subst adb va aa.
    run_unloaded. repeat split. observe. now rewrite <- app_assoc.
Qed.

Lemma sourceUnloaded_ends_the_session_outside_ads_witness :
  _isAdBreakActive adBreakTracker = true
  /\ final (Tracker.onSourceUnloaded (event SourceUnloaded) quietHost adBreakTracker [])
     = adBreakTracker.
Proof.
  split; [reflexivity|].
  apply (proj1 (@sourceUnloaded_ends_the_session_outside_ads quietHost adBreakTracker []
                  (event SourceUnloaded)) eq_refl).
Defined.

(** ** Server-side ads *)

Ltac run_ssai :=
  match goal with
  | |- context [Ssai.reportAdBreakFinished ?host ?s ?h] =>
      run_handler (Ssai.reportAdBreakFinished host)
  | |- context [Ssai.reportAdBreakStarted ?host ?s ?h] =>
      run_handler (Ssai.reportAdBreakStarted host)
  end.

(** X21. The server-side ad API before a player is attached: with a
    session but no player, [reportAdBreakStarted] opens the break,
    and [reportAdBreakFinished] then raises the "Player is not
    initialized" error of the player getter, after it has cleared
    both ad-break flags and reported ad-break-ended; no player state
    follows on the content stream. *)
Theorem ssai_break_without_player_raises :
  forall (host : Host) (s : ConvivaAnalytics) (h : History) (hd : Handle),
    convivaVideoAnalytics (convivaAnalyticsTracker s) = Some hd ->
    _player (convivaAnalyticsTracker s) = None ->
    Ssai.isAdBreakActive s = true ->
    let r := Ssai.reportAdBreakFinished host s h in
    outcome r =
    Raised (JsError "Player is not initialized, either pass it to the constructor or attach it via `attachPlayer` before using the integration.")
    /\ Ssai.isAdBreakActive (final r) = false
    /\ Tracker.isAdBreakActive (convivaAnalyticsTracker (final r)) = false
    /\ sdkCalls (effects r) = sdkCalls h ++ [Video hd VideoAnalytics.reportAdBreakEnded].
Proof.
  intros host [t ssai] h hd Hv Hp Hssai r. subst r.
  open_tracker t. cbn in Hv, Hp, Hssai. subst va pl ssai.
  run_ssai. repeat split. now observe.
Qed.

Lemma ssai_break_without_player_raises_witness :
  let s := {| convivaAnalyticsTracker := Tracker.set_player None sampleTracker;
              ssai_isAdBreakActive := true |} in
  convivaVideoAnalytics (convivaAnalyticsTracker s) = Some 0
  /\ _player (convivaAnalyticsTracker s) = None
  /\ Ssai.isAdBreakActive s = true
  /\ sdkCalls (effects (Ssai.reportAdBreakFinished quietHost s [])) =
     [Video 0 VideoAnalytics.reportAdBreakEnded].
Proof.
  cbv zeta. split; [reflexivity | split; [reflexivity | split; [reflexivity |]]].
  apply (@ssai_break_without_player_raises quietHost
           {| convivaAnalyticsTracker := Tracker.set_player None sampleTracker;
              ssai_isAdBreakActive := true |} [] 0 eq_refl eq_refl eq_refl).
Defined.

(** X22. The server-side ad API outside a server-side ad break:
    [reportAdFinished], [reportAdSkipped] and [reportAdBreakFinished]
    have no effect at all, also while a client-side ad break is
    active.  And without a session [reportAdBreakStarted] reports
    nothing and leaves the tracker as it was, yet marks the
    server-side ad break as active. *)
Theorem ssai_calls_need_a_server_side_break :
  forall (host : Host) (s : ConvivaAnalytics) (h : History),
    (Ssai.isAdBreakActive s = false ->
     Ssai.reportAdFinished host s h = (Returned tt, s, h)
     /\ Ssai.reportAdSkipped host s h = (Returned tt, s, h)
     /\ Ssai.reportAdBreakFinished host s h = (Returned tt, s, h))
    /\ (Ssai.isAdBreakActive s = false ->
        Tracker.isAdBreakActive (convivaAnalyticsTracker s) = false ->
        Tracker.isSessionActive (convivaAnalyticsTracker s) = false ->
        Ssai.reportAdBreakStarted host s h =
        (Returned tt, set_ssai_isAdBreakActive true s, h)).
Proof.
  intros host [t ssai] h. split.
  - intros Hssai. cbn in Hssai. subst ssai. repeat split.
  - intros Hssai Hadb Hidle. open_tracker t. cbn in Hssai, Hadb, Hidle. subst ssai adb.
    destruct va; [discriminate|]. reflexivity.
Qed.

Lemma ssai_calls_need_a_server_side_break_witness :
  Ssai.isAdBreakActive sampleFacade = false
  /\ Ssai.reportAdBreakFinished hostileHost sampleFacade [] = (Returned tt, sampleFacade, []).
Proof.
  split; [reflexivity|].
  apply (proj1 (@ssai_calls_need_a_server_side_break hostileHost sampleFacade []) eq_refl).
Defined.

(** ** Content metadata *)

Ltac run_content :=
  match goal with
  | |- context [Tracker.updateContentMetadata ?o ?host ?t ?h] =>
      run_handler (Tracker.updateContentMetadata o host)
  | |- context [Tracker.onPlaying ?ev ?host ?t ?h] =>
      run_handler (Tracker.onPlaying ev host)
  | |- context [Tracker.onSourceLoaded ?ev ?host ?t ?h] =>
      run_handler (Tracker.onSourceLoaded ev host)
  end.

(** X23. Content metadata reaches the SDK during a session only.
    Without a session [updateContentMetadata] hands the overrides to
    the metadata builder, logs at DEBUG level that they will be
    propagated on session initialization and calls nothing on the
    SDK; the handlers of SourceLoaded and Playing call nothing
    either.  With a session, on stable SDK interfaces, each of the
    three makes exactly one call, [setContentInfo] on the video
    object, and the handler of Playing has told the builder before
    that playback started. *)
Theorem content_info_is_pushed_during_a_session :
  forall (host : Host) (t : ConvivaAnalyticsTracker) (h : History)
         (metadataOverrides : Metadata) (ev : PlayerEventBase),
    let updated := Tracker.updateContentMetadata metadataOverrides host t h in
    let loaded := Tracker.onSourceLoaded ev host t h in
    let playing := Tracker.onPlaying ev host t h in
    (Tracker.isSessionActive t = false ->
     updated =
     (Returned tt,
      Tracker.set_contentMetadataBuilder
        (Builder.setOverrides metadataOverrides (contentMetadataBuilder t)) t,
      LoggerLog "[ ConvivaAnalyticsTracker ] no active session. Content metadata will be propagated to Conviva on session initialization." LOG_DEBUG :: h)
     /\ final loaded = t /\ sdkCalls (effects loaded) = sdkCalls h
     /\ final playing = t /\ sdkCalls (effects playing) = sdkCalls h)
    /\ (forall hd,
          convivaVideoAnalytics t = Some hd ->
          stableInterfaces host ->
          (exists info,
             outcome updated = Returned tt
             /\ sdkCalls (effects updated) =
                sdkCalls h ++ [Video hd (VideoAnalytics.setContentInfo info)])
          /\ (exists info,
                outcome loaded = Returned tt
                /\ sdkCalls (effects loaded) =
                   sdkCalls h ++ [Video hd (VideoAnalytics.setContentInfo info)])
          /\ (exists info,
                outcome playing = Returned tt
                /\ playbackStarted (contentMetadataBuilder (final playing)) = true
                /\ sdkCalls (effects playing) =
                   sdkCalls h ++ [Video hd (VideoAnalytics.setContentInfo info)])).
Proof.
  intros host t h metadataOverrides ev updated loaded playing.
  subst updated loaded playing. open_tracker t. split.
  - destruct va; [discriminate|]. intros _.
    split; [reflexivity|]. repeat split; run_content; now observe.
  - intros hd Hv Hst. cbn in Hv. subst va.
    split; [|split].
    + destruct pl as [p|].
      * destruct (Tracker.updateContentMetadata metadataOverrides host _ h)
          as [[o t'] h'] eqn:E.
        revert E. walk. intros E. apply triple_eq in E. destruct E as (<- & <- & <-).
        eexists. split; [reflexivity|]. now observe.
      * destruct (Tracker.updateContentMetadata metadataOverrides host _ h)
          as [[o t'] h'] eqn:E.
        revert E. walk. intros E. apply triple_eq in E. destruct E as (<- & <- & <-).
        eexists. split; [reflexivity|]. now observe.
    + destruct pl as [p|].
      * destruct (Tracker.onSourceLoaded ev host _ h) as [[o t'] h'] eqn:E.
        revert E. walk. intros E. apply triple_eq in E. destruct E as (<- & <- & <-).
        eexists. split; [reflexivity|]. now observe.
      * destruct (Tracker.onSourceLoaded ev host _ h) as [[o t'] h'] eqn:E.
        revert E. walk. intros E. apply triple_eq in E. destruct E as (<- & <- & <-).
        eexists. split; [reflexivity|]. now observe.
    + destruct (Tracker.onPlaying ev host _ h) as [[o t'] h'] eqn:E.
      revert E. walk. intros E. apply triple_eq in E. destruct E as (<- & <- & <-).
      eexists. split; [reflexivity|]. split; [reflexivity|]. now observe.
Qed.

Lemma content_info_is_pushed_during_a_session_witness :
  Tracker.isSessionActive idleTracker = false
  /\ sdkCalls (effects (Tracker.updateContentMetadata emptyMetadata quietHost idleTracker []))
     = [].
Proof.
  split; [reflexivity|].
  rewrite (proj1 (proj1 (@content_info_is_pushed_during_a_session quietHost idleTracker []
                           emptyMetadata (event Playing)) eq_refl)).
  reflexivity.
Defined.

(** ** Player events, as the player dispatches them *)

Ltac run_dispatch :=
  match goal with
  | |- context [Facade.dispatch ?ev ?host ?s ?h] => run_handler (Facade.dispatch ev host)
  end.

(** X24. A PlaybackFinished event releases the session before the
    facade gets to report anything: the handler of the tracker is
    registered first and releases both objects, so the handler of the
    facade finds no session.  On stable SDK interfaces the SDK calls
    of the event are the two releases, with no player state and no
    playback-ended report; the session is over, and the tracker is
    otherwise as it was ([hasPlayed], the ad-break flag, the stall
    timer and [sessionEndedExternally] included). *)
Theorem playbackFinished_releases_and_reports_nothing :
  forall (host : Host) (s : ConvivaAnalytics) (h : History) (ev : PlayerEventBase)
         (p : PlayerAPI) (hd ha : Handle),
    type ev = PlaybackFinished ->
    _player (convivaAnalyticsTracker s) = Some p ->
    convivaVideoAnalytics (convivaAnalyticsTracker s) = Some hd ->
    convivaAdAnalytics (convivaAnalyticsTracker s) = Some ha ->
    stableInterfaces host ->
    let r := Facade.dispatch ev host s h in
    outcome r = Returned tt
    /\ final r =
       set_tracker
         (Tracker.set_convivaAdAnalytics None
            (Tracker.set_convivaVideoAnalytics None (convivaAnalyticsTracker s))) s
    /\ sdkCalls (effects r) =
       sdkCalls h ++ [Video hd VideoAnalytics.release; Ad ha AdAnalytics.release].
Proof.
  intros host [t ssai] h [ty c n sk] p hd ha Hty Hp Hv Ha Hst r. subst r.
  open_tracker t. cbn in Hty, Hp, Hv, Ha. subst ty pl va aa.
  run_dispatch. repeat split. observe. now rewrite <- app_assoc.
Qed.

Lemma playbackFinished_releases_and_reports_nothing_witness :
  type (event PlaybackFinished) = PlaybackFinished
  /\ _player (convivaAnalyticsTracker sampleFacade) = Some samplePlayer
  /\ convivaVideoAnalytics (convivaAnalyticsTracker sampleFacade) = Some 0
  /\ convivaAdAnalytics (convivaAnalyticsTracker sampleFacade) = Some 0
  /\ stableInterfaces quietHost
  /\ sdkCalls (effects (Facade.dispatch (event PlaybackFinished) quietHost sampleFacade [])) =
     [Video 0 VideoAnalytics.release; Ad 0 AdAnalytics.release].
Proof.
  repeat (split; [first [reflexivity | exact quietHost_stable] |]).
  apply (@playbackFinished_releases_and_reports_nothing quietHost sampleFacade []
           (event PlaybackFinished) samplePlayer 0 0 eq_refl eq_refl eq_refl eq_refl
           quietHost_stable).
Defined.

(** X25. A Play event during an ad break is ignored by both
    handlers: the integration stays as it was and nothing reaches
    the SDK; in particular no session is started and the stall timer
    is not armed. *)
Theorem play_during_ad_break_is_ignored :
  forall (host : Host) (s : ConvivaAnalytics) (h : History) (ev : PlayerEventBase),
    type ev = Play ->
    Tracker.isAdBreakActive (convivaAnalyticsTracker s) = true ->
    let r := Facade.dispatch ev host s h in
    outcome r = Returned tt /\ final r = s /\ sdkCalls (effects r) = sdkCalls h.
Proof.
  intros host [t ssai] h [ty c n sk] Hty Hadb r. subst r.
  open_tracker t. cbn in Hty, Hadb. subst ty adb.
  destruct pl as [p|]; run_dispatch; repeat split; now observe.
Qed.

Lemma play_during_ad_break_is_ignored_witness :
  type (event Play) = Play
  /\ Tracker.isAdBreakActive adBreakTracker = true
  /\ final (Facade.dispatch (event Play) quietHost
              {| convivaAnalyticsTracker := adBreakTracker; ssai_isAdBreakActive := false |} [])
     = {| convivaAnalyticsTracker := adBreakTracker; ssai_isAdBreakActive := false |}.
Proof.
  split; [reflexivity | split; [reflexivity |]].
  apply (@play_during_ad_break_is_ignored quietHost
           {| convivaAnalyticsTracker := adBreakTracker; ssai_isAdBreakActive := false |} []
           (event Play) eq_refl eq_refl).
Defined.

(** ** Seeking *)

(** X26. Seeking is reported to the content stream, also during an
    ad break.  In a session with a player attached, a Seek event
    reports SEEK_STARTED with the target of the seek and a TimeShift
    event reports it with -1; both arm the stall timer.  A Seeked or
    a TimeShifted event reports SEEK_ENDED and then the player state
    (PLAYING if the player is playing, else PAUSED), the state on the
    ad stream during an ad break and on the content stream otherwise;
    both leave the stall timer idle. *)
Theorem seeking_is_reported_to_the_content_stream :
  forall (host : Host) (s : ConvivaAnalytics) (h : History) (ev : PlayerEventBase)
         (p : PlayerAPI) (hd ha : Handle),
    _player (convivaAnalyticsTracker s) = Some p ->
    convivaVideoAnalytics (convivaAnalyticsTracker s) = Some hd ->
    convivaAdAnalytics (convivaAnalyticsTracker s) = Some ha ->
    let r := Facade.dispatch ev host s h in
    let started target :=
      Video hd (VideoAnalytics.reportPlaybackMetric SEEK_STARTED (VNum target) VUndefined) in
    let state := if isPlaying p then PLAYING else PAUSED in
    (type ev = Seek \/ type ev = TimeShift ->
     outcome r = Returned tt
     /\ sdkCalls (effects r) =
        sdkCalls h ++ [started (match type ev with Seek => seekTarget ev | _ => (-1)%Z end)]
     /\ stallTrackingTimeout (convivaAnalyticsTracker (final r))
        = Some Tracker.STALL_TRACKING_DELAY_MS)
    /\ (type ev = Seeked \/ type ev = TimeShifted ->
        outcome r = Returned tt
        /\ sdkCalls (effects r) =
           sdkCalls h
           ++ [ Video hd (VideoAnalytics.reportPlaybackMetric SEEK_ENDED VUndefined VUndefined);
                if _isAdBreakActive (convivaAnalyticsTracker s)
                then Ad ha (AdAnalytics.reportAdMetric PLAYER_STATE (VState state) VUndefined)
                else Video hd (VideoAnalytics.reportPlaybackMetric PLAYER_STATE (VState state)
                                 VUndefined) ]
        /\ stallTrackingTimeout (convivaAnalyticsTracker (final r)) = Timeout.idle).
Proof.
  intros host [t ssai] h [ty c n sk] p hd ha Hp Hv Ha r started state.
  subst r started state. open_tracker t. cbn in Hp, Hv, Ha. subst pl va aa.
  cbn [type seekTarget convivaAnalyticsTracker _isAdBreakActive].
  split; intros [-> | ->].
  1, 2: run_dispatch; repeat split; now observe.
  all: destruct adb, (isPlaying p) eqn:Eplaying;
       match goal with
       | |- context [Facade.dispatch ?ev ?host ?s ?h] =>
           run_handler_with (Facade.dispatch ev host) ltac:(rewrite ?Eplaying)
       end;
       repeat split; observe; now rewrite <- app_assoc.
Qed.

Lemma seeking_is_reported_to_the_content_stream_witness :
  let s := {| convivaAnalyticsTracker := adBreakTracker; ssai_isAdBreakActive := false |} in
  let ev := {| type := Seek; code := 0%N; name := ""; seekTarget := 42%Z |} in
  _player (convivaAnalyticsTracker s) = Some samplePlayer
  /\ convivaVideoAnalytics (convivaAnalyticsTracker s) = Some 0
  /\ convivaAdAnalytics (convivaAnalyticsTracker s) = Some 0
  /\ type ev = Seek
  /\ sdkCalls (effects (Facade.dispatch ev quietHost s [])) =
     [Video 0 (VideoAnalytics.reportPlaybackMetric SEEK_STARTED (VNum 42) VUndefined)].
Proof.
  cbv zeta.
  split; [reflexivity | split; [reflexivity | split; [reflexivity | split; [reflexivity |]]]].
  apply (proj1 (@seeking_is_reported_to_the_content_stream quietHost
                  {| convivaAnalyticsTracker := adBreakTracker; ssai_isAdBreakActive := false |}
                  [] {| type := Seek; code := 0%N; name := ""; seekTarget := 42%Z |}
                  samplePlayer 0 0 eq_refl eq_refl eq_refl) (or_introl eq_refl)).
Defined.

(** What the player answers about its tracks, where a method
    branches on it. *)
Ltac track_step :=
  match goal with
  | |- context [match getAudio ?p with _ => _ end] =>
      let E := fresh "Eaudio" in destruct (getAudio p) eqn:E
  | |- context [match subtitles ?p with _ => _ end] =>
      let E := fresh "Esubs" in destruct (subtitles p) eqn:E
  | |- context [match filter enabled ?l with _ => _ end] =>
      let E := fresh "Eenabled" in destruct (filter enabled l) as [|? [|? ?]] eqn:E
  | |- context [String.eqb (kind ?s) ?k] =>
      let E := fresh "Ekind" in destruct (String.eqb (kind s) k) eqn:E
  end.

Ltac walk_tracks :=
  unfold_handlers;
  repeat (first [closed_form_step_more | run_step | track_step]; unfold_handlers).

(** After a Play event the tracker is in an ad break, or it has
    played and either has a session or had it ended externally. *)
Lemma after_play host s h ev :
  type ev = Play ->
  stableInterfaces host ->
  Tracker.isPlayerAttached (convivaAnalyticsTracker s) = true ->
  let t' := convivaAnalyticsTracker (final (Facade.dispatch ev host s h)) in
  Tracker.isPlayerAttached t' = true
  /\ (_isAdBreakActive t' = true
      \/ (hasPlayed t' = true
          /\ (Tracker.isSessionActive t' = true \/ sessionEndedExternally t' = true))).
Proof.
  destruct s as [t ssai], ev as [ty c n sk]. intros Hty Hst Hp t'. subst t'.
  open_tracker t. cbn in Hty, Hp. subst ty. destruct pl as [p|]; [|discriminate].
  destruct (Facade.dispatch _ host _ h) as [[o s'] h'] eqn:E.
  revert E.
  destruct adb, va as [hd|], ext, hp; walk_tracks;
    intros E; apply triple_eq in E; destruct E as (_ & <- & _);
    cbn; auto.
Qed.

(** X27. The tracks are reported on the first Play event only.  On
    stable SDK interfaces, with a player attached: a Play event that
    finds no session (none ended externally, no ad break, nothing
    played yet) starts one and reports the audio language once; and
    whatever the integration was like before, a second Play event
    right after a Play event reaches the SDK with nothing. *)
Theorem second_play_reports_nothing :
  forall (host : Host) (s : ConvivaAnalytics) (h : History) (ev : PlayerEventBase),
    type ev = Play ->
    stableInterfaces host ->
    Tracker.isPlayerAttached (convivaAnalyticsTracker s) = true ->
    let first := run host [Fire ev] s h in
    let second := run host [Fire ev] (fst first) (snd first) in
    sdkCalls (snd second) = sdkCalls (snd first)
    /\ (forall p a,
          _player (convivaAnalyticsTracker s) = Some p ->
          getAudio p = Some a ->
          Tracker.isSessionActive (convivaAnalyticsTracker s) = false ->
          sessionEndedExternally (convivaAnalyticsTracker s) = false ->
          _isAdBreakActive (convivaAnalyticsTracker s) = false ->
          hasPlayed (convivaAnalyticsTracker s) = false ->
          sessionsBuilt (snd first) = S (sessionsBuilt h)
          /\ audioLanguageReports (snd first) = S (audioLanguageReports h)).
Proof.
  intros host s h ev Hty Hst Hp first second. subst second first.
  cbn [run step].
  pose proof (@after_play host s h ev Hty Hst Hp) as Hafter. cbv zeta in Hafter.
  split.
  - destruct (Facade.dispatch ev host s h) as [[o1 s1] h1]. unfold final in Hafter.
    cbn [fst snd] in *. destruct Hafter as [Hp1 Hstate].
    destruct s1 as [t1 ssai1], ev as [ty c n sk]. cbn in Hty. subst ty.
    destruct t1 as [pl1 dbg1 b1 key1 va1 aa1 adb1 hp1 tm1 ext1].
    cbn in Hp1, Hstate. destruct pl1 as [p1|]; [|discriminate].
    destruct (Facade.dispatch _ host _ h1) as [[o2 s2] h2] eqn:E2. cbn [fst snd].
    revert E2.
    destruct Hstate as [-> | [-> [Hact | ->]]].
    + walk. intros E; apply triple_eq in E; destruct E as (_ & _ & <-). now observe.
    + destruct va1; [|discriminate]. destruct adb1;
        walk; intros E; apply triple_eq in E; destruct E as (_ & _ & <-); now observe.
    + destruct adb1, va1;
        walk; intros E; apply triple_eq in E; destruct E as (_ & _ & <-); now observe.
  - intros p a Hpl Haudio Hidle Hext Hadb Hhp.
    destruct s as [t ssai], ev as [ty c n sk]. open_tracker t.
    cbn in Hty, Hpl, Hidle, Hext, Hadb, Hhp. subst ty pl ext adb hp.
    destruct va; [discriminate|].
    destruct (Facade.dispatch _ host _ h) as [[o1 s1] h1] eqn:E1. cbn [fst snd].
    revert E1. unfold_handlers.
    repeat (first [closed_form_step_more | run_step | rewrite Haudio | track_step];
            unfold_handlers).
    all: intros E; apply triple_eq in E; destruct E as (_ & _ & <-).
    all: unfold sessionsBuilt, audioLanguageReports; observe;
         rewrite ?length_filter_snoc; cbn; split; lia.
Qed.

Lemma second_play_reports_nothing_witness :
  let s := {| convivaAnalyticsTracker := idleTracker; ssai_isAdBreakActive := false |} in
  type (event Play) = Play
  /\ stableInterfaces quietHost
  /\ Tracker.isPlayerAttached (convivaAnalyticsTracker s) = true
  /\ sdkCalls (snd (run quietHost [Fire (event Play)]
                      (fst (run quietHost [Fire (event Play)] s []))
                      (snd (run quietHost [Fire (event Play)] s []))))
     = sdkCalls (snd (run quietHost [Fire (event Play)] s [])).
Proof.
  cbv zeta. split; [reflexivity | split; [exact quietHost_stable | split; [reflexivity |]]].
  apply (@second_play_reports_nothing quietHost
           {| convivaAnalyticsTracker := idleTracker; ssai_isAdBreakActive := false |} []
           (event Play) eq_refl quietHost_stable eq_refl).
Defined.

Ltac run_facade :=
  match goal with
  | |- context [Facade.endSession ?host ?s ?h] => run_handler (Facade.endSession host)
  | |- context [Facade.initializeSession ?host ?s ?h] =>
      run_handler (Facade.initializeSession host)
  end.

(** X28. After [endSession] ended a session, the player's events
    start no new one: on stable SDK interfaces [endSession] of the
    facade leaves no session, no server-side ad break, and
    [sessionEndedExternally] set; in that state a Play or an Error
    event reaches the SDK with nothing and leaves the state so; and
    [initializeSession], when an asset name is at hand, starts a
    session and clears [sessionEndedExternally] again. *)
Theorem ended_session_is_restarted_by_initializeSession_only :
  forall (host : Host) (s : ConvivaAnalytics) (h : History),
    stableInterfaces host ->
    (Tracker.isSessionActive (convivaAnalyticsTracker s) = true ->
     paired (convivaAnalyticsTracker s) ->
     let ended := Facade.endSession host s h in
     outcome ended = Returned tt
     /\ sessionless (convivaAnalyticsTracker (final ended))
     /\ sessionEndedExternally (convivaAnalyticsTracker (final ended)) = true
     /\ Ssai.isAdBreakActive (final ended) = false)
    /\ (sessionless (convivaAnalyticsTracker s) ->
        sessionEndedExternally (convivaAnalyticsTracker s) = true ->
        (forall ev,
           type ev = Play \/ type ev = Error ->
           let r := Facade.dispatch ev host s h in
           sdkCalls (effects r) = sdkCalls h
           /\ sessionless (convivaAnalyticsTracker (final r))
           /\ sessionEndedExternally (convivaAnalyticsTracker (final r)) = true)
        /\ (assetNameResolvable (convivaAnalyticsTracker s) = true ->
            let r := Facade.initializeSession host s h in
            outcome r = Returned tt
            /\ Tracker.isSessionActive (convivaAnalyticsTracker (final r)) = true
            /\ sessionEndedExternally (convivaAnalyticsTracker (final r)) = false
            /\ sessionsBuilt (effects r) = S (sessionsBuilt h))).
Proof.
  intros host [t ssai] h Hst. open_tracker t. split.
  - intros Hact Hpair ended. subst ended. unfold paired in Hpair. cbn in Hact, Hpair.
    subst aa. destruct va as [hd|]; [|discriminate].
    destruct adb; run_facade; unfold sessionless; cbn; auto.
  - intros [Hv Ha] Hext. cbn in Hv, Ha, Hext. subst va aa ext. split.
    + intros [ty c n sk] Hty r. subst r. cbn in Hty.
      destruct Hty as [-> | ->]; destruct pl as [p|], adb, hp; run_dispatch;
        unfold sessionless; cbn; repeat split; now observe.
    + unfold assetNameResolvable.
      cbn [contentMetadataBuilder _player convivaAnalyticsTracker].
      intros Hname. cbv zeta.
      destruct (Facade.initializeSession host _ h) as [[o s'] h'] eqn:E. revert E.
      unfold_handlers.
      destruct (truthy (Builder.get_assetName b)) eqn:Ename; cbn [orb] in Hname.
      * destruct pl as [p|]; unfold_handlers; walk;
          repeat (first [ match goal with
                          | |- context [match getSource ?p with _ => _ end] =>
                              destruct (getSource p)
                          end
                        | progress walk ]);
          intros E; apply triple_eq in E; destruct E as (<- & <- & <-);
          unfold outcome, final, effects, sessionsBuilt; cbn [fst snd]; repeat split;
          observe; rewrite ?length_filter_snoc; cbn; lia.
      * destruct pl as [p|]; [|discriminate].
        destruct (getSource p) eqn:Esrc; [|discriminate].
        unfold_handlers. rewrite ?Esrc. walk. rewrite ?Esrc. walk.
        intros E; apply triple_eq in E; destruct E as (<- & <- & <-).
        unfold outcome, final, effects, sessionsBuilt; cbn [fst snd]; repeat split;
          observe; rewrite ?length_filter_snoc; cbn; lia.
Qed.

Lemma ended_session_is_restarted_by_initializeSession_only_witness :
  stableInterfaces quietHost
  /\ Tracker.isSessionActive (convivaAnalyticsTracker sampleFacade) = true
  /\ paired (convivaAnalyticsTracker sampleFacade)
  /\ sessionEndedExternally
       (convivaAnalyticsTracker (final (Facade.endSession quietHost sampleFacade []))) = true.
Proof.
  split; [exact quietHost_stable | split; [reflexivity | split; [reflexivity |]]].
  apply (proj1 (@ended_session_is_restarted_by_initializeSession_only quietHost sampleFacade []
                  quietHost_stable) eq_refl eq_refl).
Defined.

(** ** Runs without a session *)

Ltac run_step_input :=
  match goal with
  | |- context [step ?i ?host ?s ?h] =>
      let o := fresh "o" in
      let s' := fresh "s'" in
      let h' := fresh "h'" in
      let E := fresh "Erun" in
      destruct (step i host s h) as [[o s'] h'] eqn:E;
      revert E; walk; intros E; apply triple_eq in E;
      destruct E as (<- & <- & <-);
      try unfold outcome, final, effects; cbn [fst snd]
  end.

(** Without a session an input that starts none reaches the SDK
    with nothing, and leaves the integration without a session. *)
Lemma step_without_session host (i : Input) s h :
  startsNothing i = true ->
  sessionless (convivaAnalyticsTracker s) ->
  sessionless (convivaAnalyticsTracker (final (step i host s h)))
  /\ sdkCalls (effects (step i host s h)) = sdkCalls h.
Proof.
  destruct s as [t ssai]. open_tracker t. intros Hi [Hv Ha]. cbn in Hv, Ha. subst va aa.
  unfold sessionless.
  destruct i as [ev|p|ms|ms|p| | |o|m sev e| | | | | | | ]; try discriminate Hi.
  - destruct ev as [ty c n sk]. cbn in Hi.
    destruct ty; try discriminate Hi; destruct pl as [p|], adb;
      run_step_input; repeat split; now observe.
  - destruct pl; run_step_input; repeat split; now observe.
  - cbn [step]. unfold onTracker, zoom.
    destruct tm as [remaining|].
    + destruct (Nat.leb_spec remaining ms) as [Hle | Hlt].
      * match goal with
        | |- context [Tracker.elapse ms host ?t h] =>
            rewrite (@elapse_late remaining ms host t h eq_refl Hle)
        end.
        unfold final, effects. cbn. destruct adb; repeat split; now observe.
      * match goal with
        | |- context [Tracker.elapse ms host ?t h] =>
            rewrite (@elapse_early remaining ms host t h eq_refl Hlt)
        end.
        unfold final, effects. cbn. repeat split.
    + match goal with
      | |- context [Tracker.elapse ms host ?t h] =>
          rewrite (@elapse_idle ms host t h eq_refl)
      end.
      unfold final, effects. cbn. repeat split.
  - run_step_input. repeat split.
  - cbn [step]. unfold Facade.attachPlayer, Tracker.canAttachPlayer. unfold_handlers.
    destruct (getSource p), pl; unfold_handlers; repeat split.
  - run_step_input; repeat split; try reflexivity; now observe.
  - run_step_input; repeat split; try reflexivity; now observe.
  - run_step_input; repeat split; try reflexivity; now observe.
  - run_step_input; repeat split; try reflexivity; now observe.
  - run_step_input; repeat split; try reflexivity; now observe.
  - destruct adb, ssai; run_step_input; repeat split; try reflexivity; now observe.
  - destruct ssai; run_step_input; repeat split; try reflexivity; now observe.
  - destruct ssai; run_step_input; repeat split; try reflexivity; now observe.
  - destruct ssai; run_step_input; repeat split; try reflexivity; now observe.
Qed.

(** X29. Without a session nothing is reported, and only a Play
    event, an Error event or [initializeSession] can start one: a run
    of any other inputs (other player events, player changes, elapsed
    time, playhead polls, attaching a player, [endSession],
    [updateContentMetadata], [reportPlaybackDeficiency],
    [pauseTracking], [resumeTracking], the server-side ad calls),
    from an integration without a session, makes no SDK call and ends
    without a session, whatever the SDK would do. *)
Theorem nothing_is_reported_without_a_session :
  forall (host : Host) (inputs : list Input) (s : ConvivaAnalytics) (h : History),
    sessionless (convivaAnalyticsTracker s) ->
    forallb startsNothing inputs = true ->
    sdkCalls (snd (run host inputs s h)) = sdkCalls h
    /\ sessionless (convivaAnalyticsTracker (fst (run host inputs s h))).
Proof.
  intros host inputs. induction inputs as [|i rest IH]; intros s h Hs Hall; cbn [run].
  - split; [reflexivity | exact Hs].
  - cbn [forallb] in Hall. apply andb_true_iff in Hall. destruct Hall as [Hi Hrest].
    destruct (@step_without_session host i s h Hi Hs) as [Hs' Hcalls].
    unfold final, effects in Hs', Hcalls.
    destruct (step i host s h) as [[o s'] h']. cbn [fst snd] in *.
    destruct (IH s' h' Hs' Hrest) as [Hcalls' Hs''].
    split; [congruence | exact Hs''].
Qed.

Lemma nothing_is_reported_without_a_session_witness :
  let inputs :=
    [ AttachPlayer (unloaded samplePlayer); Fire (event Playing); Fire (event Seek);
      PauseTracking; SsaiAdBreakStarted; Elapse 200; EndSession ] in
  sessionless (convivaAnalyticsTracker (Facade.new true))
  /\ forallb startsNothing inputs = true
  /\ sdkCalls (snd (run hostileHost inputs (Facade.new true) [])) = [].
Proof.
  cbv zeta. split; [split; reflexivity | split; [reflexivity |]].
  apply (@nothing_is_reported_without_a_session hostileHost
           [ AttachPlayer (unloaded samplePlayer); Fire (event Playing); Fire (event Seek);
             PauseTracking; SsaiAdBreakStarted; Elapse 200; EndSession ]
           (Facade.new true) []); [split; reflexivity | reflexivity].
Defined.

(** ** The two objects of a session *)

Lemma paired_modify host f :
  keepsObjects f -> preserves host trackerPaired (modify f).
Proof.
  intros Hf. apply preserves_modify. intros t h Hpair.
  unfold trackerPaired, paired in *. destruct (Hf t) as [-> ->]. exact Hpair.
Qed.

Lemma paired_log host e : preserves host trackerPaired (emit e).
Proof. apply preserves_emit. intros t h Hpair. exact Hpair. Qed.

Lemma paired_sdk host c : preserves host trackerPaired (sdk c).
Proof. apply preserves_sdk. intros t h Hpair. exact Hpair. Qed.

Lemma paired_reportAdEnded host : preserves host trackerPaired Tracker.reportAdEnded.
Proof. intros t h Hpair. now rewrite reportAdEnded_run. Qed.

Lemma paired_onTracker {A} host (m : M ConvivaAnalyticsTracker A) :
  preserves host trackerPaired m ->
  preserves host facadePaired (onTracker m).
Proof.
  intros Hm. unfold onTracker.
  exact (@preserves_zoom _ _ _ host trackerPaired convivaAnalyticsTracker set_tracker m
           (fun t s => eq_refl) Hm).
Qed.

Lemma facadePaired_modify host (f : ConvivaAnalytics -> ConvivaAnalytics) :
  (forall s, convivaAnalyticsTracker (f s) = convivaAnalyticsTracker s) ->
  preserves host facadePaired (modify f).
Proof.
  intros Hf. apply preserves_modify. intros s h H. unfold facadePaired. now rewrite Hf.
Qed.

Lemma facadePaired_log host e : preserves host facadePaired (emit e).
Proof. apply preserves_emit. intros s h Hpair. exact Hpair. Qed.

(** With stable interfaces [internalInitializeSession] ends with
    both objects built. *)
Lemma paired_internalInitializeSession host :
  stableInterfaces host ->
  preserves host trackerPaired Tracker.internalInitializeSession.
Proof.
  intros Hst t h _. open_tracker t.
  destruct pl as [p|]; run_method (Tracker.internalInitializeSession host); reflexivity.
Qed.

(** With stable interfaces the two objects are released together. *)
Lemma paired_internalEndSession host :
  stableInterfaces host ->
  preserves host trackerPaired Tracker.internalEndSession.
Proof.
  intros Hst t h Hpair. open_tracker t. unfold trackerPaired, paired in Hpair.
  cbn in Hpair. subst aa.
  destruct va; run_method (Tracker.internalEndSession host); reflexivity.
Qed.

Lemma paired_onPlaybackFinished host ev :
  stableInterfaces host ->
  preserves host trackerPaired (Tracker.onPlaybackFinished ev).
Proof.
  intros Hst t h Hpair. open_tracker t. unfold trackerPaired, paired in Hpair.
  cbn in Hpair. subst aa.
  destruct va; run_method (Tracker.onPlaybackFinished ev host); reflexivity.
Qed.

(** Decompose a method along its sequencing and branching. *)
Ltac keep_paired_step Hst :=
  first
    [ assumption
    | apply paired_onPlaybackFinished; exact Hst
    | apply paired_reportAdEnded
    | apply paired_onTracker
    | apply preserves_ret
    | apply preserves_throw
    | apply preserves_get
    | apply preserves_gets
    | apply preserves_bind; [|intro]
    | apply preserves_tryCatch; [|intro]
    | apply preserves_when
    | apply paired_modify; intros []; split; reflexivity
    | apply facadePaired_modify; reflexivity
    | apply paired_log
    | apply facadePaired_log
    | apply paired_sdk
    | match goal with
      | |- preserves _ _ (if ?b then _ else _) => destruct b
      | |- preserves _ _ (match ?x with _ => _ end) => destruct x
      | |- preserves _ _ (let _ := _ in _) => cbv zeta
      end ].

Ltac keep_paired Hst := repeat keep_paired_step Hst.

Lemma step_paired host (i : Input) :
  stableInterfaces host -> preserves host facadePaired (step i).
Proof.
  intros Hst.
  pose proof (paired_internalInitializeSession Hst) as Hinit.
  pose proof (paired_internalEndSession Hst) as Hend.
  destruct i; cbn [step]; try unfold Facade.dispatch; keep_paired Hst.
Qed.

(** X30. On stable SDK interfaces the ad object of the tracker is
    there exactly when the video object is, in every run of the
    integration from its construction on: the two are built together
    and released together, so during a session a report to the ad
    stream never finds the ad object missing. *)
Theorem analytics_objects_come_in_pairs :
  forall (host : Host) (debug : bool) (inputs : list Input),
    stableInterfaces host ->
    let t := convivaAnalyticsTracker (fst (run host inputs (Facade.new debug) [])) in
    paired t
    /\ (Tracker.isSessionActive t = true <-> convivaAdAnalytics t <> None).
Proof.
  intros host debug inputs Hst t.
  assert (Hrun : forall s h, facadePaired s h ->
            facadePaired (fst (run host inputs s h)) (snd (run host inputs s h))).
  { induction inputs as [|i rest IH]; intros s h H; cbn [run].
    - exact H.
    - pose proof (@step_paired host i Hst s h H) as Hstep.
      unfold final, effects in Hstep.
      destruct (step i host s h) as [[o s'] h']. cbn [fst snd] in Hstep.
      apply IH, Hstep. }
  assert (Hpair : paired t).
  { exact (Hrun (Facade.new debug) [] eq_refl). }
  split; [exact Hpair|].
  unfold paired in Hpair. unfold Tracker.isSessionActive. rewrite Hpair.
  destruct (convivaVideoAnalytics t); split; congruence.
Qed.

Lemma analytics_objects_come_in_pairs_witness :
  stableInterfaces quietHost
  /\ convivaAdAnalytics
       (convivaAnalyticsTracker (fst (run quietHost playbackUnderWay (Facade.new false) [])))
     = Some 0.
Proof.
  split; [exact quietHost_stable|].
  rewrite (proj1 (@analytics_objects_come_in_pairs quietHost false playbackUnderWay
                    quietHost_stable)).
  reflexivity.
Defined.

(** * The stall timer, as the player's events reach it *)

(** ** Player states in a history in closed form *)







(** ** One event *)




(** ** Time passing *)



(** ** The debounce *)



